(** * Data Ingestion Service: a shallow embedding and its verified properties

    The development follows [dataingestion/dataingestionservice.py],
    [dataingestion/seriesprocesser.py] and the configuration classes next to
    them.  Python values are modelled as the code has them:

    - Python [int]s are [Z]; [float64] values are the kernel's binary64
      floats ([PrimFloat.float]); strings are [string];
    - a one-row pandas [DataFrame] is an association list from column labels
      to values, in column order; the temporary and the output data frames
      are lists of rows of cells under the fixed column list
      [_series_columns];
    - the file system, the log and the calls that matter for the properties
      are one explicit [World] value threaded through every function;
    - raised exceptions are values of [PyResult].

    The pandas and datetime calls whose text-level behaviour is not part of
    this repository ([pd.read_csv], [DataFrame.to_csv],
    [datetime.strptime]) are variables of the section [Service]: every
    theorem holds whatever they compute; the module [Lab] gives simple ones
    to run the service on the concrete inputs of the module [Scenario].
    INFO and DEBUG log records carry no behaviour and are left out of the
    log; WARNING and CRITICAL records are kept.  [KeyboardInterrupt], an
    asynchronous signal, is outside the model.

    The file has three parts: the model, in the order of the source; the
    concrete inputs and the vocabulary of the properties; the properties,
    each claim under its number. *)

From Stdlib Require Import ZArith List String Ascii Bool Lia PeanoNat FinFun.
From Stdlib Require Import Floats DecimalString DecimalPos.
Import ListNotations.

Local Open Scope string_scope.
Local Open Scope list_scope.
Local Open Scope Z_scope.

(* ------------------------------------------------------------------ *)
(** ** Python values and exceptions *)

(** The exception classes the service raises, catches or lets through.
    [FileExistsError] is a subclass of [OSError]; pandas' [ParserError] and
    [EmptyDataError] are subclasses of [ValueError]. *)
Inductive PyExc : Type :=
| OSError
| FileExistsError
| ValueError (msg : string)
| IndexError
| KeyError.

Definition is_OSError (e : PyExc) : bool :=
  match e with
  | OSError | FileExistsError => true
  | _ => false
  end.


Inductive PyResult (A : Type) : Type :=
| PyOk (a : A)
| PyRaise (e : PyExc).
Arguments PyOk {A} a.
Arguments PyRaise {A} e.

Definition py_bind {A B : Type} (r : PyResult A) (k : A -> PyResult B)
  : PyResult B :=
  match r with
  | PyOk a => k a
  | PyRaise e => PyRaise e
  end.

(** An argument that may be omitted ([None]) or be any Python object; only
    [int] objects are told apart from the others by [isinstance]. *)
Inductive PyArg : Type :=
| PyInt (z : Z)
| PyNotInt.

Module Py.

(** [range(a, b)] *)
Definition range (a b : Z) : list Z :=
  map (fun i => a + Z.of_nat i) (seq 0 (Z.to_nat (b - a))).

(** [str(z)] for an [int]. *)
Definition str (z : Z) : string := NilZero.string_of_int (Z.to_int z).

(** [s[:-k]] for a literal [k > 0]. *)
Definition drop_last (k : nat) (s : string) : string :=
  substring 0 (String.length s - k) s.

(** [s[-k:]] where [k] is [len] of something: [s[-0:]] is all of [s]. *)
Definition suffix (k : nat) (s : string) : string :=
  match k with
  | O => s
  | _ => substring (String.length s - k) k s
  end.

(** [s[n:]] *)
Fixpoint skip (n : nat) (s : string) : string :=
  match n, s with
  | O, _ => s
  | S n', String _ s' => skip n' s'
  | S _, EmptyString => EmptyString
  end.

(** [s.find(sep)] for a non-empty [sep]: the least index where [sep]
    occurs. *)
Fixpoint find (sep s : string) : option nat :=
  if prefix sep s then Some O
  else match s with
       | EmptyString => None
       | String _ s' => option_map S (find sep s')
       end.

(** [s.split(sep)] for a non-empty [sep], cutting at the leftmost
    occurrences; [fuel] bounds the number of cuts. *)
Fixpoint split_fuel (fuel : nat) (sep s : string) : list string :=
  match fuel with
  | O => [s]
  | S fuel' =>
      match find sep s with
      | None => [s]
      | Some i =>
          substring 0 i s
            :: split_fuel fuel' sep (skip (i + String.length sep) s)
      end
  end.

(** [s.split(sep)]: an empty separator raises [ValueError]. *)
Definition split (s sep : string) : PyResult (list string) :=
  match sep with
  | EmptyString => PyRaise (ValueError "empty separator")
  | _ => PyOk (split_fuel (String.length s) sep s)
  end.

(** [sep.join(l)] *)
Definition join (sep : string) (l : list string) : string :=
  String.concat sep l.

Definition newline : ascii := ascii_of_nat 10.
Definition carriage_return : ascii := ascii_of_nat 13.

(** [f.readline()] on a file just opened in text mode: the first line.
    [open] reads with universal newlines, so the line ends at the first
    line feed or carriage return, and its ending, whichever it is on disk,
    is read as one line feed. *)
Fixpoint readline (s : string) : string :=
  match s with
  | EmptyString => EmptyString
  | String c s' =>
      if Ascii.eqb c newline || Ascii.eqb c carriage_return
      then String newline EmptyString
      else String c (readline s')
  end.

(** [s[-1]]: [None] stands for the [IndexError] of an empty string. *)
Fixpoint last_char (s : string) : option ascii :=
  match s with
  | EmptyString => None
  | String c EmptyString => Some c
  | String _ s' => last_char s'
  end.

(** [s[:-1]] *)
Definition drop_last_char (s : string) : string := drop_last 1 s.

End Py.

(* ------------------------------------------------------------------ *)
(** ** float64 *)

Module F64.

Definition of_Z (z : Z) : float :=
  if z <? 0 then PrimFloat.opp (PrimFloat.of_uint63 (Uint63.of_Z (- z)))
  else PrimFloat.of_uint63 (Uint63.of_Z z).

Definition nan : float := PrimFloat.nan.

(** [x != y] on floats, as Python and numpy compute it. *)
Definition neqb (x y : float) : bool := negb (PrimFloat.eqb x y).

(** [pd.isnull] *)
Definition isnull (x : float) : bool := PrimFloat.is_nan x.

(** Equality of two values of a float64 column in [DataFrame.duplicated]:
    numerically equal, or both missing. *)
Definition same (x y : float) : bool :=
  PrimFloat.eqb x y || (PrimFloat.is_nan x && PrimFloat.is_nan y).

(** The integer a finite float truncates to. *)
Definition trunc (x : float) : option Z :=
  match Prim2SF x with
  | S754_zero _ => Some 0
  | S754_finite s m e =>
      let a := if 0 <=? e then Z.pos m * 2 ^ e
               else Z.pos m / 2 ^ (- e) in
      Some (if s then - a else a)
  | S754_infinity _ | S754_nan => None
  end.

(** The [int32] a truncated value is cast to: itself when it fits.  For a
    value out of range numpy leaves the result to the C cast, which gives
    the least [int32] on x86-64; the flags the service writes, -1, 0 and
    1, are in range. *)
Definition to_int32 (z : Z) : Z :=
  if (- 2 ^ 31 <=? z) && (z <? 2 ^ 31) then z else - 2 ^ 31.

(** One value under [Series.astype("int32")]: a non-finite value raises
    [ValueError]. *)
Definition astype_int32 (x : float) : PyResult Z :=
  match trunc x with
  | Some z => PyOk (to_int32 z)
  | None =>
      PyRaise (ValueError "Cannot convert non-finite values to integer")
  end.

End F64.

(* ------------------------------------------------------------------ *)
(** ** Configuration ([seriestypeconfiguration.py],
       [dataingestionconfiguration.py]) *)

(** [series_type]: the constructor is called with the literal "labeled" or
    "unlabeled" only. *)
Inductive SeriesType : Type := labeled | unlabeled.

(** [NULLFillingStrategy]: the two names the service tests for, and the two
    methods it hands to [fillna] otherwise. *)
Inductive NullFilling : Type :=
| linearInterpolation
| zeroFill
| ffill
| bfill.

(** [duplicatedPolicy], tested with [!= "save"]. *)
Inductive DuplicatedPolicy : Type := dup_save | dup_discard.

(** [malformedPolicy], tested with [!= "drop"]. *)
Inductive MalformedPolicy : Type := mal_drop | mal_save.

Record SeriesTypeConfiguration : Type := {
  series_type : SeriesType;
  input_file_extension : string;
  input_file_datetime_format : string;
  input_series_separator : string;
  output_series_separator : string;
  max_null_perc : float;
  max_consec_null : Z;
  null_filling_strategy : NullFilling;
  duplicated_policy : DuplicatedPolicy;
  malformed_policy : MalformedPolicy
}.

Record DataIngestionConfiguration : Type := {
  sample_size : Z;
  default_label : string;
  starting_index : Z;
  max_series_per_run : Z;
  multi_core_enable : bool;
  multi_core_limit : Z;
  conf_labeled : SeriesTypeConfiguration;
  conf_unlabeled : SeriesTypeConfiguration
}.

(** [self._series_columns], as [__init__] builds it. *)
Definition series_columns (conf : DataIngestionConfiguration) : list string :=
  ["timestamp"; "ANOMALOUS"]
    ++ map (fun i =>
              String.append (default_label conf)
                            (Py.str (starting_index conf + i)))
           (Py.range 0 (sample_size conf)).

(** The service object: its configuration and the number of pipes to worker
    tasks ([len(self._pipes)]). *)
Record DataIngestionService : Type := {
  _conf : DataIngestionConfiguration;
  _pipes : nat
}.

Definition _series_columns (self : DataIngestionService) : list string :=
  series_columns (_conf self).

(* ------------------------------------------------------------------ *)
(** ** Data frames *)

(** A value of the canonical table: the timestamp, a float64 sample, or
    the [ANOMALOUS] flag once cast to [int32]. *)
Inductive Cell : Type :=
| CTime (t : Z)
| CFloat (x : float)
| CInt (z : Z).

(** A row of the canonical table, under the columns [_series_columns]. *)
Definition Row : Type := list Cell.

(** The temporary data frame and the output data frame. *)
Definition Frame : Type := list Row.

(** Column labels of the one-row frame a series is read into: [read_csv]
    with [header=None] numbers the columns; the service inserts two named
    ones. *)
Inductive Label : Type :=
| LInt (i : Z)
| LStr (s : string).

Definition label_eqb (a b : Label) : bool :=
  match a, b with
  | LInt i, LInt j => i =? j
  | LStr s, LStr t => String.eqb s t
  | _, _ => false
  end.

(** The one-row frame [df] of [_process_series]. *)
Definition Series : Type := list (Label * float).

Module DF.

Definition columns (df : Series) : list Label := map fst df.
Definition values (df : Series) : list float := map snd df.

(** [df.shape[1]] *)
Definition shape1 (df : Series) : Z := Z.of_nat (List.length df).

(** The frame of a row read with [header=None]. *)
Definition of_row (r : list float) : Series :=
  combine (map LInt (Py.range 0 (Z.of_nat (List.length r)))) r.

Definition has_column (l : Label) (df : Series) : bool :=
  existsb (label_eqb l) (columns df).

(** [df.at[0, l]]: a missing label raises [KeyError]. *)
Fixpoint at0 (l : Label) (df : Series) : PyResult float :=
  match df with
  | [] => PyRaise KeyError
  | (l', x) :: df' => if label_eqb l l' then PyOk x else at0 l df'
  end.

(** [df.insert(0, column=l, value=x)]: an existing label raises
    [ValueError]. *)
Definition insert0 (l : Label) (x : float) (df : Series) : PyResult Series :=
  if has_column l df
  then PyRaise (ValueError "cannot insert, already exists")
  else PyOk ((l, x) :: df).

(** [df.columns[[i for i in positions]]]: positional indexing of the
    column index, negative positions counted from the end, out of bounds
    raising [IndexError]. *)
Fixpoint columns_at (df : Series) (positions : list Z)
  : PyResult (list Label) :=
  match positions with
  | [] => PyOk []
  | i :: rest =>
      let j := if i <? 0 then i + shape1 df else i in
      match (if (0 <=? j) && (j <? shape1 df)
             then nth_error (columns df) (Z.to_nat j) else None) with
      | None => PyRaise IndexError
      | Some l => py_bind (columns_at df rest) (fun ls => PyOk (l :: ls))
      end
  end.

(** [df.drop(labels, axis=1, inplace=True)] for labels taken from the
    frame itself. *)
Definition drop (labels : list Label) (df : Series) : Series :=
  filter (fun c => negb (existsb (label_eqb (fst c)) labels)) df.

(** [df[l] = x]: overwrite the column of that label, or append a new last
    column. *)
Definition set_column (l : Label) (x : float) (df : Series) : Series :=
  if has_column l df
  then map (fun c => if label_eqb (fst c) l then (fst c, x) else c) df
  else df ++ [(l, x)].

(** [df.iloc[0].isnull().sum()] *)
Definition null_count (df : Series) : Z :=
  Z.of_nat (List.length (filter F64.isnull (values df))).

(** [notnull().astype(int).cumsum()] of the row. *)
Fixpoint notnull_cumsum (acc : Z) (xs : list float) : list Z :=
  match xs with
  | [] => []
  | x :: xs' =>
      let acc' := if F64.isnull x then acc else acc + 1 in
      acc' :: notnull_cumsum acc' xs'
  end.

(** [groupby(keys).sum()] of non-decreasing keys: one sum per run of
    equal keys. *)
Fixpoint groupby_sum (cur : option (Z * Z)) (kvs : list (Z * Z)) : list Z :=
  match kvs with
  | [] => match cur with Some (_, s) => [s] | None => [] end
  | (k, v) :: rest =>
      match cur with
      | None => groupby_sum (Some (k, v)) rest
      | Some (k0, s) =>
          if k =? k0 then groupby_sum (Some (k0, s + v)) rest
          else s :: groupby_sum (Some (k, v)) rest
      end
  end.

(** [pd.Series.max(isnull.astype(int).groupby(notnull.astype(int)
    .cumsum()).sum())]: the longest run of consecutive NULL values;
    [None] is the [nan] pandas gives for a row with no column. *)
Definition max_consec_null (df : Series) : option Z :=
  let xs := values df in
  let keys := notnull_cumsum 0 xs in
  let ones := map (fun x => if F64.isnull x then 1 else 0) xs in
  match groupby_sum None (combine keys ones) with
  | [] => None
  | s :: sums => Some (fold_right Z.max s sums)
  end.

(** [df.fillna(0, axis=1)] *)
Definition fill_zero (xs : list float) : list float :=
  map (fun x => if F64.isnull x then PrimFloat.zero else x) xs.

(** [df.fillna(method="ffill", axis=1)]: the last valid value to the
    left, if any. *)
Fixpoint fill_forward (prev : option float) (xs : list float) : list float :=
  match xs with
  | [] => []
  | x :: xs' =>
      if F64.isnull x
      then match prev with
           | Some p => p :: fill_forward prev xs'
           | None => x :: fill_forward prev xs'
           end
      else x :: fill_forward (Some x) xs'
  end.

(** The first valid value of [xs] and its offset. *)
Fixpoint next_valid (xs : list float) : option (Z * float) :=
  match xs with
  | [] => None
  | x :: xs' =>
      if F64.isnull x
      then option_map (fun p => (fst p + 1, snd p)) (next_valid xs')
      else Some (0, x)
  end.

(** [df.fillna(method="bfill", axis=1)]: the next valid value to the
    right, if any. *)
Fixpoint fill_backward (xs : list float) : list float :=
  match xs with
  | [] => []
  | x :: xs' =>
      (if F64.isnull x
       then match next_valid xs' with
            | Some (_, v) => v
            | None => x
            end
       else x) :: fill_backward xs'
  end.

(** [df.interpolate(method="linear", axis=1)]: values equally spaced; a
    NULL between two valid values lies on the line through them
    ([slope * (x - x0) + y0], as [numpy.interp] computes it); NULLs after
    the last valid value repeat it; NULLs before the first stay. *)
Fixpoint interpolate (prev : option (Z * float)) (pos : Z) (xs : list float)
  : list float :=
  match xs with
  | [] => []
  | x :: xs' =>
      if F64.isnull x
      then (match prev with
            | None => x
            | Some (i, a) =>
                match next_valid xs' with
                | None => a
                | Some (d, b) =>
                    let slope :=
                      PrimFloat.div (PrimFloat.sub b a)
                                    (F64.of_Z (pos + 1 + d - i)) in
                    PrimFloat.add
                      (PrimFloat.mul slope (F64.of_Z (pos - i))) a
                end
            end) :: interpolate prev (pos + 1) xs'
      else x :: interpolate (Some (pos, x)) (pos + 1) xs'
  end.

(** The NULL filling of a valid series, by configured strategy. *)
Definition fill (strategy : NullFilling) (xs : list float) : list float :=
  match strategy with
  | linearInterpolation => interpolate None 0 xs
  | zeroFill => fill_zero xs
  | ffill => fill_forward None xs
  | bfill => fill_backward xs
  end.

End DF.

(* ------------------------------------------------------------------ *)
(** ** The world: file system, log and calls *)

(** Why a series is malformed: the values [malformed_cause] takes in
    [_process_series], with the numbers the message is built from. *)
Inductive MalformedCause : Type :=
| cause_empty_series
| cause_multi_row
| cause_invalid_anomalous
| cause_null_threshold (null_samples_count : Z)
| cause_consec_null_threshold (max_consec_null limit : Z)
| cause_value_error (msg : string).

(** The fixed head of the text of each cause. *)
Definition cause_text (c : MalformedCause) : string :=
  match c with
  | cause_empty_series => "empty series"
  | cause_multi_row => "multi-row series"
  | cause_invalid_anomalous => "invalid ANOMALOUS value"
  | cause_null_threshold _ => "NULL values threshold exceeded"
  | cause_consec_null_threshold _ _ =>
      "Consecutive NULL values threshold exceeded"
  | cause_value_error _ => "ValueError in parsing the series"
  end.

Inductive Level : Type := WARNING | CRITICAL.

(** The WARNING and CRITICAL messages of the service and of its tasks. *)
Inductive Message : Type :=
| msg_empty_series (name : string)
| msg_datetime_fallback (name : string)
| msg_multiple_rows (name : string) (rows : Z)
| msg_invalid_anomalous (name : string) (value : float)
| msg_more_samples (name : string) (extra : Z)
| msg_less_samples (name : string) (missing : Z)
| msg_null_threshold (name : string) (null_samples_count : Z)
| msg_consec_null_threshold (name : string) (max_consec_null limit : Z)
| msg_parse_error (name : string) (err : string)
| msg_cleanup_error (name : string)
| msg_max_series_invalid
| msg_max_series_no_effect (max_series : Z)
| msg_input_dir_error
| msg_unexpected_extension (names : list string)
| msg_series_oserror (name : string)
| msg_persist_error
| msg_dir_is_file
| msg_file_is_dir (t : SeriesType)
| msg_output_file_empty (t : SeriesType)
| msg_headers_mismatch (t : SeriesType)
| msg_output_file_missing (t : SeriesType)
| msg_dir_missing
| msg_single_core_fallback.

Definition LogRecord : Type := (Level * Message)%type.

(** A file of the input directory.  [stat_ok = false]: [stat()] on it raises
    [OSError]; [unlink_ok = false]: removing it raises [OSError]. *)
Record SeriesFile : Type := {
  name : string;
  content : string;
  st_ctime : Z;
  stat_ok : bool;
  unlink_ok : bool
}.

(** [series_file.stat().st_size] *)
Definition st_size (f : SeriesFile) : Z := Z.of_nat (String.length (content f)).

(** Calls recorded as they happen: [_process_series] on a file, with the
    number of rows of the temporary data frame it is handed, and [to_csv] on
    the output file, written or failed with [OSError]. *)
Inductive Event : Type :=
| ev_process_series (name : string) (rows : nat)
| ev_to_csv (written : bool).

(** What one ingestion of one series type sees and changes: the input
    directory of that type (in [iterdir] order), its output file, its
    directory of malformed series, the log and the recorded calls. *)
Record World : Type := {
  input_dir : list SeriesFile;
  input_dir_ok : bool;
  output_file : string;
  output_read_ok : bool;
  output_write_ok : bool;
  malformed_dir : list (string * (string * MalformedCause));
  malformed_dir_ok : bool;
  log : list LogRecord;
  trace : list Event
}.

Definition set_input_dir (d : list SeriesFile) (w : World) : World :=
  {| input_dir := d; input_dir_ok := input_dir_ok w;
     output_file := output_file w; output_read_ok := output_read_ok w;
     output_write_ok := output_write_ok w; malformed_dir := malformed_dir w;
     malformed_dir_ok := malformed_dir_ok w; log := log w; trace := trace w |}.

Definition set_output_file (s : string) (w : World) : World :=
  {| input_dir := input_dir w; input_dir_ok := input_dir_ok w;
     output_file := s; output_read_ok := output_read_ok w;
     output_write_ok := output_write_ok w; malformed_dir := malformed_dir w;
     malformed_dir_ok := malformed_dir_ok w; log := log w; trace := trace w |}.

Definition set_malformed_dir (d : list (string * (string * MalformedCause)))
  (w : World) : World :=
  {| input_dir := input_dir w; input_dir_ok := input_dir_ok w;
     output_file := output_file w; output_read_ok := output_read_ok w;
     output_write_ok := output_write_ok w; malformed_dir := d;
     malformed_dir_ok := malformed_dir_ok w; log := log w; trace := trace w |}.

(** [log.warning(...)], [log.critical(...)] *)
Definition emit (rs : list LogRecord) (w : World) : World :=
  {| input_dir := input_dir w; input_dir_ok := input_dir_ok w;
     output_file := output_file w; output_read_ok := output_read_ok w;
     output_write_ok := output_write_ok w; malformed_dir := malformed_dir w;
     malformed_dir_ok := malformed_dir_ok w; log := log w ++ rs;
     trace := trace w |}.

Definition record (e : Event) (w : World) : World :=
  {| input_dir := input_dir w; input_dir_ok := input_dir_ok w;
     output_file := output_file w; output_read_ok := output_read_ok w;
     output_write_ok := output_write_ok w; malformed_dir := malformed_dir w;
     malformed_dir_ok := malformed_dir_ok w; log := log w;
     trace := trace w ++ [e] |}.

(** [copyfile(series_file, malformed_output_dir / name)] followed by the
    append of the cause on a new line: the copy replaces a file of the same
    name. *)
Definition copy_malformed (f : SeriesFile) (c : MalformedCause) (w : World)
  : World :=
  set_malformed_dir
    (filter (fun e => negb (String.eqb (fst e) (name f))) (malformed_dir w)
       ++ [(name f, (content f, c))]) w.

(** [Path.unlink(series_file)] *)
Definition unlink (f : SeriesFile) (w : World) : World :=
  set_input_dir
    (filter (fun g => negb (String.eqb (name g) (name f))) (input_dir w)) w.

(* ------------------------------------------------------------------ *)
(** ** The service ([dataingestionservice.py], [seriesprocesser.py]) *)

Definition W (m : Message) : LogRecord := (WARNING, m).
Definition C (m : Message) : LogRecord := (CRITICAL, m).

(** What the validation of one series comes to. *)
Inductive Verdict : Type :=
| Valid (row : Row)
| Malformed (cause : MalformedCause).

(** [np.array_split(l, n)]: [len(l) % n] sections of [len(l) // n + 1]
    elements, then sections of [len(l) // n]. *)
Fixpoint take_sections {A : Type} (sizes : list nat) (l : list A)
  : list (list A) :=
  match sizes with
  | [] => []
  | k :: ks => firstn k l :: take_sections ks (skipn k l)
  end.

Definition array_split {A : Type} (l : list A) (n : nat)
  : PyResult (list (list A)) :=
  match n with
  | O => PyRaise (ValueError "number sections must be larger than 0")
  | _ =>
      let each := (List.length l / n)%nat in
      let extras := (List.length l mod n)%nat in
      PyOk (take_sections
              (repeat (S each) extras ++ repeat each (n - extras)) l)
  end.

(** Equality of two values of one column in [DataFrame.duplicated]. *)
Definition cell_same (a b : Cell) : bool :=
  match a, b with
  | CTime s, CTime t => s =? t
  | CFloat x, CFloat y => F64.same x y
  | CInt i, CInt j => i =? j
  | _, _ => false
  end.

Fixpoint cells_same (r1 r2 : list Cell) : bool :=
  match r1, r2 with
  | [], [] => true
  | a :: r1', b :: r2' => cell_same a b && cells_same r1' r2'
  | _, _ => false
  end.

(** Two rows compared on [subset=self._series_columns[1:]]: every column
    but the first, the timestamp. *)
Definition same_series (r1 r2 : Row) : bool := cells_same (tl r1) (tl r2).

(** [df.duplicated(subset=...)] with the default [keep="first"]: a row is
    marked when a row of lower index equals it on the subset. *)
Fixpoint duplicated_from (seen : list Row) (df : Frame) : list bool :=
  match df with
  | [] => []
  | r :: df' =>
      existsb (fun s => same_series s r) seen
        :: duplicated_from (seen ++ [r]) df'
  end.

Definition duplicated (df : Frame) : list bool := duplicated_from [] df.

(** [mask[:k] = False] for [k >= 0]. *)
Definition mask_clear_prefix (k : nat) (mask : list bool) : list bool :=
  repeat false (Nat.min k (List.length mask)) ++ skipn k mask.

(** [mask.sum()] *)
Definition mask_sum (mask : list bool) : Z :=
  Z.of_nat (List.length (filter (fun b => b) mask)).

(** [out_df.drop(out_df[mask].index, inplace=True)] on a frame whose index
    was rebuilt by [ignore_index=True]. *)
Fixpoint drop_masked (mask : list bool) (df : Frame) : Frame :=
  match mask, df with
  | b :: mask', r :: df' =>
      if b then drop_masked mask' df' else r :: drop_masked mask' df'
  | _, _ => df
  end.

(** [df["ANOMALOUS"] = df["ANOMALOUS"].astype("int32")], row by row:
    [ANOMALOUS] is the second column. *)
Definition row_astype_int32 (r : Row) : PyResult Row :=
  match r with
  | t :: CFloat a :: rest =>
      py_bind (F64.astype_int32 a) (fun z => PyOk (t :: CInt z :: rest))
  | _ => PyOk r
  end.

Fixpoint frame_astype_int32 (df : Frame) : PyResult Frame :=
  match df with
  | [] => PyOk []
  | r :: df' =>
      py_bind (row_astype_int32 r) (fun r' =>
      py_bind (frame_astype_int32 df') (fun df'' => PyOk (r' :: df'')))
  end.

(** The counts a run ends with (the summary logged at lines 493-502). *)
Record RunSummary : Type := {
  ingested_series_count : Z;
  valid_series_count : Z;
  duplicated_series_count : Z;
  malformed_series_count : Z
}.

Section Service.

(** [pd.read_csv(series_file, header=None, sep=sep, dtype="float64")] on
    the text of a series: the rows read, or the exception raised. *)
Variable read_csv : string -> string -> PyResult (list (list float)).

(** [datetime.datetime.strptime(text, format)]: the timestamp, or [None]
    for its [ValueError]. *)
Variable strptime : string -> string -> option Z.

(** [pd.read_csv(output_file_path, sep=sep, parse_dates=["timestamp"],
    dtype="float64")] on the text of the output file. *)
Variable read_output : string -> string -> PyResult Frame.

(** The text [out_df.to_csv(path, sep=sep, index=False)] writes. *)
Variable to_csv : Frame -> string -> string.

Variable self : DataIngestionService.

(** Line 136: the expected number of columns less the actual one. *)
Definition samples_delta (df : Series) : Z :=
  sample_size (_conf self) + 1 - DF.shape1 df.

(** Lines 138-157: the width of the series against [sample_size + 1]. *)
Definition reconcile_width (series_name : string) (df : Series)
  : list LogRecord * PyResult Series :=
  let samples_delta := samples_delta df in
  if samples_delta <? 0 then
    ([W (msg_more_samples series_name (Z.abs samples_delta))],
     py_bind
       (DF.columns_at df
          (Py.range (sample_size (_conf self) + 1) (DF.shape1 df)))
       (fun labels => PyOk (DF.drop labels df)))
  else if 0 <? samples_delta then
    ([W (msg_less_samples series_name samples_delta)],
     PyOk (fold_left (fun d i => DF.set_column (LInt i) F64.nan d)
             (Py.range (DF.shape1 df) (sample_size (_conf self) + 1)) df))
  else ([], PyOk df).

(** Lines 190-208: the NULL filling, the timestamp inserted in front, the
    column headers set ([ValueError] when their number differs) and the
    row appended to the temporary data frame. *)
Definition fill_and_stamp (current_type : SeriesTypeConfiguration)
  (series_timestamp : Z) (df : Series) : PyResult Verdict :=
  let filled := DF.fill (null_filling_strategy current_type) (DF.values df) in
  if DF.has_column (LStr "timestamp") df
  then PyRaise (ValueError "cannot insert timestamp, already exists")
  else if negb (Nat.eqb (S (List.length filled))
                        (List.length (_series_columns self)))
  then PyRaise (ValueError "Length mismatch")
  else PyOk (Valid (CTime series_timestamp :: map CFloat filled)).

(** Lines 159-208: the NULL thresholds, then the filling. *)
Definition check_nulls (current_type : SeriesTypeConfiguration)
  (series_name : string) (series_timestamp : Z) (df : Series)
  : list LogRecord * PyResult Verdict :=
  let null_samples_count := DF.null_count df in
  let max_consec := DF.max_consec_null df in
  if PrimFloat.ltb
       (PrimFloat.mul (max_null_perc current_type)
                      (F64.of_Z (sample_size (_conf self))))
       (F64.of_Z null_samples_count)
  then ([W (msg_null_threshold series_name null_samples_count)],
        PyOk (Malformed (cause_null_threshold null_samples_count)))
  else
    match max_consec with
    | Some m =>
        if max_consec_null current_type <? m
        then ([W (msg_consec_null_threshold series_name m
                    (max_consec_null current_type))],
              PyOk (Malformed (cause_consec_null_threshold m
                                 (max_consec_null current_type))))
        else ([], fill_and_stamp current_type series_timestamp df)
    | None => ([], fill_and_stamp current_type series_timestamp df)
    end.

(** Lines 129-208: from the [ANOMALOUS] column on. *)
Definition reconcile_and_check (current_type : SeriesTypeConfiguration)
  (series_name : string) (series_timestamp : Z) (df : Series)
  : list LogRecord * PyResult Verdict :=
  match reconcile_width series_name df with
  | (logs, PyRaise e) => (logs, PyRaise e)
  | (logs, PyOk df') =>
      let '(logs', v) :=
        check_nulls current_type series_name series_timestamp df' in
      (logs ++ logs', v)
  end.

(** Lines 110-208: the body of the [try] block. *)
Definition check_series (current_type : SeriesTypeConfiguration)
  (series_file : SeriesFile) (series_timestamp : Z)
  : list LogRecord * PyResult Verdict :=
  match read_csv (content series_file)
                 (input_series_separator current_type) with
  | PyRaise e => ([], PyRaise e)
  | PyOk rows =>
      if negb (Z.of_nat (List.length rows) =? 1)
      then ([W (msg_multiple_rows (name series_file)
                  (Z.of_nat (List.length rows)))],
            PyOk (Malformed cause_multi_row))
      else
        let df := DF.of_row (hd [] rows) in
        match series_type current_type with
        | labeled =>
            match DF.at0 (LInt 0) df with
            | PyRaise e => ([], PyRaise e)
            | PyOk a =>
                if F64.neqb a (F64.of_Z 0) && F64.neqb a (F64.of_Z 1)
                then ([W (msg_invalid_anomalous (name series_file) a)],
                      PyOk (Malformed cause_invalid_anomalous))
                else reconcile_and_check current_type (name series_file)
                       series_timestamp df
            end
        | unlabeled =>
            match DF.insert0 (LStr "ANOMALOUS") (F64.of_Z (-1)) df with
            | PyRaise e => ([], PyRaise e)
            | PyOk df' =>
                reconcile_and_check current_type (name series_file)
                  series_timestamp df'
            end
        end
  end.

(** Lines 109-215: the [try] block with its [except ValueError]. *)
Definition try_check_series (current_type : SeriesTypeConfiguration)
  (series_file : SeriesFile) (series_timestamp : Z)
  : list LogRecord * PyResult Verdict :=
  match check_series current_type series_file series_timestamp with
  | (logs, PyRaise (ValueError msg)) =>
      (logs ++ [W (msg_parse_error (name series_file) msg)],
       PyOk (Malformed (cause_value_error msg)))
  | r => r
  end.

(** Lines 217-237: the copy of a malformed series when the policy asks
    for it, and the removal of the series; an [OSError] of either is
    logged. *)
Definition cleanup (current_type : SeriesTypeConfiguration)
  (series_file : SeriesFile) (malformed_cause : option MalformedCause)
  (w : World) : World :=
  let copied :=
    match malformed_cause, malformed_policy current_type with
    | Some c, mal_save =>
        if malformed_dir_ok w then PyOk (copy_malformed series_file c w)
        else PyRaise OSError
    | _, _ => PyOk w
    end in
  match copied with
  | PyRaise _ => emit [W (msg_cleanup_error (name series_file))] w
  | PyOk w' =>
      if unlink_ok series_file then unlink series_file w'
      else emit [W (msg_cleanup_error (name series_file))] w'
  end.

(** [_process_series(series_file, current_type, df_temp, log)]: the new
    world, the temporary data frame, and [True] for a valid series,
    [False] for a malformed one, or the exception let through. *)
Definition _process_series (series_file : SeriesFile)
  (current_type : SeriesTypeConfiguration) (df_temp : Frame) (w : World)
  : World * Frame * PyResult bool :=
  let w :=
    record (ev_process_series (name series_file) (List.length df_temp)) w in
  if negb (stat_ok series_file) then (w, df_temp, PyRaise OSError)
  else if st_size series_file =? 0 then
    let w := emit [W (msg_empty_series (name series_file))] w in
    (cleanup current_type series_file (Some cause_empty_series) w,
     df_temp, PyOk false)
  else
    let '(w, series_timestamp) :=
      match strptime (Py.drop_last 4 (name series_file))
                     (input_file_datetime_format current_type) with
      | Some t => (w, t)
      | None =>
          (emit [W (msg_datetime_fallback (name series_file))] w,
           st_ctime series_file)
      end in
    let '(logs, r) :=
      try_check_series current_type series_file series_timestamp in
    let w := emit logs w in
    match r with
    | PyRaise e => (w, df_temp, PyRaise e)
    | PyOk (Valid row) =>
        (cleanup current_type series_file None w, df_temp ++ [row],
         PyOk true)
    | PyOk (Malformed c) =>
        (cleanup current_type series_file (Some c) w, df_temp, PyOk false)
    end.

(** Lines 264-283: the limit on valid series; [None] when the call
    returns 0 at once. *)
Definition resolve_max_series (max_series : option PyArg) (w : World)
  : World * option Z :=
  match max_series with
  | None => (w, Some (max_series_per_run (_conf self)))
  | Some (PyInt z) =>
      if 0 <? z then
        (if multi_core_enable (_conf self)
         then emit [W (msg_max_series_no_effect z)] w else w,
         Some z)
      else (emit [C msg_max_series_invalid] w, None)
  | Some PyNotInt => (emit [C msg_max_series_invalid] w, None)
  end.

(** Lines 313-314: [file.name[-len(ext):] == ext]. *)
Definition has_extension (current_type : SeriesTypeConfiguration)
  (file : SeriesFile) : bool :=
  String.eqb
    (Py.suffix (String.length (input_file_extension current_type))
               (name file))
    (input_file_extension current_type).

(** Lines 369-410: the single-core loop over the input series, with the
    count of valid series so far. *)
Fixpoint single_core_loop (current_type : SeriesTypeConfiguration)
  (max_series : Z) (input_series : list SeriesFile)
  (valid_series_count : Z) (df_temp : Frame) (w : World)
  : World * Frame * PyResult unit :=
  match input_series with
  | [] => (w, df_temp, PyOk tt)
  | series :: rest =>
      match _process_series series current_type df_temp w with
      | (w', df_temp', PyOk valid) =>
          let valid_series_count :=
            if valid then valid_series_count + 1 else valid_series_count in
          if (0 <? max_series) && (valid_series_count =? max_series)
          then (w', df_temp', PyOk tt)
          else single_core_loop current_type max_series rest
                 valid_series_count df_temp' w'
      | (w', df_temp', PyRaise e) =>
          if is_OSError e
          then single_core_loop current_type max_series rest
                 valid_series_count df_temp'
                 (emit [C (msg_series_oserror (name series))] w')
          else (w', df_temp', PyRaise e)
      end
  end.

(** [SeriesProcesser.run], one command: every series of the task is
    processed in turn into the task's own temporary data frame.  An
    exception other than [OSError] ends the task; it is shown as raised. *)
Fixpoint task_run (current_type : SeriesTypeConfiguration)
  (input_series : list SeriesFile) (df_temp : Frame) (w : World)
  : World * Frame * PyResult unit :=
  match input_series with
  | [] => (w, df_temp, PyOk tt)
  | series :: rest =>
      match _process_series series current_type df_temp w with
      | (w', df_temp', PyOk _) => task_run current_type rest df_temp' w'
      | (w', df_temp', PyRaise e) =>
          if is_OSError e
          then task_run current_type rest df_temp'
                 (emit [C (msg_series_oserror (name series))] w')
          else (w', df_temp', PyRaise e)
      end
  end.

(** Lines 358-364: the tasks in pool order, each on its own section of
    the input series; their data frames are appended in that order.  The
    tasks work on disjoint files and share nothing, so their effects are
    composed one task after the other. *)
Fixpoint run_tasks (current_type : SeriesTypeConfiguration)
  (input_series_division : list (list SeriesFile)) (df_temp : Frame)
  (w : World) : World * Frame * PyResult unit :=
  match input_series_division with
  | [] => (w, df_temp, PyOk tt)
  | section :: rest =>
      match task_run current_type section [] w with
      | (w', df_task, PyOk _) =>
          run_tasks current_type rest (df_temp ++ df_task) w'
      | (w', _, PyRaise e) => (w', df_temp, PyRaise e)
      end
  end.

(** Lines 345-410: the processing of the input series, multi-core or
    single-core. *)
Definition process_input_series (current_type : SeriesTypeConfiguration)
  (max_series : Z) (input_series : list SeriesFile) (w : World)
  : World * Frame * PyResult unit :=
  if multi_core_enable (_conf self) then
    let used_cpu := Nat.min (List.length input_series) (_pipes self) in
    match array_split input_series used_cpu with
    | PyRaise e => (w, [], PyRaise e)
    | PyOk input_series_division =>
        run_tasks current_type input_series_division [] w
    end
  else single_core_loop current_type max_series input_series 0 [] w.

(** Lines 459-464: the mask of duplicates, cleared on the rows the output
    file already held. *)
Definition new_duplicates_mask (out_df df_temp : Frame) : list bool :=
  mask_clear_prefix (List.length out_df - List.length df_temp)
                    (duplicated out_df).

(** Lines 459-476: the duplicates among the rows just appended, dropped
    from the output data frame; the frame kept and the number dropped. *)
Definition drop_new_duplicates (out_df df_temp : Frame) : Frame * Z :=
  let duplicates_mask := new_duplicates_mask out_df df_temp in
  let duplicated_series_count := mask_sum duplicates_mask in
  if 0 <? duplicated_series_count
  then (drop_masked duplicates_mask out_df, duplicated_series_count)
  else (out_df, duplicated_series_count).

(** Lines 435-482: the body of the [try] block that persists the valid
    series: the new world, [duplicated_series_count] as the block leaves
    it, and [ingested_series_count] or the exception raised. *)
Definition try_persist (current_type : SeriesTypeConfiguration)
  (df_temp : Frame) (w : World) : World * Z * PyResult Z :=
  let ingested_series_count := Z.of_nat (List.length df_temp) in
  if negb (output_read_ok w) then (w, 0, PyRaise OSError)
  else
    match read_output (output_file w)
                      (output_series_separator current_type) with
    | PyRaise e => (w, 0, PyRaise e)
    | PyOk out_df =>
        match frame_astype_int32 df_temp with
        | PyRaise e => (w, 0, PyRaise e)
        | PyOk df_temp =>
            match frame_astype_int32 out_df with
            | PyRaise e => (w, 0, PyRaise e)
            | PyOk out_df =>
                let out_df := out_df ++ df_temp in
                let '(out_df, duplicated_series_count) :=
                  match duplicated_policy current_type with
                  | dup_save => (out_df, 0)
                  | dup_discard => drop_new_duplicates out_df df_temp
                  end in
                let ingested_series_count :=
                  ingested_series_count - duplicated_series_count in
                if 0 <? ingested_series_count then
                  if output_write_ok w
                  then (record (ev_to_csv true)
                          (set_output_file
                             (to_csv out_df
                                (output_series_separator current_type)) w),
                        duplicated_series_count,
                        PyOk ingested_series_count)
                  else (record (ev_to_csv false) w,
                        duplicated_series_count, PyRaise OSError)
                else (w, duplicated_series_count,
                      PyOk ingested_series_count)
            end
        end
    end.

(** Lines 414-502: the counts of the run, as the summary at the end logs
    them.  Nothing is persisted without a valid series; an [OSError] of
    the [try] block is logged and resets the ingested count. *)
Definition persist (current_type : SeriesTypeConfiguration)
  (input_series_count : Z) (df_temp : Frame) (w : World)
  : World * PyResult RunSummary :=
  let valid_series_count := Z.of_nat (List.length df_temp) in
  let malformed_series_count := input_series_count - valid_series_count in
  if valid_series_count =? 0
  then (w, PyOk {| ingested_series_count := 0;
                   valid_series_count := valid_series_count;
                   duplicated_series_count := 0;
                   malformed_series_count := malformed_series_count |})
  else
    match try_persist current_type df_temp w with
    | (w', duplicated, PyRaise e) =>
        if is_OSError e
        then (emit [C msg_persist_error] w',
              PyOk {| ingested_series_count := 0;
                      valid_series_count := valid_series_count;
                      duplicated_series_count := duplicated;
                      malformed_series_count := malformed_series_count |})
        else (w', PyRaise e)
    | (w', duplicated, PyOk ingested) =>
        (w', PyOk {| ingested_series_count := ingested;
                     valid_series_count := valid_series_count;
                     duplicated_series_count := duplicated;
                     malformed_series_count := malformed_series_count |})
    end.

(** The series type configuration a run works with (lines 287-290). *)
Definition type_conf (type : SeriesType) : SeriesTypeConfiguration :=
  match type with
  | labeled => conf_labeled (_conf self)
  | unlabeled => conf_unlabeled (_conf self)
  end.

(** Lines 264-412, up to the end of the series processing: the number of
    input series found and the temporary data frame of the valid ones;
    [None] where the function returns 0 at once. *)
Definition gather (type : SeriesType) (max_series : option PyArg) (w : World)
  : World * PyResult (option (Z * Frame)) :=
  match resolve_max_series max_series w with
  | (w, None) => (w, PyOk None)
  | (w, Some max_series) =>
      let current_type := type_conf type in
      if negb (input_dir_ok w)
      then (emit [C msg_input_dir_error] w, PyOk None)
      else
        let input_series :=
          filter (has_extension current_type) (input_dir w) in
        let wrong_files :=
          filter (fun f => negb (has_extension current_type f))
                 (input_dir w) in
        let input_series_count := Z.of_nat (List.length input_series) in
        let wrong_files_count := Z.of_nat (List.length wrong_files) in
        let w :=
          if 0 <? wrong_files_count
          then emit [W (msg_unexpected_extension (map name wrong_files))] w
          else w in
        if 0 <? input_series_count then
          match process_input_series current_type max_series
                  input_series w with
          | (w', df_temp, PyOk _) =>
              (w', PyOk (Some (input_series_count, df_temp)))
          | (w', _, PyRaise e) => (w', PyRaise e)
          end
        else (w, PyOk None)
  end.

(** [_ingest_series(series_type, max_series)]: the new world and the
    number of ingested series returned, or the exception let through. *)
Definition _ingest_series (type : SeriesType) (max_series : option PyArg)
  (w : World) : World * PyResult Z :=
  match gather type max_series w with
  | (w', PyRaise e) => (w', PyRaise e)
  | (w', PyOk None) => (w', PyOk 0)
  | (w', PyOk (Some (input_series_count, df_temp))) =>
      match persist (type_conf type) input_series_count df_temp w' with
      | (w'', PyRaise e) => (w'', PyRaise e)
      | (w'', PyOk summary) => (w'', PyOk (ingested_series_count summary))
      end
  end.

(** [start_ingest_labeled_series], [start_ingest_unlabeled_series] *)
Definition start_ingest_labeled_series (max_series : option PyArg)
  (w : World) : World * PyResult Z :=
  _ingest_series labeled max_series w.

Definition start_ingest_unlabeled_series (max_series : option PyArg)
  (w : World) : World * PyResult Z :=
  _ingest_series unlabeled max_series w.

End Service.

(* ------------------------------------------------------------------ *)
(** ** Start-up: [_check_resource_valid] and [__init__] *)

(** What a path of the configuration is on disk. *)
Inductive Resource : Type :=
| res_missing
| res_dir
| res_file (text : string).

(** [exp_res_type]: the literal "file" or "dir". *)
Inductive ResourceType : Type := exp_file | exp_dir.

Fixpoint strings_eqb (l1 l2 : list string) : bool :=
  match l1, l2 with
  | [], [] => true
  | a :: l1', b :: l2' => String.eqb a b && strings_eqb l1' l2'
  | _, _ => false
  end.

(** Lines 577-578: a trailing newline of the last column is removed; the
    last character of an empty last column is an [IndexError]. *)
Definition strip_last_newline (out_file_columns : list string)
  : PyResult (list string) :=
  match Py.last_char (last out_file_columns EmptyString) with
  | None => PyRaise IndexError
  | Some c =>
      if Ascii.eqb c Py.newline
      then PyOk (removelast out_file_columns
                   ++ [Py.drop_last_char (last out_file_columns EmptyString)])
      else PyOk out_file_columns
  end.

(** Lines 573-591: the first line of a non-empty output file against the
    expected column headers. *)
Definition check_headers (conf : DataIngestionConfiguration)
  (current_series : SeriesTypeConfiguration) (text : string)
  : list LogRecord * PyResult unit :=
  let out_file_first_line := Py.readline text in
  match Py.split out_file_first_line
          (output_series_separator (conf_labeled conf)) with
  | PyRaise e => ([], PyRaise e)
  | PyOk out_file_columns =>
      match strip_last_newline out_file_columns with
      | PyRaise e => ([], PyRaise e)
      | PyOk out_file_columns =>
          if negb (strings_eqb out_file_columns (series_columns conf))
          then ([C (msg_headers_mismatch (series_type current_series))],
                PyRaise (ValueError "The column headers do not match"))
          else ([], PyOk tt)
      end
  end.

(** [_check_resource_valid(res, exp_res_type, current_series)]: the
    resource as the call leaves it, or the exception raised. *)
Definition _check_resource_valid (conf : DataIngestionConfiguration)
  (res : Resource) (exp_res_type : ResourceType)
  (current_series : SeriesTypeConfiguration)
  : list LogRecord * PyResult Resource :=
  let header :=
    Py.join (output_series_separator current_series) (series_columns conf) in
  match res, exp_res_type with
  | res_file _, exp_dir => ([C msg_dir_is_file], PyRaise FileExistsError)
  | res_dir, exp_file =>
      ([C (msg_file_is_dir (series_type current_series))],
       PyRaise FileExistsError)
  | res_file text, exp_file =>
      if Z.of_nat (String.length text) =? 0
      then ([W (msg_output_file_empty (series_type current_series))],
            PyOk (res_file header))
      else
        match check_headers conf current_series text with
        | (logs, PyRaise e) => (logs, PyRaise e)
        | (logs, PyOk _) => (logs, PyOk res)
        end
  | res_dir, exp_dir => ([], PyOk res)
  | res_missing, exp_file =>
      ([W (msg_output_file_missing (series_type current_series))],
       PyOk (res_file header))
  | res_missing, exp_dir => ([W msg_dir_missing], PyOk res_dir)
  end.

(** The six paths of the two series types on disk (taken to be distinct
    paths). *)
Record Resources : Type := {
  labeled_input_dir : Resource;
  unlabeled_input_dir : Resource;
  labeled_output_file : Resource;
  unlabeled_output_file : Resource;
  labeled_malformed_dir : Resource;
  unlabeled_malformed_dir : Resource
}.

(** One check of [__init__] after those before it. *)
Definition and_then {A B : Type} (r : list LogRecord * PyResult A)
  (k : A -> list LogRecord * PyResult B) : list LogRecord * PyResult B :=
  match r with
  | (logs, PyRaise e) => (logs, PyRaise e)
  | (logs, PyOk a) => let '(logs', b) := k a in (logs ++ logs', b)
  end.

(** Lines 682-703 of [__init__]: the file system checks, in order. *)
Definition init_resources (conf : DataIngestionConfiguration) (r : Resources)
  : list LogRecord * PyResult Resources :=
  let lab := conf_labeled conf in
  let unl := conf_unlabeled conf in
  and_then (_check_resource_valid conf (labeled_input_dir r) exp_dir lab)
    (fun li =>
  and_then (_check_resource_valid conf (unlabeled_input_dir r) exp_dir unl)
    (fun ui =>
  and_then (_check_resource_valid conf (labeled_output_file r) exp_file lab)
    (fun lo =>
  and_then (_check_resource_valid conf (unlabeled_output_file r) exp_file unl)
    (fun uo =>
  and_then
    (match malformed_policy lab with
     | mal_drop => ([], PyOk (labeled_malformed_dir r))
     | mal_save =>
         _check_resource_valid conf (labeled_malformed_dir r) exp_dir lab
     end)
    (fun lm =>
  and_then
    (match malformed_policy unl with
     | mal_drop => ([], PyOk (unlabeled_malformed_dir r))
     | mal_save =>
         _check_resource_valid conf (unlabeled_malformed_dir r) exp_dir unl
     end)
    (fun um =>
       ([], PyOk {| labeled_input_dir := li; unlabeled_input_dir := ui;
                    labeled_output_file := lo; unlabeled_output_file := uo;
                    labeled_malformed_dir := lm;
                    unlabeled_malformed_dir := um |}))))))).

Definition set_multi_core_enable (b : bool) (conf : DataIngestionConfiguration)
  : DataIngestionConfiguration :=
  {| sample_size := sample_size conf; default_label := default_label conf;
     starting_index := starting_index conf;
     max_series_per_run := max_series_per_run conf;
     multi_core_enable := b; multi_core_limit := multi_core_limit conf;
     conf_labeled := conf_labeled conf;
     conf_unlabeled := conf_unlabeled conf |}.

(** Lines 706-757 of [__init__]: single-core or multi-core mode, given
    [cpu_count()]. *)
Definition init_mode (conf : DataIngestionConfiguration) (cpu_count : Z)
  : list LogRecord * DataIngestionService :=
  if negb (multi_core_enable conf) then ([], {| _conf := conf; _pipes := 0 |})
  else
    let available_cpu :=
      if (0 <? multi_core_limit conf) && (multi_core_limit conf <? cpu_count)
      then multi_core_limit conf else cpu_count in
    if available_cpu =? 1
    then ([W msg_single_core_fallback],
          {| _conf := set_multi_core_enable false conf; _pipes := 0 |})
    else ([], {| _conf := conf; _pipes := Z.to_nat available_cpu |}).

(** [DataIngestionService.__init__] on a loaded configuration: the checked
    resources and the service, or the exception raised. *)
Definition __init__ (conf : DataIngestionConfiguration) (cpu_count : Z)
  (r : Resources)
  : list LogRecord * PyResult (Resources * DataIngestionService) :=
  and_then (init_resources conf r)
    (fun r' =>
       let '(logs, service) := init_mode conf cpu_count in
       (logs, PyOk (r', service))).

(* ------------------------------------------------------------------ *)
(** ** Stand-ins for the library calls, for concrete runs

    The theorems below hold for every [read_csv], [strptime], [read_output]
    and [to_csv].  Concrete runs need concrete ones: these read and write
    delimited text whose fields are decimal integers, which is all the
    examples use. *)

Module Lab.

(** The lines of a text, blank lines skipped. *)
Definition lines (text : string) : list string :=
  filter (fun l => negb (String.eqb l EmptyString))
    (Py.split_fuel (String.length text) (String Py.newline EmptyString) text).

Definition fields (sep line : string) : list string :=
  Py.split_fuel (String.length line) sep line.

Definition int_of_text (s : string) : option Z :=
  option_map Z.of_int (NilZero.int_of_string s).

(** A field of a series: empty for a missing value, else an integer. *)
Definition float_of_field (s : string) : PyResult float :=
  if String.eqb s EmptyString then PyOk F64.nan
  else match int_of_text s with
       | Some z => PyOk (F64.of_Z z)
       | None => PyRaise (ValueError "could not convert string to float")
       end.

Fixpoint traverse {A B : Type} (f : A -> PyResult B) (l : list A)
  : PyResult (list B) :=
  match l with
  | [] => PyOk []
  | a :: l' =>
      py_bind (f a) (fun b =>
      py_bind (traverse f l') (fun bs => PyOk (b :: bs)))
  end.

Definition read_csv (text sep : string) : PyResult (list (list float)) :=
  match lines text with
  | [] => PyRaise (ValueError "No columns to parse from file")
  | ls => traverse (fun l => traverse float_of_field (fields sep l)) ls
  end.

(** File names that are a number of seconds. *)
Definition strptime (text format : string) : option Z := int_of_text text.

Definition cell_of_field (column : nat) (s : string) : PyResult Cell :=
  match column with
  | O => match int_of_text s with
         | Some t => PyOk (CTime t)
         | None => PyRaise (ValueError "Unknown datetime string format")
         end
  | _ => py_bind (float_of_field s) (fun x => PyOk (CFloat x))
  end.

Fixpoint row_of_fields (column : nat) (l : list string) : PyResult Row :=
  match l with
  | [] => PyOk []
  | s :: l' =>
      py_bind (cell_of_field column s) (fun c =>
      py_bind (row_of_fields (S column) l') (fun r => PyOk (c :: r)))
  end.

(** The output file: a header line, then one line per row. *)
Definition read_output (text sep : string) : PyResult Frame :=
  match lines text with
  | [] => PyRaise (ValueError "No columns to parse from file")
  | _ :: ls => traverse (fun l => row_of_fields 0 (fields sep l)) ls
  end.

Definition text_of_cell (c : Cell) : string :=
  match c with
  | CTime t => Py.str t
  | CInt z => Py.str z
  | CFloat x =>
      match F64.trunc x with
      | Some z => Py.str z
      | None => EmptyString
      end
  end.

Definition to_csv (columns : list string) (df : Frame) (sep : string)
  : string :=
  String.concat EmptyString
    (map (fun l => l ++ String Py.newline EmptyString)%string
       (Py.join sep columns
          :: map (fun r => Py.join sep (map text_of_cell r)) df)).

End Lab.

(* ------------------------------------------------------------------ *)
(** ** Concrete configurations, files and worlds *)

Module Scenario.

(** A series type configuration with comma separators, the extension
    [.dat], file names read as seconds, at most 60% and at most three
    consecutive NULL values, and malformed series saved. *)
Definition type_configuration (t : SeriesType) (filling : NullFilling)
  (policy : DuplicatedPolicy) : SeriesTypeConfiguration :=
  {| series_type := t;
     input_file_extension := ".dat";
     input_file_datetime_format := "%s";
     input_series_separator := ",";
     output_series_separator := ",";
     max_null_perc := PrimFloat.div (F64.of_Z 3) (F64.of_Z 5);
     max_consec_null := 3;
     null_filling_strategy := filling;
     duplicated_policy := policy;
     malformed_policy := mal_save |}.

Definition configuration (size : Z) (multi_core : bool)
  : DataIngestionConfiguration :=
  {| sample_size := size;
     default_label := "x";
     starting_index := 0;
     max_series_per_run := 0;
     multi_core_enable := multi_core;
     multi_core_limit := 0;
     conf_labeled := type_configuration labeled zeroFill dup_discard;
     conf_unlabeled := type_configuration unlabeled zeroFill dup_discard |}.

Definition service (size : Z) (multi_core : bool) (pipes : nat)
  : DataIngestionService :=
  {| _conf := configuration size multi_core; _pipes := pipes |}.

Definition file (file_name text : string) (ctime : Z) : SeriesFile :=
  {| name := file_name; content := text; st_ctime := ctime;
     stat_ok := true; unlink_ok := true |}.

(** "A.dat" and "B.dat" hold the same series; "empty.dat" holds nothing
    and has no number for a name. *)
Definition A_dat : SeriesFile := file "A.dat" "1,2,3" 1000.
Definition B_dat : SeriesFile := file "B.dat" "1,2,3" 2000.
Definition empty_dat : SeriesFile := file "empty.dat" EmptyString 3000.
Definition readme : SeriesFile := file "README" "notes" 4000.

Definition to_csv (size : Z) : Frame -> string -> string :=
  Lab.to_csv (series_columns (configuration size false)).

(** A world with the given input files and rows of the output file,
    everything readable and writable. *)
Definition world (size : Z) (files : list SeriesFile) (stored : Frame)
  (writable : bool) : World :=
  {| input_dir := files; input_dir_ok := true;
     output_file := to_csv size stored ",";
     output_read_ok := true; output_write_ok := writable;
     malformed_dir := []; malformed_dir_ok := true;
     log := []; trace := [] |}.

Definition ingest (size : Z) (multi_core : bool) (pipes : nat)
  (max_series : option PyArg) (w : World) : World * PyResult Z :=
  _ingest_series Lab.read_csv Lab.strptime Lab.read_output (to_csv size)
    (service size multi_core pipes) labeled max_series w.

(** The row of "A.dat" or "B.dat" under [sample_size = 2]. *)
Definition row_of (ts : Z) : Row :=
  [CTime ts; CFloat (F64.of_Z 1); CFloat (F64.of_Z 2); CFloat (F64.of_Z 3)].

Definition int_row_of (ts : Z) : Row :=
  [CTime ts; CInt 1; CFloat (F64.of_Z 2); CFloat (F64.of_Z 3)].

(** A configuration with one sample per series, whose labeled series are
    written with the separator [sep] and whose unlabeled series are written
    with a comma. *)
Definition labeled_separated (sep : string) : DataIngestionConfiguration :=
  {| sample_size := 1;
     default_label := "x";
     starting_index := 0;
     max_series_per_run := 0;
     multi_core_enable := false;
     multi_core_limit := 0;
     conf_labeled :=
       {| series_type := labeled;
          input_file_extension := ".dat";
          input_file_datetime_format := "%s";
          input_series_separator := ",";
          output_series_separator := sep;
          max_null_perc := PrimFloat.div (F64.of_Z 3) (F64.of_Z 5);
          max_consec_null := 3;
          null_filling_strategy := zeroFill;
          duplicated_policy := dup_discard;
          malformed_policy := mal_save |};
     conf_unlabeled := type_configuration unlabeled zeroFill dup_discard |}.

Definition semicolon_separated : DataIngestionConfiguration :=
  labeled_separated ";".

Definition digit_separated : DataIngestionConfiguration :=
  labeled_separated "0".

(** The labeled series type of [type_configuration] with the filling asked
    for. *)
Definition labeled_filling (filling : NullFilling)
  : SeriesTypeConfiguration :=
  type_configuration labeled filling dup_discard.


(** The configuration of two samples in multi-core mode, with a limit on
    the CPUs. *)
Definition limited (limit : Z) : DataIngestionConfiguration :=
  {| sample_size := 2;
     default_label := "x";
     starting_index := 0;
     max_series_per_run := 0;
     multi_core_enable := true;
     multi_core_limit := limit;
     conf_labeled := type_configuration labeled zeroFill dup_discard;
     conf_unlabeled := type_configuration unlabeled zeroFill dup_discard |}.

(** A disk that holds none of the six paths, and the disk a start-up under
    [configuration 2 false] leaves then. *)
Definition blank_disk : Resources :=
  {| labeled_input_dir := res_missing; unlabeled_input_dir := res_missing;
     labeled_output_file := res_missing;
     unlabeled_output_file := res_missing;
     labeled_malformed_dir := res_missing;
     unlabeled_malformed_dir := res_missing |}.

Definition created_disk : Resources :=
  {| labeled_input_dir := res_dir; unlabeled_input_dir := res_dir;
     labeled_output_file := res_file "timestamp,ANOMALOUS,x0,x1";
     unlabeled_output_file := res_file "timestamp,ANOMALOUS,x0,x1";
     labeled_malformed_dir := res_dir;
     unlabeled_malformed_dir := res_dir |}.

End Scenario.


(* ------------------------------------------------------------------ *)
(** ** The vocabulary of the properties *)

(** The labels of a frame are distinct, and the numbered ones lie below its
    width: true of a row just read, and kept by the insertion of
    [ANOMALOUS]. *)
Definition wf_labels (df : Series) : Prop :=
  NoDup (DF.columns df) /\
  forall i, In (LInt i) (DF.columns df) -> 0 <= i < DF.shape1 df.

(** The values a series is reconciled to: cut to [sample_size + 1], or
    filled up to it with NULL values. *)
Definition reconciled (self : DataIngestionService) (xs : list float)
  : list float :=
  firstn (Z.to_nat (sample_size (_conf self) + 1))
    (xs ++ repeat F64.nan
             (Z.to_nat (sample_size (_conf self) + 1
                        - Z.of_nat (List.length xs)))).

(** The values of the frame a series is read into, once the [ANOMALOUS]
    column is in place. *)
Definition with_anomalous (current_type : SeriesTypeConfiguration)
  (r : list float) : list float :=
  match series_type current_type with
  | labeled => r
  | unlabeled => F64.of_Z (-1) :: r
  end.

(** The timestamp of a series: parsed from the file name less its last
    four characters, or the creation time of the file. *)
Definition timestamp_of (strptime : string -> string -> option Z)
  (current_type : SeriesTypeConfiguration) (series_file : SeriesFile) : Z :=
  match strptime (Py.drop_last 4 (name series_file))
                 (input_file_datetime_format current_type) with
  | Some t => t
  | None => st_ctime series_file
  end.

(** The names of the files handed to [_process_series], in call order. *)
Fixpoint processed_names (t : list Event) : list string :=
  match t with
  | [] => []
  | ev_process_series n _ :: t' => n :: processed_names t'
  | ev_to_csv _ :: t' => processed_names t'
  end.

(** [w1] comes from [w] by the calls [evs], leaving the output file and
    its permissions alone; the log only grows. *)
Definition extends (w w1 : World) (evs : list Event) : Prop :=
  trace w1 = trace w ++ evs
  /\ (exists l, log w1 = log w ++ l)
  /\ output_file w1 = output_file w
  /\ output_read_ok w1 = output_read_ok w
  /\ output_write_ok w1 = output_write_ok w.

Local Notation "a +++ b" := (String.append a b)
  (at level 60, right associativity).

(** [xs] holds [k] NULL values in a row. *)
Definition null_run (xs : list float) (k : nat) : Prop :=
  exists before run after,
    xs = before ++ run ++ after
    /\ List.length run = k
    /\ Forall (fun x => F64.isnull x = true) run.

(** The flag of a labeled series is 0 or 1 (lines 122-123). *)
Definition flag_in_bounds (current_type : SeriesTypeConfiguration)
  (r : list float) : Prop :=
  series_type current_type = labeled ->
  exists a rest,
    r = a :: rest
    /\ (PrimFloat.eqb a (F64.of_Z 0) = true
        \/ PrimFloat.eqb a (F64.of_Z 1) = true).

(** The NULL values of a series are within the two thresholds: they are
    not more than [max_null_perc * sample_size], as line 167 compares
    them, and no more than [max_consec_null] of them stand in a row. *)
Definition nulls_in_bounds (self : DataIngestionService)
  (current_type : SeriesTypeConfiguration) (xs : list float) : Prop :=
  PrimFloat.ltb
    (PrimFloat.mul (max_null_perc current_type)
                   (F64.of_Z (sample_size (_conf self))))
    (F64.of_Z (Z.of_nat (List.length (filter F64.isnull xs)))) = false
  /\ forall k, null_run xs k -> Z.of_nat k <= max_consec_null current_type.

(** [w1] holds the input files and the malformed series [w] holds. *)
Definition same_dirs (w w1 : World) : Prop :=
  input_dir w1 = input_dir w /\ input_dir_ok w1 = input_dir_ok w
  /\ malformed_dir w1 = malformed_dir w
  /\ malformed_dir_ok w1 = malformed_dir_ok w.

(** The two worlds differ in the recorded calls at most. *)
Definition same_but_trace (w w2 : World) : Prop :=
  input_dir w2 = input_dir w /\ input_dir_ok w2 = input_dir_ok w
  /\ output_file w2 = output_file w
  /\ output_read_ok w2 = output_read_ok w
  /\ output_write_ok w2 = output_write_ok w
  /\ malformed_dir w2 = malformed_dir w
  /\ malformed_dir_ok w2 = malformed_dir_ok w
  /\ log w2 = log w.

(** The file can be read, checked and removed: [stat()] and the removal
    succeed, and [read_csv] raises no [OSError] on it. *)
Definition accessible
  (read_csv : string -> string -> PyResult (list (list float)))
  (current_type : SeriesTypeConfiguration) (f : SeriesFile) : Prop :=
  stat_ok f = true /\ unlink_ok f = true
  /\ forall e,
       read_csv (content f) (input_series_separator current_type)
       = PyRaise e -> is_OSError e = false.

(** The service [__init__] falls back to when one CPU is there: the same
    configuration in single-core mode, and no task. *)
Definition single_core (self : DataIngestionService) : DataIngestionService :=
  {| _conf := set_multi_core_enable false (_conf self); _pipes := 0 |}.




(** What a path is once its check has passed: a directory that was there
    or was missing; or a file, the non-empty one found, or the expected
    headers joined by the separator of its series type where the file was
    missing or empty. *)
Definition checked (conf : DataIngestionConfiguration)
  (current_series : SeriesTypeConfiguration) (exp_res_type : ResourceType)
  (before after : Resource) : Prop :=
  match exp_res_type with
  | exp_dir => after = res_dir /\ (before = res_dir \/ before = res_missing)
  | exp_file =>
      match before with
      | res_file (String c text) => after = before
      | res_file EmptyString | res_missing =>
          after
          = res_file (Py.join (output_series_separator current_series)
                              (series_columns conf))
      | res_dir => False
      end
  end.

(** *** Functions the proofs go through *)

(** The sums [groupby(...).sum()] gives from a value on, [cur] NULL values
    being counted in the group at hand. *)
Fixpoint null_groups (cur : Z) (xs : list float) : list Z :=
  match xs with
  | [] => [cur]
  | x :: xs' =>
      if F64.isnull x then null_groups (cur + 1) xs'
      else cur :: null_groups 0 xs'
  end.

(** [g] has the name of a file of [l]. *)
Definition named_in (l : list SeriesFile) (g : SeriesFile) : bool :=
  existsb (fun s => String.eqb (name g) (name s)) l.

(** The rows of [new] no row before them equals outside the timestamp,
    [seen] being the rows before [new]. *)
Fixpoint fresh (seen : list Row) (new : Frame) : Frame :=
  match new with
  | [] => []
  | r :: rest =>
      if existsb (fun s => same_series s r) seen
      then fresh (seen ++ [r]) rest
      else r :: fresh (seen ++ [r]) rest
  end.



(* ================================================================== *)
(** * Properties *)

(* ------------------------------------------------------------------ *)
(** ** Ranges, labels and floats *)

Lemma range_nil (a b : Z) : b <= a -> Py.range a b = [].
Proof.
  intros H. unfold Py.range.
  replace (Z.to_nat (b - a)) with O by lia. reflexivity.
Qed.

Lemma range_cons (a b : Z) : a < b -> Py.range a b = a :: Py.range (a + 1) b.
Proof.
  intros H. unfold Py.range.
  replace (Z.to_nat (b - a)) with (S (Z.to_nat (b - (a + 1)))) by lia.
  cbn [seq map]. f_equal; [lia|].
  rewrite <- seq_shift, map_map.
  apply map_ext. intros i. lia.
Qed.

Lemma range_length (a b : Z) : List.length (Py.range a b) = Z.to_nat (b - a).
Proof. unfold Py.range. now rewrite length_map, length_seq. Qed.

Lemma range_bounds (a b i : Z) : In i (Py.range a b) -> a <= i < b.
Proof.
  unfold Py.range. rewrite in_map_iff. intros (k & <- & Hk).
  apply in_seq in Hk. lia.
Qed.

Lemma range_NoDup (a b : Z) : NoDup (Py.range a b).
Proof.
  unfold Py.range. apply Injective_map_NoDup; [|apply seq_NoDup].
  intros i j. lia.
Qed.

Lemma label_eqb_eq (a b : Label) : label_eqb a b = true <-> a = b.
Proof.
  destruct a, b; simpl; split; intros H; try discriminate; try congruence.
  - apply Z.eqb_eq in H. now subst.
  - injection H as ->. apply Z.eqb_refl.
  - apply String.eqb_eq in H. now subst.
  - injection H as ->. apply String.eqb_refl.
Qed.

Lemma has_label_In (l : Label) (ls : list Label) :
  existsb (label_eqb l) ls = true <-> In l ls.
Proof.
  rewrite existsb_exists. split.
  - intros (x & Hx & E). apply label_eqb_eq in E. now subst.
  - intros H. exists l. split; [assumption | now apply label_eqb_eq].
Qed.

(** A float equal to some float is no NaN. *)
Lemma eqb_not_nan (a c : float) :
  PrimFloat.eqb a c = true -> PrimFloat.is_nan a = false.
Proof.
  unfold PrimFloat.is_nan. rewrite !FloatAxioms.eqb_spec.
  unfold SFeqb.
  destruct (Prim2SF a) as [s| s| |s m e], (Prim2SF c); simpl;
    try discriminate; intros _.
  all: try (destruct s; reflexivity).
  all: destruct s; rewrite Z.compare_refl, Pos.compare_cont_refl; reflexivity.
Qed.

Lemma same_refl (x : float) : F64.same x x = true.
Proof.
  unfold F64.same, PrimFloat.is_nan.
  destruct (PrimFloat.eqb x x); reflexivity.
Qed.

Lemma cell_same_refl (c : Cell) : cell_same c c = true.
Proof.
  destruct c; simpl; auto using Z.eqb_refl, same_refl.
Qed.

Lemma cells_same_refl (r : list Cell) : cells_same r r = true.
Proof.
  induction r as [|c r IH]; simpl; [reflexivity|].
  now rewrite cell_same_refl, IH.
Qed.

(* ------------------------------------------------------------------ *)
(** ** The one-row frame: labels stay distinct, widths add up *)

Lemma of_row_columns (r : list float) :
  DF.columns (DF.of_row r)
  = map LInt (Py.range 0 (Z.of_nat (List.length r))).
Proof.
  unfold DF.columns, DF.of_row.
  set (ls := map LInt _).
  assert (L : List.length ls = List.length r).
  { unfold ls. rewrite length_map, range_length. lia. }
  clearbody ls. revert r L.
  induction ls as [|l ls IH]; intros [|x r] L; simpl in *;
    try discriminate; [reflexivity|].
  f_equal. apply IH. lia.
Qed.

Lemma of_row_values (r : list float) : DF.values (DF.of_row r) = r.
Proof.
  unfold DF.values, DF.of_row.
  set (ls := map LInt _).
  assert (L : List.length ls = List.length r).
  { unfold ls. rewrite length_map, range_length. lia. }
  clearbody ls. revert ls L.
  induction r as [|x r IH]; intros [|l ls] L; simpl in *;
    try discriminate; [reflexivity|].
  f_equal. apply IH. lia.
Qed.

Lemma of_row_shape1 (r : list float) :
  DF.shape1 (DF.of_row r) = Z.of_nat (List.length r).
Proof.
  unfold DF.shape1.
  rewrite <- (of_row_values r) at 2.
  unfold DF.values. now rewrite length_map.
Qed.

Lemma of_row_wf (r : list float) : wf_labels (DF.of_row r).
Proof.
  split.
  - rewrite of_row_columns.
    apply Injective_map_NoDup; [|apply range_NoDup].
    intros i j E. now injection E.
  - intros i. rewrite of_row_columns, of_row_shape1, in_map_iff.
    intros (j & E & Hj). injection E as ->. now apply range_bounds in Hj.
Qed.

Lemma insert_anomalous_wf (r : list float) (x : float) :
  DF.insert0 (LStr "ANOMALOUS") x (DF.of_row r)
  = PyOk ((LStr "ANOMALOUS", x) :: DF.of_row r)
  /\ wf_labels ((LStr "ANOMALOUS", x) :: DF.of_row r).
Proof.
  assert (N : ~ In (LStr "ANOMALOUS") (DF.columns (DF.of_row r))).
  { rewrite of_row_columns, in_map_iff. intros (j & E & _). discriminate. }
  split.
  - unfold DF.insert0, DF.has_column.
    destruct (existsb _ _) eqn:E; [|reflexivity].
    apply has_label_In in E. contradiction.
  - destruct (of_row_wf r) as [ND B]. split.
    + simpl. constructor; assumption.
    + intros i [E|H]; [discriminate|].
      apply B in H. unfold DF.shape1 in *. simpl List.length. lia.
Qed.

Lemma map_const_repeat {A B : Type} (c : B) (l : list A) :
  map (fun _ => c) l = repeat c (List.length l).
Proof. induction l as [|a l IH]; simpl; [reflexivity | now rewrite IH]. Qed.

Lemma columns_at_range (df : Series) (k : Z) :
  0 <= k ->
  DF.columns_at df (Py.range k (DF.shape1 df))
  = PyOk (skipn (Z.to_nat k) (DF.columns df)).
Proof.
  intros Hk.
  remember (Z.to_nat (DF.shape1 df - k)) as m eqn:Em.
  revert k Hk Em. induction m as [|m IH]; intros k Hk Em.
  - rewrite range_nil by lia. simpl.
    rewrite skipn_all2; [reflexivity|].
    unfold DF.columns, DF.shape1 in *. rewrite length_map. lia.
  - rewrite range_cons by lia. simpl.
    replace (k <? 0) with false by (symmetry; apply Z.ltb_ge; lia).
    replace ((0 <=? k) && (k <? DF.shape1 df)) with true
      by (symmetry; apply andb_true_iff; split;
          [apply Z.leb_le | apply Z.ltb_lt]; lia).
    destruct (nth_error (DF.columns df) (Z.to_nat k)) as [l|] eqn:E.
    + rewrite (IH (k + 1)) by lia. simpl.
      replace (Z.to_nat (k + 1)) with (S (Z.to_nat k)) by lia.
      f_equal. clear - E.
      revert E. generalize (Z.to_nat k) as n. generalize (DF.columns df).
      induction l0 as [|a l0 IH]; intros [|n] E; simpl in *;
        try discriminate.
      * now injection E as ->.
      * now apply IH.
    + apply nth_error_None in E.
      unfold DF.columns, DF.shape1 in *. rewrite length_map in E. lia.
Qed.

Lemma drop_skipn (df : Series) (k : nat) :
  NoDup (DF.columns df) ->
  DF.drop (skipn k (DF.columns df)) df = firstn k df.
Proof.
  unfold DF.drop, DF.columns.
  revert k. induction df as [|c df IH]; intros k ND.
  - now destruct k.
  - destruct k as [|k].
    + simpl skipn. simpl firstn.
      assert (G : forall (ls : list Label) (d : Series),
                 incl (map fst d) ls ->
                 filter (fun c => negb (existsb (label_eqb (fst c)) ls)) d
                 = []).
      { intros ls d. induction d as [|x d IHd]; intros I; simpl; [reflexivity|].
        assert (In (fst x) ls) as Hx by (apply I; now left).
        apply has_label_In in Hx. rewrite Hx. simpl.
        apply IHd. intros y Hy. apply I. now right. }
      apply G. apply incl_refl.
    + simpl map in *. inversion ND as [|? ? Hnot ND']; subst.
      simpl skipn. simpl filter.
      destruct (existsb (label_eqb (fst c)) (skipn k (map fst df))) eqn:E.
      * apply has_label_In in E. exfalso. apply Hnot.
        rewrite <- (firstn_skipn k (map fst df)). apply in_or_app. now right.
      * simpl. f_equal. now apply IH.
Qed.

Lemma pad_columns (df : Series) (a b : Z) :
  (forall j, In (LInt j) (DF.columns df) -> j < a) ->
  fold_left (fun d i => DF.set_column (LInt i) F64.nan d) (Py.range a b) df
  = df ++ map (fun i => (LInt i, F64.nan)) (Py.range a b).
Proof.
  remember (Z.to_nat (b - a)) as m eqn:Em.
  revert a df Em. induction m as [|m IH]; intros a df Em B.
  - rewrite range_nil by lia. simpl. now rewrite app_nil_r.
  - rewrite range_cons by lia. simpl.
    assert (E : DF.set_column (LInt a) F64.nan df = df ++ [(LInt a, F64.nan)]).
    { unfold DF.set_column, DF.has_column.
      destruct (existsb _ _) eqn:X; [|reflexivity].
      apply has_label_In in X. apply B in X. lia. }
    rewrite E, (IH (a + 1)); [now rewrite <- app_assoc | lia |].
    intros j. unfold DF.columns. rewrite map_app, in_app_iff.
    intros [H|[H|[]]].
    + apply B in H. lia.
    + simpl in H. injection H as <-. lia.
Qed.

Lemma fill_length (strategy : NullFilling) (xs : list float) :
  List.length (DF.fill strategy xs) = List.length xs.
Proof.
  destruct strategy; unfold DF.fill, DF.fill_zero.
  - generalize (@None (Z * float)) 0.
    induction xs as [|x xs IH]; intros p i; simpl; [reflexivity|].
    destruct (F64.isnull x); simpl; now rewrite IH.
  - apply length_map.
  - generalize (@None float).
    induction xs as [|x xs IH]; intros p; simpl; [reflexivity|].
    destruct (F64.isnull x); [destruct p|]; simpl; now rewrite IH.
  - induction xs as [|x xs IH]; simpl; [reflexivity | now rewrite IH].
Qed.

(** The filling leaves a leading valid value alone. *)
Lemma fill_head (strategy : NullFilling) (a : float) (xs : list float) :
  PrimFloat.is_nan a = false ->
  exists xs', DF.fill strategy (a :: xs) = a :: xs'.
Proof.
  intros H. destruct strategy; unfold DF.fill, DF.fill_zero; simpl;
    unfold F64.isnull; rewrite H; eexists; reflexivity.
Qed.

Lemma series_columns_length (conf : DataIngestionConfiguration) :
  List.length (series_columns conf) = S (S (Z.to_nat (sample_size conf))).
Proof.
  unfold series_columns. simpl. rewrite length_map, range_length.
  do 2 f_equal. lia.
Qed.

Lemma at0_of_row (r : list float) :
  DF.at0 (LInt 0) (DF.of_row r)
  = match r with
    | [] => PyRaise KeyError
    | a :: _ => PyOk a
    end.
Proof.
  destruct r as [|a r]; [reflexivity|].
  unfold DF.of_row. rewrite range_cons by (simpl List.length; lia).
  reflexivity.
Qed.

Section Validator.

Variable read_csv : string -> string -> PyResult (list (list float)).
Variable strptime : string -> string -> option Z.
Variable self : DataIngestionService.

Lemma reconciled_length (xs : list float) :
  0 <= sample_size (_conf self) ->
  List.length (reconciled self xs) = Z.to_nat (sample_size (_conf self) + 1).
Proof.
  intros H. unfold reconciled.
  rewrite length_firstn, length_app, repeat_length. lia.
Qed.

Lemma reconcile_width_values (series_name : string) (df : Series) :
  0 <= sample_size (_conf self) -> wf_labels df ->
  exists df',
    snd (reconcile_width self series_name df) = PyOk df'
    /\ DF.values df' = reconciled self (DF.values df).
Proof.
  intros Hs [ND B]. unfold reconcile_width, samples_delta, reconciled.
  assert (L : List.length (DF.values df) = Z.to_nat (DF.shape1 df)).
  { unfold DF.values, DF.shape1. rewrite length_map. lia. }
  assert (L' : DF.shape1 df = Z.of_nat (List.length df)) by reflexivity.
  rewrite L. rewrite Z2Nat.id by (unfold DF.shape1; lia).
  destruct (sample_size (_conf self) + 1 - DF.shape1 df <? 0) eqn:E1.
  - apply Z.ltb_lt in E1. simpl.
    rewrite columns_at_range by lia. simpl.
    eexists. split; [reflexivity|].
    rewrite drop_skipn by assumption.
    replace (Z.to_nat (sample_size (_conf self) + 1 - DF.shape1 df))
      with O by lia.
    simpl. rewrite app_nil_r. unfold DF.values. symmetry. apply firstn_map.
  - apply Z.ltb_ge in E1.
    destruct (0 <? sample_size (_conf self) + 1 - DF.shape1 df) eqn:E2.
    + apply Z.ltb_lt in E2. simpl.
      eexists. split; [reflexivity|].
      rewrite pad_columns by (intros j Hj; apply B in Hj; lia).
      unfold DF.values. rewrite map_app, map_map. cbn [snd].
      rewrite map_const_repeat, range_length.
      rewrite firstn_all2; [reflexivity|].
      rewrite length_app, length_map, repeat_length. lia.
    + apply Z.ltb_ge in E2. simpl.
      eexists. split; [reflexivity|].
      replace (Z.to_nat (sample_size (_conf self) + 1 - DF.shape1 df))
        with O by lia.
      simpl. rewrite app_nil_r.
      rewrite firstn_all2; [reflexivity|].
      unfold DF.values. rewrite length_map. lia.
Qed.

Lemma fill_and_stamp_valid (current_type : SeriesTypeConfiguration)
  (ts : Z) (df : Series) (row : Row) :
  fill_and_stamp self current_type ts df = PyOk (Valid row) ->
  row = CTime ts
          :: map CFloat (DF.fill (null_filling_strategy current_type)
                                 (DF.values df))
  /\ List.length row = List.length (_series_columns self).
Proof.
  unfold fill_and_stamp.
  destruct (DF.has_column _ _); [discriminate|].
  destruct (Nat.eqb _ _) eqn:E; simpl; [|discriminate].
  intros H. injection H as <-. split; [reflexivity|].
  apply Nat.eqb_eq in E. simpl. now rewrite length_map.
Qed.

Lemma check_nulls_valid (current_type : SeriesTypeConfiguration)
  (series_name : string) (ts : Z) (df : Series) (logs : list LogRecord)
  (row : Row) :
  check_nulls self current_type series_name ts df = (logs, PyOk (Valid row)) ->
  fill_and_stamp self current_type ts df = PyOk (Valid row).
Proof.
  unfold check_nulls.
  destruct (PrimFloat.ltb _ _); [intros H; discriminate|].
  destruct (DF.max_consec_null df) as [m|].
  - destruct (max_consec_null current_type <? m);
      intros H; [discriminate | now injection H].
  - intros H. now injection H.
Qed.

Lemma reconcile_and_check_valid (current_type : SeriesTypeConfiguration)
  (series_name : string) (ts : Z) (df : Series) (logs : list LogRecord)
  (row : Row) :
  0 <= sample_size (_conf self) -> wf_labels df ->
  reconcile_and_check self current_type series_name ts df
  = (logs, PyOk (Valid row)) ->
  row = CTime ts
          :: map CFloat (DF.fill (null_filling_strategy current_type)
                                 (reconciled self (DF.values df))).
Proof.
  intros Hs Hwf. unfold reconcile_and_check.
  destruct (reconcile_width_values series_name df Hs Hwf) as (df' & E & V).
  destruct (reconcile_width self series_name df) as [l r]. simpl in E. subst r.
  destruct (check_nulls self current_type series_name ts df') as [l' v] eqn:N.
  intros H. injection H as _ ->.
  apply check_nulls_valid in N. apply fill_and_stamp_valid in N.
  rewrite <- V. apply N.
Qed.

Lemma check_series_valid (current_type : SeriesTypeConfiguration)
  (series_file : SeriesFile) (ts : Z) (logs : list LogRecord) (row : Row) :
  0 <= sample_size (_conf self) ->
  check_series read_csv self current_type series_file ts
  = (logs, PyOk (Valid row)) ->
  exists r,
    read_csv (content series_file) (input_series_separator current_type)
    = PyOk [r]
    /\ row = CTime ts
              :: map CFloat
                   (DF.fill (null_filling_strategy current_type)
                      (reconciled self (with_anomalous current_type r)))
    /\ (series_type current_type = labeled ->
        exists a rest,
          r = a :: rest
          /\ (PrimFloat.eqb a (F64.of_Z 0) = true
              \/ PrimFloat.eqb a (F64.of_Z 1) = true)).
Proof.
  intros Hs. unfold check_series, with_anomalous.
  destruct (read_csv _ _) as [rows|e]; [|intros H; discriminate].
  destruct (Z.of_nat (List.length rows) =? 1) eqn:E1; simpl negb; cbv iota;
    [|intros H; discriminate].
  apply Z.eqb_eq in E1.
  destruct rows as [|r [|r' rows]]; simpl List.length in E1; try lia.
  simpl hd. intros H. exists r. split; [reflexivity|].
  destruct (series_type current_type).
  - rewrite at0_of_row in H.
    destruct r as [|a rest]; [discriminate|].
    destruct (F64.neqb a (F64.of_Z 0) && F64.neqb a (F64.of_Z 1)) eqn:E;
      [discriminate|].
    apply reconcile_and_check_valid in H; [|assumption|apply of_row_wf].
    rewrite of_row_values in H. split; [assumption|].
    intros _. exists a, rest. split; [reflexivity|].
    unfold F64.neqb in E. apply andb_false_iff in E.
    destruct E as [E|E]; apply negb_false_iff in E; [now left | now right].
  - destruct (insert_anomalous_wf r (F64.of_Z (-1))) as [E Hwf].
    rewrite E in H.
    apply reconcile_and_check_valid in H; [|assumption|assumption].
    unfold DF.values in H. simpl map in H. fold (DF.values (DF.of_row r)) in H.
    rewrite of_row_values in H. split; [assumption|].
    intros X. discriminate.
Qed.

Lemma process_series_valid (series_file : SeriesFile)
  (current_type : SeriesTypeConfiguration) (df_temp df_temp' : Frame)
  (w w' : World) :
  _process_series read_csv strptime self series_file current_type df_temp w
  = (w', df_temp', PyOk true) ->
  exists logs row,
    check_series read_csv self current_type series_file
      (timestamp_of strptime current_type series_file)
    = (logs, PyOk (Valid row))
    /\ df_temp' = df_temp ++ [row].
Proof.
  unfold _process_series, timestamp_of.
  destruct (stat_ok series_file); simpl negb; cbv iota;
    [|intros H; discriminate].
  destruct (st_size series_file =? 0); [intros H; discriminate|].
  destruct (strptime _ _) as [t|].
  all: unfold try_check_series;
    destruct (check_series _ _ _ _ _) as [logs [[row|c]|e]];
    try (destruct e); intros H; try discriminate;
    injection H as _ <-; eauto.
Qed.

Lemma reconciled_head (a : float) (xs : list float) :
  0 <= sample_size (_conf self) ->
  exists xs', reconciled self (a :: xs) = a :: xs'.
Proof.
  intros H. unfold reconciled.
  replace (Z.to_nat (sample_size (_conf self) + 1))
    with (S (Z.to_nat (sample_size (_conf self)))) by lia.
  simpl. eexists. reflexivity.
Qed.

End Validator.

(* ------------------------------------------------------------------ *)
(** ** An empty file *)

Lemma cleanup_log (current_type : SeriesTypeConfiguration)
  (series_file : SeriesFile) (cause : option MalformedCause) (w : World) :
  log (cleanup current_type series_file cause w) = log w
  \/ log (cleanup current_type series_file cause w)
     = log w ++ [W (msg_cleanup_error (name series_file))].
Proof.
  unfold cleanup.
  destruct cause as [c|], (malformed_policy current_type),
    (malformed_dir_ok w), (unlink_ok series_file); simpl; auto.
Qed.

(** C5. A file of size zero is classified by the empty-file rule, whatever
    its name: [_process_series] returns [False] with the cause "empty series"
    handed to the clean-up, for every [strptime] and every [read_csv]; the
    only records it logs are the empty-series warning and, at most, one of
    the clean-up: the datetime fallback is never taken. *)
Theorem empty_file_is_classified_first
  (read_csv read_csv' : string -> string -> PyResult (list (list float)))
  (strptime strptime' : string -> string -> option Z)
  (self : DataIngestionService) (series_file : SeriesFile)
  (current_type : SeriesTypeConfiguration) (df_temp : Frame) (w : World) :
  stat_ok series_file = true ->
  st_size series_file = 0 ->
  let w' :=
    cleanup current_type series_file (Some cause_empty_series)
      (emit [W (msg_empty_series (name series_file))]
         (record (ev_process_series (name series_file) (List.length df_temp))
            w)) in
  _process_series read_csv strptime self series_file current_type df_temp w
  = (w', df_temp, PyOk false)
  /\ _process_series read_csv' strptime' self series_file current_type
       df_temp w
     = _process_series read_csv strptime self series_file current_type
         df_temp w
  /\ (exists rest,
        log w' = log w ++ W (msg_empty_series (name series_file)) :: rest
        /\ forall n, ~ In (W (msg_datetime_fallback n)) rest)
  /\ (malformed_policy current_type = mal_save ->
      malformed_dir_ok w = true ->
      In (name series_file, (content series_file, cause_empty_series))
         (malformed_dir w')).
Proof.
  intros Hstat Hsize w'.
  assert (E : forall rc sp,
             _process_series rc sp self series_file current_type df_temp w
             = (w', df_temp, PyOk false)).
  { intros rc sp. unfold _process_series.
    rewrite Hstat, Hsize. reflexivity. }
  split; [apply E|]. split; [now rewrite !E|]. split.
  - subst w'.
    destruct (cleanup_log current_type series_file (Some cause_empty_series)
                (emit [W (msg_empty_series (name series_file))]
                   (record (ev_process_series (name series_file)
                              (List.length df_temp)) w))) as [L|L];
      rewrite L; simpl.
    + exists []. split; [reflexivity | intros n []].
    + exists [W (msg_cleanup_error (name series_file))].
      split; [now rewrite <- app_assoc|].
      intros n [X|[]]. discriminate.
  - intros Hpol Hdir. subst w'. unfold cleanup. rewrite Hpol. simpl.
    rewrite Hdir.
    assert (I : In (name series_file, (content series_file, cause_empty_series))
                  (malformed_dir
                     (copy_malformed series_file cause_empty_series
                        (emit [W (msg_empty_series (name series_file))]
                           (record (ev_process_series (name series_file)
                                      (List.length df_temp)) w))))).
    { simpl. apply in_or_app. right. now left. }
    destruct (unlink_ok series_file); exact I.
Qed.

(* ------------------------------------------------------------------ *)
(** ** The scenario of "A.dat" *)

(** C3, as the code has it.  For the file "A.dat" holding [1,2,3], read
    with separator [,] as the one row (1, 2, 3), with [sample_size] 5, a
    labeled series type and zero filling: the width delta is 5 + 1 - 3 = 3,
    three NULL columns are appended and, the thresholds allowing three NULL
    values, the row appended is the timestamp followed by 1, 2, 3, 0, 0, 0:
    seven fields. *)
Theorem A_dat_is_padded_by_three
  (read_csv : string -> string -> PyResult (list (list float)))
  (strptime : string -> string -> option Z)
  (self : DataIngestionService) (series_file : SeriesFile)
  (current_type : SeriesTypeConfiguration) (df_temp : Frame) (w : World) :
  sample_size (_conf self) = 5 ->
  name series_file = "A.dat" ->
  content series_file = "1,2,3" ->
  stat_ok series_file = true ->
  input_series_separator current_type = "," ->
  series_type current_type = labeled ->
  null_filling_strategy current_type = zeroFill ->
  read_csv "1,2,3" "," = PyOk [map F64.of_Z [1; 2; 3]] ->
  PrimFloat.ltb (PrimFloat.mul (max_null_perc current_type) (F64.of_Z 5))
                (F64.of_Z 3) = false ->
  3 <= max_consec_null current_type ->
  samples_delta self (DF.of_row (map F64.of_Z [1; 2; 3])) = 3
  /\ snd (reconcile_width self "A.dat" (DF.of_row (map F64.of_Z [1; 2; 3])))
     = PyOk (DF.of_row (map F64.of_Z [1; 2; 3])
               ++ [(LInt 3, F64.nan); (LInt 4, F64.nan); (LInt 5, F64.nan)])
  /\ exists w',
       _process_series read_csv strptime self series_file current_type
         df_temp w
       = (w',
          df_temp
            ++ [CTime (timestamp_of strptime current_type series_file)
                  :: map CFloat (map F64.of_Z [1; 2; 3; 0; 0; 0])],
          PyOk true).
Proof.
  intros Hsize Hname Hcontent Hstat Hsep Htype Hfill Hread Hperc Hconsec.
  assert (D : samples_delta self (DF.of_row (map F64.of_Z [1; 2; 3])) = 3).
  { unfold samples_delta. rewrite Hsize. reflexivity. }
  assert (R : reconcile_width self "A.dat" (DF.of_row (map F64.of_Z [1; 2; 3]))
              = ([W (msg_less_samples "A.dat" 3)],
                 PyOk (DF.of_row (map F64.of_Z [1; 2; 3])
                         ++ [(LInt 3, F64.nan); (LInt 4, F64.nan);
                             (LInt 5, F64.nan)]))).
  { unfold reconcile_width. rewrite D, Hsize. reflexivity. }
  split; [exact D|]. split; [now rewrite R|].
  unfold _process_series, timestamp_of, st_size.
  rewrite Hstat, Hcontent. simpl negb. cbv iota.
  change (Z.of_nat (String.length "1,2,3") =? 0) with false. cbv iota.
  assert (T : forall ts,
             try_check_series read_csv self current_type series_file ts
             = ([W (msg_less_samples "A.dat" 3)],
                PyOk (Valid (CTime ts
                               :: map CFloat
                                    (map F64.of_Z [1; 2; 3; 0; 0; 0]))))).
  { intros ts. unfold try_check_series, check_series.
    rewrite Hcontent, Hsep, Hread, Htype, Hname.
    change (negb (Z.of_nat (List.length [map F64.of_Z [1; 2; 3]]) =? 1))
      with false. cbv iota.
    change (hd [] [map F64.of_Z [1; 2; 3]]) with (map F64.of_Z [1; 2; 3]).
    rewrite at0_of_row. cbn [map]. cbv iota.
    change (F64.neqb (F64.of_Z 1) (F64.of_Z 0)
            && F64.neqb (F64.of_Z 1) (F64.of_Z 1)) with false. cbv iota.
    unfold reconcile_and_check.
    change (F64.of_Z 1 :: F64.of_Z 2 :: F64.of_Z 3 :: [])
      with (map F64.of_Z [1; 2; 3]).
    rewrite R.
    unfold check_nulls, fill_and_stamp.
    change (_series_columns self) with (series_columns (_conf self)).
    rewrite series_columns_length, Hsize, Hfill.
    change (DF.null_count _) with 3.
    rewrite Hperc.
    change (DF.max_consec_null _) with (Some 3).
    assert (Hc : (max_consec_null current_type <? 3) = false)
      by (apply Z.ltb_ge; lia).
    cbv iota beta. rewrite Hc. reflexivity. }
  destruct (strptime _ _) as [t|]; rewrite T; eexists; reflexivity.
Qed.

(** The scenario with the stand-in readers, a service of [sample_size] 5
    and the thresholds of [Scenario.type_configuration]. *)
Lemma A_dat_is_padded_by_three_witness :
  samples_delta (Scenario.service 5 false 0)
    (DF.of_row (map F64.of_Z [1; 2; 3])) = 3
  /\ snd (reconcile_width (Scenario.service 5 false 0) "A.dat"
            (DF.of_row (map F64.of_Z [1; 2; 3])))
     = PyOk (DF.of_row (map F64.of_Z [1; 2; 3])
               ++ [(LInt 3, F64.nan); (LInt 4, F64.nan); (LInt 5, F64.nan)])
  /\ exists w',
       _process_series Lab.read_csv Lab.strptime (Scenario.service 5 false 0)
         Scenario.A_dat
         (Scenario.type_configuration labeled zeroFill dup_discard) []
         (Scenario.world 5 [Scenario.A_dat] [] true)
       = (w',
          [] ++ [CTime (timestamp_of Lab.strptime
                          (Scenario.type_configuration labeled zeroFill
                             dup_discard) Scenario.A_dat)
                   :: map CFloat (map F64.of_Z [1; 2; 3; 0; 0; 0])],
          PyOk true).
Proof.
  apply (A_dat_is_padded_by_three Lab.read_csv Lab.strptime
           (Scenario.service 5 false 0) Scenario.A_dat
           (Scenario.type_configuration labeled zeroFill dup_discard) []
           (Scenario.world 5 [Scenario.A_dat] [] true));
    try reflexivity; simpl; lia.
Defined.

(** C3 as the specification words it fails: on that input the width delta
    is not 2, and the row appended is not the six fields timestamp, 1, 2,
    3, 0, 0, whatever the timestamp. *)
Lemma A_dat_is_not_padded_by_two :
  samples_delta (Scenario.service 5 false 0)
    (DF.of_row (map F64.of_Z [1; 2; 3])) <> 2
  /\ forall ts,
       snd (fst (_process_series Lab.read_csv Lab.strptime
                   (Scenario.service 5 false 0) Scenario.A_dat
                   (Scenario.type_configuration labeled zeroFill dup_discard)
                   [] (Scenario.world 5 [Scenario.A_dat] [] true)))
       <> [CTime ts :: map CFloat (map F64.of_Z [1; 2; 3; 0; 0])].
Proof.
  split.
  - vm_compute. discriminate.
  - intros ts. vm_compute. intros H. discriminate H.
Qed.

(* ------------------------------------------------------------------ *)
(** ** What processing leaves alone *)

Lemma extends_refl (w : World) : extends w w [].
Proof.
  unfold extends. rewrite app_nil_r. repeat split. exists [].
  now rewrite app_nil_r.
Qed.

Lemma extends_trans (w w1 w2 : World) (e1 e2 : list Event) :
  extends w w1 e1 -> extends w1 w2 e2 -> extends w w2 (e1 ++ e2).
Proof.
  intros (T1 & (l1 & L1) & O1 & R1 & W1) (T2 & (l2 & L2) & O2 & R2 & W2).
  unfold extends. repeat split; try congruence.
  - rewrite T2, T1. now rewrite app_assoc.
  - exists (l1 ++ l2). rewrite L2, L1. now rewrite app_assoc.
Qed.

Lemma extends_emit (w : World) (rs : list LogRecord) : extends w (emit rs w) [].
Proof.
  unfold extends. simpl. rewrite app_nil_r. repeat split. now exists rs.
Qed.

Lemma extends_record (w : World) (e : Event) : extends w (record e w) [e].
Proof.
  unfold extends. simpl. repeat split. exists []. now rewrite app_nil_r.
Qed.

Lemma extends_cleanup (current_type : SeriesTypeConfiguration)
  (series_file : SeriesFile) (cause : option MalformedCause) (w : World) :
  extends w (cleanup current_type series_file cause w) [].
Proof.
  unfold cleanup.
  destruct cause as [c|], (malformed_policy current_type),
    (malformed_dir_ok w), (unlink_ok series_file);
    unfold extends; simpl; rewrite app_nil_r; repeat split;
    solve [ exists []; now rewrite app_nil_r
          | now exists [W (msg_cleanup_error (name series_file))] ].
Qed.

Lemma extends_then (w w1 w2 : World) (evs : list Event) :
  extends w w1 evs -> extends w1 w2 [] -> extends w w2 evs.
Proof.
  intros H1 H2. rewrite <- (app_nil_r evs). eapply extends_trans; eassumption.
Qed.

Lemma extends_In_log (w w1 : World) (evs : list Event) (r : LogRecord) :
  extends w w1 evs -> In r (log w) -> In r (log w1).
Proof.
  intros (_ & (l & L) & _) H. rewrite L. apply in_or_app. now left.
Qed.

Lemma firstn_plus {A : Type} (k m : nat) (l : list A) :
  firstn (k + m) l = firstn k l ++ firstn m (skipn k l).
Proof.
  revert l. induction k as [|k IH]; intros [|a l]; simpl;
    try reflexivity.
  - now rewrite firstn_nil.
  - now rewrite IH.
Qed.

Lemma take_sections_concat {A : Type} (sizes : list nat) (l : list A) :
  List.concat (take_sections sizes l) = firstn (list_sum sizes) l.
Proof.
  revert l. induction sizes as [|k ks IH]; intros l; simpl.
  - reflexivity.
  - now rewrite IH, firstn_plus.
Qed.

Lemma list_sum_repeat (a k : nat) : list_sum (repeat a k) = (k * a)%nat.
Proof. induction k as [|k IH]; simpl; [reflexivity | now rewrite IH]. Qed.

Lemma section_sizes_sum (len n : nat) :
  (0 < n)%nat ->
  list_sum (repeat (S (len / n)) (len mod n)
              ++ repeat (len / n) (n - len mod n))%nat
  = len.
Proof.
  intros Hn. rewrite list_sum_app, !list_sum_repeat.
  pose proof (Nat.div_mod_eq len n) as D.
  pose proof (Nat.mod_upper_bound len n ltac:(lia)) as M.
  set (each := (len / n)%nat) in *.
  set (extras := (len mod n)%nat) in *.
  rewrite Nat.mul_sub_distr_r, Nat.mul_succ_r.
  assert (extras * each <= n * each)%nat
    by (apply Nat.mul_le_mono_r; lia).
  lia.
Qed.

(** The sections of [array_split], put end to end, are the list split. *)
Lemma array_split_concat {A : Type} (l : list A) (n : nat)
  (d : list (list A)) :
  array_split l n = PyOk d -> List.concat d = l.
Proof.
  intros H.
  assert (Hn : (0 < n)%nat) by (destruct n; [discriminate | lia]).
  assert (E : d = take_sections
                    (repeat (S (List.length l / n)) (List.length l mod n)
                       ++ repeat (List.length l / n)
                            (n - List.length l mod n))%nat l).
  { unfold array_split in H. destruct n; [lia|]. now injection H as <-. }
  rewrite E, take_sections_concat, section_sizes_sum by exact Hn.
  apply firstn_all.
Qed.

Section Processing.

Variable read_csv : string -> string -> PyResult (list (list float)).
Variable strptime : string -> string -> option Z.
Variable read_output : string -> string -> PyResult Frame.
Variable to_csv : Frame -> string -> string.
Variable self : DataIngestionService.

(** One call of [_process_series]: one recorded call, the output file left
    alone, and a row appended exactly when the series is valid. *)
Lemma process_series_effects (series_file : SeriesFile)
  (current_type : SeriesTypeConfiguration) (df_temp df_temp' : Frame)
  (w w' : World) (r : PyResult bool) :
  _process_series read_csv strptime self series_file current_type df_temp w
  = (w', df_temp', r) ->
  extends w w' [ev_process_series (name series_file) (List.length df_temp)]
  /\ match r with
     | PyOk true => exists row, df_temp' = df_temp ++ [row]
     | _ => df_temp' = df_temp
     end.
Proof.
  unfold _process_series.
  set (e := ev_process_series (name series_file) (List.length df_temp)).
  pose proof (extends_record w e) as X0.
  destruct (stat_ok series_file); simpl negb; cbv iota.
  2:{ intros H. injection H as <- <- <-. split; [exact X0 | reflexivity]. }
  destruct (st_size series_file =? 0).
  { intros H. injection H as <- <- <-. split; [|reflexivity].
    eapply extends_then; [|apply extends_cleanup].
    eapply extends_then; [exact X0 | apply extends_emit]. }
  assert (X : forall w0 ts,
             extends w w0 [e] ->
             (let '(logs, r0) :=
                try_check_series read_csv self current_type series_file ts in
              let w1 := emit logs w0 in
              match r0 with
              | PyRaise ex => (w1, df_temp, PyRaise ex)
              | PyOk (Valid row) =>
                  (cleanup current_type series_file None w1,
                   df_temp ++ [row], PyOk true)
              | PyOk (Malformed c) =>
                  (cleanup current_type series_file (Some c) w1, df_temp,
                   PyOk false)
              end) = (w', df_temp', r) ->
             extends w w' [e]
             /\ match r with
                | PyOk true => exists row, df_temp' = df_temp ++ [row]
                | _ => df_temp' = df_temp
                end).
  { intros w0 ts X2.
    destruct (try_check_series read_csv self current_type series_file ts)
      as [logs v].
    assert (X3 : extends w (emit logs w0) [e])
      by (eapply extends_then; [exact X2 | apply extends_emit]).
    destruct v as [[row|c]|ex]; intros H; injection H as <- <- <-.
    - split; [|now exists row].
      eapply extends_then; [exact X3 | apply extends_cleanup].
    - split; [|reflexivity].
      eapply extends_then; [exact X3 | apply extends_cleanup].
    - split; [exact X3 | reflexivity]. }
  destruct (strptime _ _) as [t|]; apply X; [exact X0|].
  eapply extends_then; [exact X0 | apply extends_emit].
Qed.

(** The single-core loop: it processes a prefix of the input series, in
    order; with a positive limit, no series is processed once that many
    valid rows are there, and a series is left out only then. *)
Lemma single_core_loop_spec (current_type : SeriesTypeConfiguration)
  (max_series : Z) (input_series : list SeriesFile) :
  forall (valid_series_count : Z) (df_temp : Frame) (w w1 : World)
         (df1 : Frame) (r : PyResult unit),
    valid_series_count = Z.of_nat (List.length df_temp) ->
    (0 < max_series -> valid_series_count < max_series) ->
    single_core_loop read_csv strptime self current_type max_series
      input_series valid_series_count df_temp w = (w1, df1, r) ->
    exists processed rest evs,
      input_series = processed ++ rest
      /\ extends w w1 evs
      /\ processed_names evs = map name processed
      /\ (forall b, ~ In (ev_to_csv b) evs)
      /\ (0 < max_series ->
          (forall n k, In (ev_process_series n k) evs ->
                       Z.of_nat k < max_series)
          /\ Z.of_nat (List.length df1) <= max_series
          /\ (rest <> [] -> r = PyOk tt ->
              Z.of_nat (List.length df1) = max_series))
      /\ (max_series <= 0 -> r = PyOk tt -> rest = []).
Proof.
  induction input_series as [|f fs IH];
    intros c df w w1 df1 r Hc Hlt; simpl.
  - intros H. injection H as <- <- <-.
    exists [], [], []. split; [reflexivity|]. split; [apply extends_refl|].
    split; [reflexivity|]. split; [intros b []|].
    split; [|reflexivity].
    intros Hz. split; [intros n k []|]. split; [specialize (Hlt Hz); lia|].
    intros X; now contradiction X.
  - destruct (_process_series read_csv strptime self f current_type df w)
      as [[w' df'] r'] eqn:P.
    apply process_series_effects in P. destruct P as [X F].
    set (e0 := ev_process_series (name f) (List.length df)) in *.
    assert (E0 : forall n k, In (ev_process_series n k) [e0] ->
                             0 < max_series -> Z.of_nat k < max_series).
    { intros n k [E|[]] Hz. injection E as _ <-. specialize (Hlt Hz). lia. }
    assert (T0 : forall b, ~ In (ev_to_csv b) [e0])
      by (intros b [E|[]]; discriminate).
    destruct r' as [valid|ex].
    + set (c' := if valid then c + 1 else c).
      assert (Hc' : c' = Z.of_nat (List.length df')).
      { subst c'. destruct valid.
        - destruct F as (row & ->). rewrite length_app. simpl. lia.
        - now subst df'. }
      destruct ((0 <? max_series) && (c' =? max_series)) eqn:Stop.
      * intros H. injection H as <- <- <-.
        apply andb_true_iff in Stop. destruct Stop as [S1 S2].
        apply Z.ltb_lt in S1. apply Z.eqb_eq in S2.
        exists [f], fs, [e0]. split; [reflexivity|]. split; [exact X|].
        split; [reflexivity|]. split; [exact T0|]. split; [|lia].
        intros Hz. split; [intros n k I; now apply (E0 n k)|]. lia.
      * intros H. apply IH in H; [|exact Hc'|].
        2:{ intros Hz. specialize (Hlt Hz).
            apply andb_false_iff in Stop. destruct Stop as [S|S].
            - apply Z.ltb_ge in S. lia.
            - apply Z.eqb_neq in S. subst c'. destruct valid; lia. }
        destruct H as (processed & rest & evs & -> & X' & N & T & Lim & Unl).
        exists (f :: processed), rest, (e0 :: evs).
        split; [reflexivity|].
        split; [exact (extends_trans _ _ _ [e0] evs X X')|].
        split; [simpl; now rewrite N|].
        split; [intros b [E|I]; [discriminate | now apply (T b)]|].
        split; [|exact Unl].
        intros Hz. destruct (Lim Hz) as (L1 & L2 & L3).
        split; [|split; assumption].
        intros n k [E|I]; [apply (E0 n k); [now left | exact Hz]|].
        now apply (L1 n k).
    + subst df'. destruct (is_OSError ex).
      * intros H. apply IH in H; [|exact Hc|exact Hlt].
        destruct H as (processed & rest & evs & -> & X' & N & T & Lim & Unl).
        exists (f :: processed), rest, (e0 :: evs).
        split; [reflexivity|].
        split.
        { eapply (extends_trans _ _ _ [e0] evs); [|exact X'].
          eapply extends_then; [exact X | apply extends_emit]. }
        split; [simpl; now rewrite N|].
        split; [intros b [E|I]; [discriminate | now apply (T b)]|].
        split; [|exact Unl].
        intros Hz. destruct (Lim Hz) as (L1 & L2 & L3).
        split; [|split; assumption].
        intros n k [E|I]; [apply (E0 n k); [now left | exact Hz]|].
        now apply (L1 n k).
      * intros H. injection H as <- <- <-.
        exists [f], fs, [e0]. split; [reflexivity|]. split; [exact X|].
        split; [reflexivity|]. split; [exact T0|].
        split; [|intros _ H; discriminate].
        intros Hz. split; [intros n k I; now apply (E0 n k)|].
        split; [specialize (Hlt Hz); lia | intros _ H; discriminate].
Qed.

(** One task: every series handed to it is processed, in order. *)
Lemma task_run_spec (current_type : SeriesTypeConfiguration)
  (input_series : list SeriesFile) :
  forall (df_temp : Frame) (w w1 : World) (df1 : Frame) (r : PyResult unit),
    task_run read_csv strptime self current_type input_series df_temp w
    = (w1, df1, r) ->
    exists evs,
      extends w w1 evs
      /\ (forall b, ~ In (ev_to_csv b) evs)
      /\ (r = PyOk tt -> processed_names evs = map name input_series).
Proof.
  induction input_series as [|f fs IH]; intros df w w1 df1 r; simpl.
  - intros H. injection H as <- <- <-. exists [].
    split; [apply extends_refl|]. split; [intros b []|reflexivity].
  - destruct (_process_series read_csv strptime self f current_type df w)
      as [[w' df'] r'] eqn:P.
    apply process_series_effects in P. destruct P as [X _].
    set (e0 := ev_process_series (name f) (List.length df)) in *.
    assert (G : forall w2,
               extends w w2 [e0] ->
               task_run read_csv strptime self current_type fs df' w2
               = (w1, df1, r) ->
               exists evs,
                 extends w w1 evs
                 /\ (forall b, ~ In (ev_to_csv b) evs)
                 /\ (r = PyOk tt ->
                     processed_names evs = name f :: map name fs)).
    { intros w2 X2 H. apply IH in H. destruct H as (evs & X' & T & N).
      exists (e0 :: evs).
      split; [exact (extends_trans _ _ _ [e0] evs X2 X')|].
      split; [intros b [E|I]; [discriminate | now apply (T b)]|].
      intros R. simpl. now rewrite (N R). }
    destruct r' as [valid|ex]; [now apply G|].
    destruct (is_OSError ex).
    + apply G. eapply extends_then; [exact X | apply extends_emit].
    + intros H. injection H as <- <- <-. exists [e0].
      split; [exact X|].
      split; [intros b [E|[]]; discriminate | intros H; discriminate].
Qed.

Lemma run_tasks_spec (current_type : SeriesTypeConfiguration)
  (input_series_division : list (list SeriesFile)) :
  forall (df_temp : Frame) (w w1 : World) (df1 : Frame) (r : PyResult unit),
    run_tasks read_csv strptime self current_type input_series_division
      df_temp w = (w1, df1, r) ->
    exists evs,
      extends w w1 evs
      /\ (forall b, ~ In (ev_to_csv b) evs)
      /\ (r = PyOk tt ->
          processed_names evs = map name (List.concat input_series_division)).
Proof.
  induction input_series_division as [|section rest IH];
    intros df w w1 df1 r; simpl.
  - intros H. injection H as <- <- <-. exists [].
    split; [apply extends_refl|]. split; [intros b []|reflexivity].
  - destruct (task_run read_csv strptime self current_type section [] w)
      as [[w' df'] r'] eqn:P.
    apply task_run_spec in P. destruct P as (evs & X & T & N).
    destruct r' as [[]|ex].
    + intros H. apply IH in H. destruct H as (evs' & X' & T' & N').
      exists (evs ++ evs').
      split; [exact (extends_trans _ _ _ evs evs' X X')|].
      split.
      { intros b I. apply in_app_or in I.
        destruct I as [I|I]; [now apply (T b) | now apply (T' b)]. }
      intros R. rewrite map_app, <- (N eq_refl), <- (N' R).
      clear. induction evs as [|[n k|b] evs IHe]; simpl; congruence.
    + intros H. injection H as <- <- <-. exists evs.
      split; [exact X|]. split; [exact T | intros H; discriminate].
Qed.

(** The processing of the input series, in either mode. *)
Lemma process_input_series_spec (current_type : SeriesTypeConfiguration)
  (max_series : Z) (input_series : list SeriesFile) (w w1 : World)
  (df_temp : Frame) (r : PyResult unit) :
  process_input_series read_csv strptime self current_type max_series
    input_series w = (w1, df_temp, r) ->
  exists evs,
    extends w w1 evs
    /\ (forall b, ~ In (ev_to_csv b) evs)
    /\ (r = PyOk tt ->
        if multi_core_enable (_conf self)
        then processed_names evs = map name input_series
        else exists rest,
            map name input_series = processed_names evs ++ rest
            /\ (max_series <= 0 -> rest = [])
            /\ (0 < max_series ->
                (forall n k, In (ev_process_series n k) evs ->
                             Z.of_nat k < max_series)
                /\ Z.of_nat (List.length df_temp) <= max_series
                /\ (rest <> [] ->
                    Z.of_nat (List.length df_temp) = max_series))).
Proof.
  unfold process_input_series.
  destruct (multi_core_enable (_conf self)).
  - destruct (array_split input_series _) as [d|ex] eqn:S.
    + intros H. apply run_tasks_spec in H. destruct H as (evs & X & T & N).
      exists evs. split; [exact X|]. split; [exact T|].
      intros R. rewrite (N R). now rewrite (array_split_concat _ _ _ S).
    + intros H. injection H as <- <- <-. exists [].
      split; [apply extends_refl|].
      split; [intros b [] | intros H; discriminate].
  - intros H. apply single_core_loop_spec in H; [|reflexivity|simpl; lia].
    destruct H as (processed & rest & evs & -> & X & N & T & Lim & Unl).
    exists evs. split; [exact X|]. split; [exact T|].
    intros R. exists (map name rest).
    split; [now rewrite map_app, N|].
    split.
    { intros Hz. now rewrite (Unl Hz R). }
    intros Hz. destruct (Lim Hz) as (L1 & L2 & L3).
    split; [exact L1|]. split; [exact L2|].
    intros Hr. apply L3; [|exact R].
    intros ->. now apply Hr.
Qed.

(** The first phase of a run leaves the output file alone and calls only
    [_process_series]. *)
Lemma gather_spec (type : SeriesType) (max_series : option PyArg)
  (w w1 : World) (r : PyResult (option (Z * Frame))) :
  gather read_csv strptime self type max_series w = (w1, r) ->
  exists evs, extends w w1 evs /\ forall b, ~ In (ev_to_csv b) evs.
Proof.
  unfold gather.
  assert (G : forall w0 z,
             extends w w0 [] ->
             (if negb (input_dir_ok w0)
              then (emit [C msg_input_dir_error] w0, PyOk None)
              else
                let input_series :=
                  filter (has_extension (type_conf self type))
                         (input_dir w0) in
                let wrong_files :=
                  filter (fun f => negb (has_extension (type_conf self type) f))
                         (input_dir w0) in
                let input_series_count :=
                  Z.of_nat (List.length input_series) in
                let wrong_files_count := Z.of_nat (List.length wrong_files) in
                let w2 :=
                  if 0 <? wrong_files_count
                  then emit [W (msg_unexpected_extension
                                  (map name wrong_files))] w0
                  else w0 in
                if 0 <? input_series_count then
                  match process_input_series read_csv strptime self
                          (type_conf self type) z input_series w2 with
                  | (w', df_temp, PyOk _) =>
                      (w', PyOk (Some (input_series_count, df_temp)))
                  | (w', _, PyRaise e) => (w', PyRaise e)
                  end
                else (w2, PyOk None)) = (w1, r) ->
             exists evs, extends w w1 evs /\ forall b, ~ In (ev_to_csv b) evs).
  { intros w0 z X0.
    destruct (input_dir_ok w0); simpl negb; cbv iota.
    2:{ intros H. injection H as <- <-. exists [].
        split; [|intros b []].
        eapply extends_then; [exact X0 | apply extends_emit]. }
    cbv zeta.
    set (w2 := if 0 <? _ then emit _ w0 else w0).
    assert (X2 : extends w w2 []).
    { subst w2. destruct (0 <? _); [|exact X0].
      eapply extends_then; [exact X0 | apply extends_emit]. }
    clearbody w2.
    destruct (0 <? _).
    - destruct (process_input_series _ _ _ _ _ _ w2) as [[w' df] r'] eqn:P.
      apply process_input_series_spec in P. destruct P as (evs & X & T & _).
      assert (X' : extends w w' evs)
        by exact (extends_trans _ _ _ [] evs X2 X).
      destruct r'; intros H; injection H as <- <-; eauto.
    - intros H. injection H as <- <-. exists []. split; [exact X2|].
      intros b []. }
  unfold resolve_max_series.
  destruct max_series as [[z|]|].
  - destruct (0 <? z).
    + apply G. destruct (multi_core_enable (_conf self));
        [apply extends_emit | apply extends_refl].
    + intros H. injection H as <- <-. exists [].
      split; [apply extends_emit | intros b []].
  - intros H. injection H as <- <-. exists [].
    split; [apply extends_emit | intros b []].
  - apply G. apply extends_refl.
Qed.

Lemma resolve_max_series_input_dir (max_series : option PyArg)
  (w w0 : World) (limit : option Z) :
  resolve_max_series self max_series w = (w0, limit) ->
  extends w w0 [] /\ input_dir w0 = input_dir w
  /\ input_dir_ok w0 = input_dir_ok w.
Proof.
  unfold resolve_max_series.
  destruct max_series as [[z|]|]; [destruct (0 <? z);
    [destruct (multi_core_enable (_conf self))|]| |];
    intros H; injection H as <- <-; simpl;
    auto using extends_emit, extends_refl.
Qed.

(** A run that reaches the end of its first phase has resolved a limit,
    found input series and processed them without an exception. *)
Lemma gather_inv (type : SeriesType) (max_series : option PyArg)
  (w w1 : World) (n : Z) (df_temp : Frame) :
  gather read_csv strptime self type max_series w
  = (w1, PyOk (Some (n, df_temp))) ->
  exists w0 limit w2,
    resolve_max_series self max_series w = (w0, Some limit)
    /\ extends w0 w2 []
    /\ process_input_series read_csv strptime self (type_conf self type)
         limit (filter (has_extension (type_conf self type)) (input_dir w))
         w2
       = (w1, df_temp, PyOk tt)
    /\ n = Z.of_nat
             (List.length
                (filter (has_extension (type_conf self type)) (input_dir w)))
    /\ 0 < n.
Proof.
  unfold gather.
  destruct (resolve_max_series self max_series w) as [w0 [limit|]] eqn:R;
    [|intros H; discriminate].
  destruct (resolve_max_series_input_dir _ _ _ _ R) as (X0 & D & _).
  destruct (input_dir_ok w0); simpl negb; cbv iota;
    [|intros H; discriminate].
  cbv zeta. rewrite D.
  set (w2 := if 0 <? _ then emit _ w0 else w0).
  assert (X2 : extends w0 w2 []).
  { subst w2. destruct (0 <? _); [apply extends_emit | apply extends_refl]. }
  clearbody w2.
  destruct (0 <? _) eqn:Pos; [|intros H; discriminate].
  destruct (process_input_series _ _ _ _ _ _ w2) as [[w' df] [[]|ex]] eqn:P;
    intros H; [|discriminate].
  injection H as <- <- <-.
  exists w0, limit, w2. split; [reflexivity|]. split; [exact X2|].
  split; [exact P|]. split; [reflexivity|]. now apply Z.ltb_lt.
Qed.

(** C4, as the code has it.  With an explicit [max_series] that is a
    positive integer: in single-core mode the input series are processed in
    order, none once [max_series] valid rows are there, and one is left out
    only when that many were reached; in multi-core mode the limit is
    warned to have no effect and every input series is processed.  An
    explicit [max_series] that is no positive integer is refused: a critical
    record, the value 0, and no series processed. *)
Theorem explicit_max_series_limits_single_core_only (type : SeriesType)
  (z : Z) (w w1 : World) (n : Z) (df_temp : Frame) :
  0 < z ->
  gather read_csv strptime self type (Some (PyInt z)) w
  = (w1, PyOk (Some (n, df_temp))) ->
  (exists evs,
     trace w1 = trace w ++ evs
     /\ if multi_core_enable (_conf self)
        then In (W (msg_max_series_no_effect z)) (log w1)
             /\ processed_names evs
                = map name (filter (has_extension (type_conf self type))
                                   (input_dir w))
        else exists rest,
            map name (filter (has_extension (type_conf self type))
                             (input_dir w))
            = processed_names evs ++ rest
            /\ (forall nm k, In (ev_process_series nm k) evs ->
                             Z.of_nat k < z)
            /\ Z.of_nat (List.length df_temp) <= z
            /\ (rest <> [] -> Z.of_nat (List.length df_temp) = z))
  /\ forall arg,
       (forall z', arg = PyInt z' -> z' <= 0) ->
       _ingest_series read_csv strptime read_output to_csv self type
         (Some arg) w
       = (emit [C msg_max_series_invalid] w, PyOk 0).
Proof.
  intros Hz H. split.
  - apply gather_inv in H.
    destruct H as (w0 & limit & w2 & R & X2 & P & _ & _).
    unfold resolve_max_series in R.
    replace (0 <? z) with true in R by (symmetry; now apply Z.ltb_lt).
    apply process_input_series_spec in P.
    destruct P as (evs & X & _ & S). specialize (S eq_refl).
    exists evs.
    assert (X0 : extends w w0 []).
    { destruct (multi_core_enable (_conf self));
        injection R as <- _; [apply extends_emit | apply extends_refl]. }
    pose proof (extends_trans _ _ _ _ _ (extends_then _ _ _ _ X0 X2) X)
      as (T & _).
    split; [exact T|].
    destruct (multi_core_enable (_conf self)).
    + injection R as <- <-. split; [|exact S].
      apply (extends_In_log _ _ _ _ X), (extends_In_log _ _ _ _ X2).
      simpl. apply in_or_app. right. now left.
    + injection R as <- <-. destruct S as (rest & S1 & _ & S3).
      exists rest. split; [exact S1|]. exact (S3 Hz).
  - intros arg Harg. unfold _ingest_series, gather, resolve_max_series.
    destruct arg as [z'|]; [|reflexivity].
    specialize (Harg z' eq_refl).
    replace (0 <? z') with false by (symmetry; apply Z.ltb_ge; lia).
    reflexivity.
Qed.

(** C8. When no file of the input directory has the configured
    extension, the call returns 0 at once: no series is processed, nothing
    is written, and the output file and the input directory are as they
    were. *)
Theorem no_candidate_returns_zero (type : SeriesType)
  (max_series : option PyArg) (w : World) :
  filter (has_extension (type_conf self type)) (input_dir w) = [] ->
  snd (_ingest_series read_csv strptime read_output to_csv self type
         max_series w) = PyOk 0
  /\ output_file
       (fst (_ingest_series read_csv strptime read_output to_csv self type
               max_series w)) = output_file w
  /\ trace
       (fst (_ingest_series read_csv strptime read_output to_csv self type
               max_series w)) = trace w
  /\ input_dir
       (fst (_ingest_series read_csv strptime read_output to_csv self type
               max_series w)) = input_dir w.
Proof.
  intros H. unfold _ingest_series, gather.
  destruct (resolve_max_series self max_series w) as [w0 [limit|]] eqn:R.
  2:{ simpl. unfold resolve_max_series in R.
      destruct max_series as [[z|]|]; [destruct (0 <? z)| |];
        try discriminate; injection R as <-; repeat split. }
  assert (R' : output_file w0 = output_file w /\ trace w0 = trace w
               /\ input_dir w0 = input_dir w).
  { unfold resolve_max_series in R.
    destruct max_series as [[z|]|]; [destruct (0 <? z);
      [destruct (multi_core_enable (_conf self))|]| |];
      try discriminate; injection R as <- _; repeat split. }
  destruct R' as (O & T & D).
  destruct (input_dir_ok w0); simpl negb; cbv iota;
    [|simpl; repeat split; assumption].
  cbv zeta. rewrite D, H. simpl.
  destruct (0 <? _); simpl; repeat split; assumption.
Qed.

(** The four ways the [try] block of the persistence ends: an exception
    before anything is written; every new row dropped and nothing
    written; the output file written; the write failed. *)
Lemma try_persist_cases (current_type : SeriesTypeConfiguration)
  (df_temp : Frame) (w : World) :
  let n := Z.of_nat (List.length df_temp) in
  (exists e, try_persist read_output to_csv current_type df_temp w
             = (w, 0, PyRaise e))
  \/ (exists d, try_persist read_output to_csv current_type df_temp w
                = (w, d, PyOk (n - d))
                /\ n - d <= 0)
  \/ (exists out d,
        try_persist read_output to_csv current_type df_temp w
        = (record (ev_to_csv true)
             (set_output_file
                (to_csv out (output_series_separator current_type)) w),
           d, PyOk (n - d))
        /\ 0 < n - d)
  \/ (exists d, try_persist read_output to_csv current_type df_temp w
                = (record (ev_to_csv false) w, d, PyRaise OSError)
                /\ 0 < n - d).
Proof.
  intros n. unfold try_persist. fold n.
  destruct (output_read_ok w); simpl negb; cbv iota; [|left; eauto].
  destruct (read_output _ _) as [out_df|e]; [|left; eauto].
  destruct (frame_astype_int32 df_temp) as [new|e]; [|left; eauto].
  destruct (frame_astype_int32 out_df) as [old|e]; [|left; eauto].
  set (p := match duplicated_policy current_type with
            | dup_save => (old ++ new, 0)
            | dup_discard => drop_new_duplicates (old ++ new) new
            end).
  destruct p as [kept d].
  destruct (0 <? n - d) eqn:Pos.
  - apply Z.ltb_lt in Pos.
    destruct (output_write_ok w).
    + right. right. left. exists kept, d. now split.
    + right. right. right. exists d. now split.
  - apply Z.ltb_ge in Pos. right. left. exists d. now split.
Qed.

(** C10. In a run whose deduplication flags every valid row just
    appended, the second phase changes nothing at all: the output file is
    not written (no [to_csv] call), it is as it was before the run, and the
    run returns 0. *)
Theorem all_duplicates_leave_output_file_unwritten (type : SeriesType)
  (max_series : option PyArg) (w w1 w2 : World) (n : Z) (df_temp : Frame)
  (summary : RunSummary) :
  gather read_csv strptime self type max_series w
  = (w1, PyOk (Some (n, df_temp))) ->
  persist read_output to_csv (type_conf self type) n df_temp w1
  = (w2, PyOk summary) ->
  0 < valid_series_count summary ->
  duplicated_series_count summary = valid_series_count summary ->
  _ingest_series read_csv strptime read_output to_csv self type max_series w
  = (w1, PyOk 0)
  /\ w2 = w1
  /\ ingested_series_count summary = 0
  /\ output_file w1 = output_file w
  /\ exists evs, trace w1 = trace w ++ evs
                 /\ forall b, ~ In (ev_to_csv b) evs.
Proof.
  intros G P Hv Hd.
  assert (E : w2 = w1 /\ ingested_series_count summary = 0).
  { unfold persist in P.
    destruct (Z.of_nat (List.length df_temp) =? 0) eqn:Z0.
    { injection P as <- <-. simpl in *. apply Z.eqb_eq in Z0. lia. }
    destruct (try_persist_cases (type_conf self type) df_temp w1)
      as [(e & T)|[(d & T & B)|[(out & d & T & B)|(d & T & B)]]];
      rewrite T in P; simpl in P.
    - destruct (is_OSError e); [|discriminate].
      injection P as <- <-. simpl in *. lia.
    - injection P as <- <-. simpl in *. split; [reflexivity | lia].
    - injection P as <- <-. simpl in *. lia.
    - injection P as <- <-. simpl in *. lia. }
  destruct E as [-> E].
  apply gather_spec in G as S. destruct S as (evs & X & T).
  split.
  { unfold _ingest_series. now rewrite G, P, E. }
  split; [reflexivity|]. split; [exact E|].
  destruct X as (X1 & _ & X3 & _).
  split; [exact X3|]. exists evs. now split.
Qed.

(** C7. In a run whose final write of the output file fails with an
    [OSError], the error is caught: the run logs a critical record and
    returns 0.  The input directory and the directory of malformed series
    stay as the processing left them, and the output file as it was. *)
Theorem failed_write_returns_zero (type : SeriesType)
  (max_series : option PyArg) (w w' : World) (r : PyResult Z)
  (evs : list Event) :
  _ingest_series read_csv strptime read_output to_csv self type max_series w
  = (w', r) ->
  trace w' = trace w ++ evs ->
  In (ev_to_csv false) evs ->
  r = PyOk 0
  /\ In (C msg_persist_error) (log w')
  /\ output_file w' = output_file w
  /\ exists w1 n df_temp,
       gather read_csv strptime self type max_series w
       = (w1, PyOk (Some (n, df_temp)))
       /\ input_dir w' = input_dir w1
       /\ malformed_dir w' = malformed_dir w1.
Proof.
  unfold _ingest_series. intros H T I.
  destruct (gather read_csv strptime self type max_series w) as [w1 rg] eqn:G.
  apply gather_spec in G as S. destruct S as (evs1 & X & N).
  destruct X as (X1 & _ & X3 & _).
  assert (Absurd : trace w' = trace w1 -> False).
  { intros E. rewrite E, X1 in T. apply app_inv_head in T. subst evs1.
    now apply (N false). }
  destruct rg as [[[n df_temp]|]|e].
  2,3: injection H as <- <-; now contradiction Absurd.
  unfold persist in H.
  destruct (Z.of_nat (List.length df_temp) =? 0).
  { injection H as <- <-. now contradiction Absurd. }
  destruct (try_persist_cases (type_conf self type) df_temp w1)
    as [(e & P)|[(d & P & B)|[(out & d & P & B)|(d & P & B)]]];
    rewrite P in H; simpl in H.
  - destruct (is_OSError e); injection H as <- <-; now contradiction Absurd.
  - injection H as <- <-. now contradiction Absurd.
  - injection H as <- <-. exfalso.
    simpl in T. rewrite X1, <- app_assoc in T. apply app_inv_head in T.
    subst evs. apply in_app_or in I. destruct I as [I|[I|[]]].
    + now apply (N false).
    + discriminate.
  - injection H as <- <-. split; [reflexivity|].
    split; [simpl; apply in_or_app; right; now left|].
    split; [exact X3|].
    exists w1, n, df_temp. repeat split.
Qed.

End Processing.

(* ------------------------------------------------------------------ *)
(** ** Duplicates *)

Lemma duplicated_from_length (seen : list Row) (df : Frame) :
  List.length (duplicated_from seen df) = List.length df.
Proof.
  revert seen. induction df as [|r df IH]; intros seen; simpl;
    [reflexivity | now rewrite IH].
Qed.

(** A row is marked exactly when a row before it equals it on every column
    but the timestamp. *)
Lemma duplicated_from_nth (seen : list Row) (df : Frame) (i : nat) (r : Row) :
  nth_error df i = Some r ->
  nth_error (duplicated_from seen df) i
  = Some (existsb (fun s => same_series s r) (seen ++ firstn i df)).
Proof.
  revert seen i. induction df as [|r0 df IH]; intros seen [|i] H;
    simpl in *; try discriminate.
  - injection H as ->. now rewrite app_nil_r.
  - rewrite (IH _ _ H). now rewrite <- app_assoc.
Qed.

Lemma mask_shape (old new : Frame) :
  new_duplicates_mask (old ++ new) new
  = repeat false (List.length old)
      ++ skipn (List.length old) (duplicated (old ++ new)).
Proof.
  unfold new_duplicates_mask, mask_clear_prefix, duplicated.
  rewrite duplicated_from_length, length_app.
  replace (List.length old + List.length new - List.length new)%nat
    with (List.length old) by lia.
  now rewrite Nat.min_l by lia.
Qed.

Lemma nth_error_skipn {A : Type} (k i : nat) (l : list A) :
  nth_error (skipn k l) i = nth_error l (k + i).
Proof.
  revert l. induction k as [|k IH]; intros [|a l]; simpl; auto.
  now destruct i.
Qed.

Lemma mask_on_old (old new : Frame) (i : nat) :
  (i < List.length old)%nat ->
  nth_error (new_duplicates_mask (old ++ new) new) i = Some false.
Proof.
  intros H. rewrite mask_shape, nth_error_app1 by (now rewrite repeat_length).
  apply nth_error_repeat. exact H.
Qed.

Lemma mask_on_new (old new : Frame) (i : nat) (r : Row) :
  nth_error new i = Some r ->
  nth_error (new_duplicates_mask (old ++ new) new) (List.length old + i)
  = Some (existsb (fun s => same_series s r) (old ++ firstn i new)).
Proof.
  intros H. rewrite mask_shape.
  rewrite nth_error_app2 by (rewrite repeat_length; lia).
  rewrite repeat_length.
  replace (List.length old + i - List.length old)%nat with i by lia.
  rewrite nth_error_skipn. unfold duplicated.
  rewrite (duplicated_from_nth [] (old ++ new) (List.length old + i) r).
  - simpl. rewrite firstn_app.
    replace (List.length old + i - List.length old)%nat with i by lia.
    rewrite firstn_all2 by lia. reflexivity.
  - rewrite nth_error_app2 by lia.
    now replace (List.length old + i - List.length old)%nat with i by lia.
Qed.

Lemma drop_masked_old (old new : Frame) (mask : list bool) :
  drop_masked (repeat false (List.length old) ++ mask) (old ++ new)
  = old ++ drop_masked mask new.
Proof.
  induction old as [|r old IH]; simpl; [reflexivity | now rewrite IH].
Qed.

Lemma drop_masked_none (mask : list bool) (df : Frame) :
  mask_sum mask = 0 -> drop_masked mask df = df.
Proof.
  unfold mask_sum. revert df.
  induction mask as [|b mask IH]; intros [|r df] H; simpl in *;
    try reflexivity.
  destruct b; simpl in H; [lia|]. f_equal. now apply IH.
Qed.

Lemma mask_sum_old (k : nat) (mask : list bool) :
  mask_sum (repeat false k ++ mask) = mask_sum mask.
Proof.
  unfold mask_sum. induction k as [|k IH]; simpl; [reflexivity | exact IH].
Qed.

(** The frame the deduplication keeps: every row the output file held, in
    place, then the new rows that are not flagged. *)
Lemma drop_new_duplicates_keeps_old (old new : Frame) :
  fst (drop_new_duplicates (old ++ new) new)
  = old ++ drop_masked
             (skipn (List.length old)
                    (new_duplicates_mask (old ++ new) new)) new
  /\ snd (drop_new_duplicates (old ++ new) new)
     = mask_sum (new_duplicates_mask (old ++ new) new).
Proof.
  unfold drop_new_duplicates.
  assert (S : skipn (List.length old) (new_duplicates_mask (old ++ new) new)
              = skipn (List.length old) (duplicated (old ++ new))).
  { rewrite mask_shape, skipn_app, repeat_length, Nat.sub_diag.
    rewrite skipn_all2 by (now rewrite repeat_length). reflexivity. }
  rewrite S.
  destruct (0 <? mask_sum _) eqn:Pos; simpl; (split; [|reflexivity]).
  - now rewrite mask_shape, drop_masked_old.
  - apply Z.ltb_ge in Pos.
    assert (Z0 : mask_sum (new_duplicates_mask (old ++ new) new) = 0)
      by (unfold mask_sum in *; lia).
    rewrite mask_shape, mask_sum_old in Z0.
    now rewrite (drop_masked_none _ _ Z0).
Qed.

(** C1, as the code has it.  In the mask of duplicates no row the output
    file already held is flagged, and a row just appended is flagged exactly
    when some row before it in the merged frame, held by the output file or
    appended earlier in the same run, equals it on every column but the
    timestamp. *)
Theorem new_row_flagged_iff_any_earlier_row_matches (old new : Frame) :
  List.length (new_duplicates_mask (old ++ new) new)
  = List.length (old ++ new)
  /\ (forall i, (i < List.length old)%nat ->
        nth_error (new_duplicates_mask (old ++ new) new) i = Some false)
  /\ (forall i r, nth_error new i = Some r ->
        nth_error (new_duplicates_mask (old ++ new) new)
                  (List.length old + i)
        = Some (existsb (fun s => same_series s r) (old ++ firstn i new)))
  /\ fst (drop_new_duplicates (old ++ new) new)
     = old ++ drop_masked
                (skipn (List.length old)
                       (new_duplicates_mask (old ++ new) new)) new.
Proof.
  split.
  { rewrite mask_shape, length_app, repeat_length, length_skipn.
    unfold duplicated. rewrite duplicated_from_length, length_app. lia. }
  split; [intros i; apply mask_on_old|].
  split; [intros i r; apply mask_on_new|].
  apply drop_new_duplicates_keeps_old.
Qed.

(** C1 as the specification words it fails: with an output file that
    holds no row, the second of two equal rows of one run is flagged, only
    the first is kept, and the run of "A.dat" and "B.dat" ingests one
    series. *)
Lemma second_of_two_new_rows_is_flagged :
  new_duplicates_mask
    ([] ++ [Scenario.int_row_of 1000; Scenario.int_row_of 2000])
    [Scenario.int_row_of 1000; Scenario.int_row_of 2000]
  = [false; true]
  /\ fst (drop_new_duplicates
            ([] ++ [Scenario.int_row_of 1000; Scenario.int_row_of 2000])
            [Scenario.int_row_of 1000; Scenario.int_row_of 2000])
     = [Scenario.int_row_of 1000]
  /\ snd (Scenario.ingest 2 false 0 None
            (Scenario.world 2 [Scenario.A_dat; Scenario.B_dat] [] true))
     = PyOk 1
  /\ output_file
       (fst (Scenario.ingest 2 false 0 None
               (Scenario.world 2 [Scenario.A_dat; Scenario.B_dat] [] true)))
     = Scenario.to_csv 2 [Scenario.int_row_of 1000] ",".
Proof. vm_compute. repeat split. Qed.

Lemma frame_astype_nth (df new : Frame) (i : nat) (r : Row) :
  frame_astype_int32 df = PyOk new ->
  nth_error df i = Some r ->
  exists r', nth_error new i = Some r' /\ row_astype_int32 r = PyOk r'.
Proof.
  revert new i. induction df as [|r0 df IH]; intros new i; simpl.
  - intros _ H. now destruct i.
  - destruct (row_astype_int32 r0) as [r0'|e] eqn:R0; simpl; [|discriminate].
    destruct (frame_astype_int32 df) as [df'|e]; simpl; [|discriminate].
    intros H. injection H as <-.
    destruct i as [|i]; simpl.
    + intros H. injection H as <-. eauto.
    + intros H. now apply (IH df' i).
Qed.

(** The cast of [ANOMALOUS] keeps two rows equal outside the timestamp. *)
Lemma row_astype_tl (r1 r2 r1' r2' : Row) :
  tl r1 = tl r2 ->
  row_astype_int32 r1 = PyOk r1' ->
  row_astype_int32 r2 = PyOk r2' ->
  tl r1' = tl r2'.
Proof.
  destruct r1 as [|t1 [|c1 rest1]], r2 as [|t2 [|c2 rest2]]; simpl;
    intros E H1 H2; try discriminate;
    try (injection H1 as <-; injection H2 as <-; reflexivity).
  injection E as <- <-.
  destruct c1 as [t|a|z]; simpl in *;
    try (injection H1 as <-; injection H2 as <-; reflexivity).
  destruct (F64.astype_int32 a) as [z|e]; simpl in *; [|discriminate].
  injection H1 as <-. injection H2 as <-. reflexivity.
Qed.

Section Deduplication.

Variable read_output : string -> string -> PyResult Frame.
Variable to_csv : Frame -> string -> string.

(** C2, as the code has it.  With a duplicate policy other than Save:
    of two valid rows of one run that are identical in every column but the
    timestamp, the later one is always flagged and dropped; the earlier one
    is flagged exactly when a row before it in the merged frame equals it
    on those columns, so it survives only if neither the output file nor an
    earlier row of the run matches it; the frame kept holds every row the
    output file held, in place, followed by the new rows not flagged; and
    it is written to the output file only when a new row is left and the
    write succeeds. *)
Theorem identical_new_rows_keep_at_most_the_first
  (current_type : SeriesTypeConfiguration) (df_temp : Frame) (w : World)
  (out_df old new : Frame) (i j : nat) (ri rj : Row) :
  duplicated_policy current_type = dup_discard ->
  output_read_ok w = true ->
  read_output (output_file w) (output_series_separator current_type)
  = PyOk out_df ->
  frame_astype_int32 df_temp = PyOk new ->
  frame_astype_int32 out_df = PyOk old ->
  (i < j)%nat ->
  nth_error df_temp i = Some ri ->
  nth_error df_temp j = Some rj ->
  tl ri = tl rj ->
  let mask := new_duplicates_mask (old ++ new) new in
  let kept := old ++ drop_masked (skipn (List.length old) mask) new in
  let ingested := Z.of_nat (List.length df_temp) - mask_sum mask in
  nth_error mask (List.length old + j) = Some true
  /\ (exists ri',
        nth_error new i = Some ri'
        /\ nth_error mask (List.length old + i)
           = Some (existsb (fun s => same_series s ri')
                           (old ++ firstn i new)))
  /\ try_persist read_output to_csv current_type df_temp w
     = if 0 <? ingested
       then if output_write_ok w
            then (record (ev_to_csv true)
                    (set_output_file
                       (to_csv kept (output_series_separator current_type))
                       w),
                  mask_sum mask, PyOk ingested)
            else (record (ev_to_csv false) w, mask_sum mask, PyRaise OSError)
       else (w, mask_sum mask, PyOk ingested).
Proof.
  intros Hpol Hread Hout Hnew Hold Hij Hi Hj Htl mask kept ingested.
  destruct (frame_astype_nth _ _ _ _ Hnew Hi) as (ri' & Ni & Ci).
  destruct (frame_astype_nth _ _ _ _ Hnew Hj) as (rj' & Nj & Cj).
  pose proof (row_astype_tl _ _ _ _ Htl Ci Cj) as Htl'.
  split.
  { subst mask. rewrite (mask_on_new old new j rj' Nj). f_equal.
    apply existsb_exists. exists ri'. split.
    - apply in_or_app. right.
      assert (L : nth_error (firstn j new) i = Some ri').
      { rewrite nth_error_firstn.
        replace (i <? j)%nat with true by (symmetry; now apply Nat.ltb_lt).
        exact Ni. }
      now apply nth_error_In in L.
    - unfold same_series. rewrite Htl'. apply cells_same_refl. }
  split.
  { exists ri'. split; [exact Ni|]. subst mask. now apply mask_on_new. }
  unfold try_persist. rewrite Hread, Hout, Hnew, Hold, Hpol. simpl negb.
  cbv iota.
  destruct (drop_new_duplicates_keeps_old old new) as [K D].
  destruct (drop_new_duplicates (old ++ new) new) as [kept' d].
  simpl in K, D. subst kept' d. reflexivity.
Qed.

End Deduplication.

(** C2 as the specification words it fails: with an output file that
    already holds the series of "A.dat" and "B.dat", both new rows are
    flagged, none of the two survives, and the output file is left as it
    was. *)
Lemma both_new_rows_dropped_when_stored :
  new_duplicates_mask
    ([Scenario.int_row_of 5]
       ++ [Scenario.int_row_of 1000; Scenario.int_row_of 2000])
    [Scenario.int_row_of 1000; Scenario.int_row_of 2000]
  = [false; true; true]
  /\ fst (drop_new_duplicates
            ([Scenario.int_row_of 5]
               ++ [Scenario.int_row_of 1000; Scenario.int_row_of 2000])
            [Scenario.int_row_of 1000; Scenario.int_row_of 2000])
     = [Scenario.int_row_of 5]
  /\ Scenario.ingest 2 false 0 None
       (Scenario.world 2 [Scenario.A_dat; Scenario.B_dat]
          [Scenario.row_of 5] true)
     = ({| input_dir := []; input_dir_ok := true;
           output_file := Scenario.to_csv 2 [Scenario.row_of 5] ",";
           output_read_ok := true; output_write_ok := true;
           malformed_dir := []; malformed_dir_ok := true;
           log := [W (msg_datetime_fallback "A.dat");
                   W (msg_datetime_fallback "B.dat")];
           trace := [ev_process_series "A.dat" 0;
                     ev_process_series "B.dat" 1] |},
        PyOk 0).
Proof. vm_compute. repeat split. Qed.

(* ------------------------------------------------------------------ *)
(** ** Strings: [split] and [join] *)

Lemma str_app_assoc (a b c : string) : (a +++ b) +++ c = a +++ (b +++ c).
Proof. induction a as [|x a IH]; simpl; [reflexivity | now rewrite IH]. Qed.




Lemma prefix_skip (a s : string) :
  prefix a s = true -> s = a +++ Py.skip (String.length a) s.
Proof.
  revert s. induction a as [|c a IH]; intros s; [reflexivity|].
  destruct s as [|d s]; simpl; [discriminate|].
  destruct (ascii_dec c d) as [E|]; [subst d|discriminate].
  intros H. now rewrite <- (IH s H).
Qed.

(** Where [find] finds the separator, the string is what stands before
    it, the separator, and the rest. *)
Lemma find_spec (sep s : string) (i : nat) :
  Py.find sep s = Some i ->
  s = substring 0 i s +++ sep +++ Py.skip (i + String.length sep) s.
Proof.
  revert i. induction s as [|c s IH]; intros i.
  - destruct sep; simpl; [|discriminate].
    intros H. injection H as <-. reflexivity.
  - change (Py.find sep (String c s))
      with (if prefix sep (String c s) then Some O
            else option_map S (Py.find sep s)).
    destruct (prefix sep (String c s)) eqn:P.
    + intros H. injection H as <-. simpl substring.
      replace (substring 0 0 s) with EmptyString by (now destruct s).
      simpl. now apply prefix_skip in P.
    + destruct (Py.find sep s) as [k|]; simpl; [|discriminate].
      intros H. injection H as <-. simpl. f_equal. now apply IH.
Qed.

Lemma split_fuel_nonempty (fuel : nat) (sep s : string) :
  Py.split_fuel fuel sep s <> [].
Proof.
  destruct fuel; simpl; [discriminate|].
  destruct (Py.find sep s); discriminate.
Qed.

Lemma join_cons (sep x : string) (l : list string) :
  l <> [] -> Py.join sep (x :: l) = x +++ sep +++ Py.join sep l.
Proof. destruct l; [intros H; now contradiction H | reflexivity]. Qed.

(** [sep.join(s.split(sep)) == s] *)
Lemma join_split (fuel : nat) (sep s : string) :
  Py.join sep (Py.split_fuel fuel sep s) = s.
Proof.
  revert s. induction fuel as [|fuel IH]; intros s; simpl; [reflexivity|].
  destruct (Py.find sep s) as [i|] eqn:F; [|reflexivity].
  rewrite join_cons by apply split_fuel_nonempty.
  rewrite IH. symmetry. now apply find_spec.
Qed.





Lemma last_char_split (p : string) (c : ascii) :
  Py.last_char p = Some c ->
  p = Py.drop_last_char p +++ String c EmptyString.
Proof.
  unfold Py.drop_last_char, Py.drop_last.
  induction p as [|d p IH]; simpl; [discriminate|].
  destruct p as [|e p].
  - intros H. now injection H as ->.
  - intros H. specialize (IH H). simpl in IH.
    simpl String.length. rewrite Nat.sub_0_r in *.
    simpl. f_equal. exact IH.
Qed.

Lemma join_snoc_app (sep x y : string) (front : list string) :
  Py.join sep (front ++ [x +++ y]) = Py.join sep (front ++ [x]) +++ y.
Proof.
  induction front as [|a front IH]; [reflexivity|].
  simpl app. rewrite !join_cons by (now destruct front).
  now rewrite IH, !str_app_assoc.
Qed.

Lemma strings_eqb_eq (l1 l2 : list string) :
  strings_eqb l1 l2 = true -> l1 = l2.
Proof.
  revert l2. induction l1 as [|a l1 IH]; intros [|b l2]; simpl;
    try discriminate; [reflexivity|].
  intros H. apply andb_true_iff in H. destruct H as [E H].
  apply String.eqb_eq in E. subst b. f_equal. now apply IH.
Qed.


(* ------------------------------------------------------------------ *)
(** ** The header check at start-up *)






Example header_check_raises_ValueError :
  _check_resource_valid Scenario.semicolon_separated
    (res_file "timestamp,ANOMALOUS,x0") exp_file
    (conf_unlabeled Scenario.semicolon_separated)
  = ([C (msg_headers_mismatch unlabeled)],
     PyRaise (ValueError "The column headers do not match")).
Proof. reflexivity. Qed.

(** C9 fails on the code at this input.  The labeled series are written
    with the separator [0], the unlabeled ones with a comma, one sample
    [x0] per series.  The unlabeled output file the service itself creates
    holds the expected headers joined by commas, without a newline; read
    back at the next start-up, its first line ends with the separator of
    the labeled series, the last column is empty, and the check raises
    [IndexError], not [ValueError], out of [__init__]. *)
Theorem header_check_raises_IndexError :
  _check_resource_valid Scenario.digit_separated res_missing exp_file
    (conf_unlabeled Scenario.digit_separated)
  = ([W (msg_output_file_missing unlabeled)],
     PyOk (res_file "timestamp,ANOMALOUS,x0"))
  /\ _check_resource_valid Scenario.digit_separated
       (res_file "timestamp,ANOMALOUS,x0") exp_file
       (conf_unlabeled Scenario.digit_separated)
     = ([], PyRaise IndexError)
  /\ snd (__init__ Scenario.digit_separated 8
            {| labeled_input_dir := res_dir;
               unlabeled_input_dir := res_dir;
               labeled_output_file := res_file "timestamp0ANOMALOUS0x0";
               unlabeled_output_file := res_file "timestamp,ANOMALOUS,x0";
               labeled_malformed_dir := res_dir;
               unlabeled_malformed_dir := res_dir |})
     = PyRaise IndexError.
Proof. vm_compute. repeat split. Qed.

(* ------------------------------------------------------------------ *)
(** ** Runs of NULL values *)

Lemma groupby_sum_null_groups (xs : list float) :
  forall k0 s,
    DF.groupby_sum (Some (k0, s))
      (combine (DF.notnull_cumsum k0 xs)
               (map (fun x => if F64.isnull x then 1 else 0) xs))
    = null_groups s xs.
Proof.
  induction xs as [|x xs IH]; intros k0 s; simpl; [reflexivity|].
  destruct (F64.isnull x); simpl.
  - rewrite Z.eqb_refl. apply IH.
  - replace (k0 + 1 =? k0) with false by (symmetry; apply Z.eqb_neq; lia).
    f_equal. apply IH.
Qed.

Lemma null_groups_nonempty (s : Z) (xs : list float) : null_groups s xs <> [].
Proof.
  revert s. induction xs as [|x xs IH]; intros s; simpl; [discriminate|].
  destruct (F64.isnull x); [apply IH | discriminate].
Qed.

(** Every group is the run at hand carried on, or a run of its own. *)
Lemma null_groups_sound (xs : list float) :
  forall s g, In g (null_groups s xs) ->
    (exists run after,
        xs = run ++ after /\ Forall (fun x => F64.isnull x = true) run
        /\ g = s + Z.of_nat (List.length run))
    \/ exists k, null_run xs k /\ g = Z.of_nat k.
Proof.
  induction xs as [|x xs IH]; intros s g; simpl.
  - intros [<-|[]]. left. exists [], []. repeat split; [constructor | simpl; lia].
  - destruct (F64.isnull x) eqn:N.
    + intros H. apply IH in H. destruct H as [(run & after & -> & F & ->)|(k & R & ->)].
      * left. exists (x :: run), after. repeat split.
        -- now constructor.
        -- simpl List.length. lia.
      * right. exists k. split; [|reflexivity].
        destruct R as (b & r & a & -> & L & F).
        exists (x :: b), r, a. repeat split; assumption.
    + intros [<-|H].
      * left. exists [], (x :: xs). repeat split; [constructor | simpl; lia].
      * apply IH in H. right.
        destruct H as [(run & after & -> & F & ->)|(k & R & ->)].
        -- exists (List.length run). split; [|lia].
           exists [x], run, after. repeat split; assumption.
        -- exists k. split; [|reflexivity].
           destruct R as (b & r & a & -> & L & F).
           exists (x :: b), r, a. repeat split; assumption.
Qed.

(** Every run is counted in some group. *)
Lemma null_groups_complete (xs : list float) :
  forall s before run after,
    xs = before ++ run ++ after ->
    Forall (fun x => F64.isnull x = true) run ->
    0 <= s ->
    exists g, In g (null_groups s xs)
              /\ Z.of_nat (List.length run) <= g
              /\ (before = [] -> s + Z.of_nat (List.length run) <= g).
Proof.
  induction xs as [|x xs IH]; intros s before run after E F Hs.
  - destruct before; [|discriminate]. destruct run; [|discriminate].
    exists s. simpl. repeat split; [now left | lia | lia].
  - simpl. destruct before as [|b before].
    + destruct run as [|y run].
      * simpl in E. 
        destruct (F64.isnull x).
        -- destruct (IH (s + 1) [] [] xs eq_refl (Forall_nil _)) as (g & I & _ & G);
             [lia|].
           exists g. simpl in *. specialize (G eq_refl). repeat split; [assumption|lia|lia].
        -- exists s. simpl. repeat split; [now left|lia|lia].
      * simpl in E. injection E as <- E. inversion F as [|? ? N F']; subst.
        rewrite N.
        destruct (IH (s + 1) [] run after eq_refl F') as (g & I & _ & G); [lia|].
        specialize (G eq_refl).
        exists g. simpl List.length. repeat split; [assumption|lia|lia].
    + simpl in E. injection E as -> E.
      destruct (F64.isnull b).
      * destruct (IH (s + 1) before run after E F) as (g & I & G & _); [lia|].
        exists g. repeat split; [assumption|assumption|discriminate].
      * destruct (IH 0 before run after E F) as (g & I & G & _); [lia|].
        exists g. repeat split; [now right|assumption|discriminate].
Qed.

Lemma fold_max_spec (s : Z) (sums : list Z) :
  In (fold_right Z.max s sums) (s :: sums)
  /\ forall g, In g (s :: sums) -> g <= fold_right Z.max s sums.
Proof.
  induction sums as [|a sums [I M]]; simpl.
  - split; [now left|]. intros g [<-|[]]. lia.
  - split.
    + destruct (Z.max_spec a (fold_right Z.max s sums)) as [[_ ->]|[_ ->]].
      * simpl in I. destruct I as [I|I]; [now left | now right; right].
      * now right; left.
    + intros g [<-|[<-|H]].
      * specialize (M s (or_introl eq_refl)). lia.
      * lia.
      * specialize (M g (or_intror H)). lia.
Qed.

(** The sums of the groups of a row: those of [null_groups], less a first
    empty group when the row starts with a valid value. *)
Lemma max_consec_null_groups (x : float) (xs : list float) :
  DF.groupby_sum None
    (combine (DF.notnull_cumsum 0 (x :: xs))
             (map (fun x => if F64.isnull x then 1 else 0) (x :: xs)))
  = if F64.isnull x then null_groups 0 (x :: xs) else null_groups 0 xs.
Proof.
  simpl. destruct (F64.isnull x); simpl; apply groupby_sum_null_groups.
Qed.

Lemma null_run_tail (x : float) (xs : list float) (k : nat) :
  null_run xs k -> null_run (x :: xs) k.
Proof.
  intros (b & r & a & -> & L & F). exists (x :: b), r, a. auto.
Qed.

Lemma null_run_head_valid (x : float) (xs : list float) (k : nat) :
  F64.isnull x = false -> null_run (x :: xs) k -> null_run xs k.
Proof.
  intros N (b & r & a & E & L & F).
  destruct b as [|y b].
  - destruct r as [|y r].
    + exists [], [], xs. repeat split; [assumption | constructor].
    + simpl in E. injection E as <- E. inversion F; congruence.
  - simpl in E. injection E as <- ->. exists b, r, a. auto.
Qed.

Lemma max_consec_null_unfold (c : Label * float) (df : Series) :
  DF.max_consec_null (c :: df)
  = match (if F64.isnull (snd c)
           then null_groups 0 (snd c :: DF.values df)
           else null_groups 0 (DF.values df)) with
    | [] => None
    | s :: sums => Some (fold_right Z.max s sums)
    end.
Proof.
  unfold DF.max_consec_null. cbv zeta.
  change (DF.values (c :: df)) with (snd c :: DF.values df).
  now rewrite max_consec_null_groups.
Qed.

(** The longest run of NULL values of a row with a column. *)
Lemma longest_null_run_spec (c : Label * float) (df : Series) :
  exists m,
    DF.max_consec_null (c :: df) = Some m
    /\ 0 <= m
    /\ null_run (DF.values (c :: df)) (Z.to_nat m)
    /\ forall k, null_run (DF.values (c :: df)) k -> Z.of_nat k <= m.
Proof.
  rewrite max_consec_null_unfold.
  set (xs := DF.values (c :: df)).
  assert (X : xs = snd c :: DF.values df) by reflexivity.
  set (gs := if F64.isnull (snd c) then null_groups 0 (snd c :: DF.values df)
             else null_groups 0 (DF.values df)).
  assert (S1 : forall g, In g gs ->
                 exists k, null_run xs k /\ g = Z.of_nat k).
  { intros g I. unfold gs in I. rewrite X.
    destruct (F64.isnull (snd c)) eqn:N.
    - apply null_groups_sound in I.
      destruct I as [(run & after & E & F & ->)|(k & R & ->)].
      + exists (List.length run). split; [|lia].
        exists [], run, after. auto.
      + eauto.
    - apply null_groups_sound in I.
      destruct I as [(run & after & E & F & ->)|(k & R & ->)].
      + exists (List.length run). split; [|lia].
        apply null_run_tail. exists [], run, after. auto.
      + exists k. split; [now apply null_run_tail | reflexivity]. }
  assert (S2 : forall k, null_run xs k ->
                 exists g, In g gs /\ Z.of_nat k <= g).
  { intros k R. unfold gs. rewrite X in R.
    destruct (F64.isnull (snd c)) eqn:N.
    - destruct R as (b & r & a & E & <- & F).
      destruct (null_groups_complete _ 0 b r a E F) as (g & I & G & _); [lia|].
      eauto.
    - apply null_run_head_valid in R; [|assumption].
      destruct R as (b & r & a & E & <- & F).
      destruct (null_groups_complete _ 0 b r a E F) as (g & I & G & _); [lia|].
      eauto. }
  assert (NE : gs <> []).
  { unfold gs. destruct (F64.isnull (snd c)); apply null_groups_nonempty. }
  clearbody gs. destruct gs as [|s sums]; [contradiction|].
  destruct (fold_max_spec s sums) as [I M].
  exists (fold_right Z.max s sums). split; [reflexivity|].
  destruct (S1 _ I) as (k & R & E).
  split; [lia|]. split.
  - rewrite E, Nat2Z.id. exact R.
  - intros k' R'. destruct (S2 k' R') as (g & Ig & G).
    specialize (M g Ig). lia.
Qed.

(** X1. [max_consec_null], computed at lines 161-163 by grouping the NULL
    marks of the row under the running count of its valid values, is the
    length of the longest run of consecutive NULL values of the row: the
    row holds that many NULL values in a row, and no more in any place.  A
    row without a column has none ([nan] in pandas). *)
Theorem max_consec_null_is_longest_null_run (df : Series) :
  match df with
  | [] => DF.max_consec_null df = None
  | _ :: _ =>
      exists m,
        DF.max_consec_null df = Some m
        /\ 0 <= m
        /\ null_run (DF.values df) (Z.to_nat m)
        /\ forall k, null_run (DF.values df) k -> Z.of_nat k <= m
  end.
Proof.
  destruct df as [|c df]; [reflexivity | apply longest_null_run_spec].
Qed.

(* ------------------------------------------------------------------ *)
(** ** The verdict on a series *)

Lemma set_column_named (s : string) (l : Label) (x : float) (df : Series) :
  In (LStr s) (DF.columns (DF.set_column l x df)) ->
  In (LStr s) (DF.columns df) \/ l = LStr s.
Proof.
  unfold DF.set_column. destruct (DF.has_column l df).
  - unfold DF.columns. rewrite map_map.
    intros H. left. apply in_map_iff in H. destruct H as (c & E & I).
    apply in_map_iff. exists c. split; [|assumption].
    destruct (label_eqb (fst c) l); exact E.
  - unfold DF.columns. rewrite map_app, in_app_iff. simpl.
    intros [H|[H|[]]]; [now left | now right].
Qed.

Lemma pad_named (s : string) (positions : list Z) :
  forall df,
    In (LStr s)
       (DF.columns (fold_left (fun d i => DF.set_column (LInt i) F64.nan d)
                              positions df)) ->
    In (LStr s) (DF.columns df).
Proof.
  induction positions as [|i positions IH]; intros df; simpl; [auto|].
  intros H. apply IH in H. apply set_column_named in H.
  destruct H as [H|H]; [assumption | discriminate].
Qed.

Section Verdict.

Variable read_csv : string -> string -> PyResult (list (list float)).
Variable strptime : string -> string -> option Z.
Variable self : DataIngestionService.

(** The width reconciliation adds no named column. *)
Lemma reconcile_width_named (series_name s : string) (df df' : Series) :
  snd (reconcile_width self series_name df) = PyOk df' ->
  In (LStr s) (DF.columns df') -> In (LStr s) (DF.columns df).
Proof.
  unfold reconcile_width.
  destruct (samples_delta self df <? 0).
  - simpl. destruct (DF.columns_at _ _) as [labels|e]; simpl; [|discriminate].
    intros H. injection H as <-. unfold DF.drop, DF.columns.
    rewrite !in_map_iff. intros (c & E & I). apply filter_In in I.
    exists c. tauto.
  - destruct (0 <? samples_delta self df); simpl; intros H; injection H as <-.
    + apply pad_named.
    + auto.
Qed.

Lemma reconcile_and_check_total (current_type : SeriesTypeConfiguration)
  (series_name : string) (ts : Z) (df : Series) :
  0 <= sample_size (_conf self) -> wf_labels df ->
  ~ In (LStr "timestamp") (DF.columns df) ->
  let xs := reconciled self (DF.values df) in
  (nulls_in_bounds self current_type xs
   /\ exists logs,
        reconcile_and_check self current_type series_name ts df
        = (logs,
           PyOk (Valid (CTime ts
                          :: map CFloat
                               (DF.fill (null_filling_strategy current_type)
                                        xs)))))
  \/ (~ nulls_in_bounds self current_type xs
      /\ exists logs c,
           reconcile_and_check self current_type series_name ts df
           = (logs, PyOk (Malformed c))).
Proof.
  intros Hs Hwf Hts xs. unfold reconcile_and_check.
  destruct (reconcile_width_values self series_name df Hs Hwf) as (df' & E & V).
  pose proof (reconcile_width_named series_name "timestamp" df df' E) as Hn.
  destruct (reconcile_width self series_name df) as [l r]. simpl in E. subst r.
  fold xs in V.
  assert (L : List.length xs = S (Z.to_nat (sample_size (_conf self)))).
  { unfold xs. rewrite reconciled_length by assumption. lia. }
  unfold check_nulls, nulls_in_bounds.
  unfold DF.null_count. rewrite V.
  destruct (PrimFloat.ltb _ _) eqn:T.
  { right. split; [intros [X _]; discriminate | eauto]. }
  destruct df' as [|c df'].
  { unfold DF.values in V. simpl in V. rewrite <- V in L. discriminate. }
  destruct (longest_null_run_spec c df') as (m & -> & M0 & R & Mx).
  rewrite V in R, Mx.
  destruct (max_consec_null current_type <? m) eqn:Lm.
  { right. apply Z.ltb_lt in Lm. split; [|eauto].
    intros [_ X]. specialize (X _ R). lia. }
  apply Z.ltb_ge in Lm. left. split.
  { split; [reflexivity|]. intros k Rk. specialize (Mx k Rk). lia. }
  unfold fill_and_stamp. rewrite V.
  destruct (DF.has_column (LStr "timestamp") (c :: df')) eqn:Hc.
  { unfold DF.has_column in Hc. apply has_label_In in Hc. tauto. }
  replace (Nat.eqb _ _) with true.
  { simpl. eauto. }
  symmetry. apply Nat.eqb_eq.
  change (_series_columns self) with (series_columns (_conf self)).
  rewrite fill_length, series_columns_length. lia.
Qed.

Lemma check_series_total (current_type : SeriesTypeConfiguration)
  (series_file : SeriesFile) (ts : Z) (r : list float) :
  0 <= sample_size (_conf self) ->
  read_csv (content series_file) (input_series_separator current_type)
  = PyOk [r] ->
  let xs := reconciled self (with_anomalous current_type r) in
  (flag_in_bounds current_type r /\ nulls_in_bounds self current_type xs
   /\ exists logs,
        check_series read_csv self current_type series_file ts
        = (logs,
           PyOk (Valid (CTime ts
                          :: map CFloat
                               (DF.fill (null_filling_strategy current_type)
                                        xs)))))
  \/ (~ (flag_in_bounds current_type r /\ nulls_in_bounds self current_type xs)
      /\ ((exists logs c,
             check_series read_csv self current_type series_file ts
             = (logs, PyOk (Malformed c)))
          \/ (series_type current_type = labeled /\ r = []
              /\ check_series read_csv self current_type series_file ts
                 = ([], PyRaise KeyError)))).
Proof.
  intros Hs R xs. unfold check_series. rewrite R. simpl negb. cbv iota.
  simpl hd. unfold xs, with_anomalous, flag_in_bounds.
  destruct (series_type current_type) eqn:T.
  - rewrite at0_of_row. destruct r as [|a rest].
    { right. split; [|right; auto].
      intros [X _]. destruct (X eq_refl) as (a & rest & E & _). discriminate. }
    destruct (F64.neqb a (F64.of_Z 0) && F64.neqb a (F64.of_Z 1)) eqn:E.
    { right. split; [|left; eauto].
      intros [X _]. destruct (X eq_refl) as (a' & rest' & E' & Ha).
      injection E' as <- <-.
      unfold F64.neqb in E. apply andb_true_iff in E. destruct E as [E0 E1].
      apply negb_true_iff in E0, E1. destruct Ha; congruence. }
    assert (Ha : PrimFloat.eqb a (F64.of_Z 0) = true
                 \/ PrimFloat.eqb a (F64.of_Z 1) = true).
    { unfold F64.neqb in E. apply andb_false_iff in E.
      destruct E as [E|E]; apply negb_false_iff in E; auto. }
    destruct (reconcile_and_check_total current_type (name series_file) ts
                (DF.of_row (a :: rest)) Hs (of_row_wf _)) as [[B X]|[B X]].
    { rewrite of_row_columns, in_map_iff. intros (j & Ej & _). discriminate. }
    + rewrite of_row_values in B, X. left. split; [|split; assumption].
      intros _. eauto.
    + rewrite of_row_values in B. right. split; [tauto | left; exact X].
  - destruct (insert_anomalous_wf r (F64.of_Z (-1))) as [E Hwf].
    rewrite E.
    destruct (reconcile_and_check_total current_type (name series_file) ts
                ((LStr "ANOMALOUS", F64.of_Z (-1)) :: DF.of_row r) Hs Hwf)
      as [[B X]|[B X]].
    { simpl. intros [X|X]; [discriminate|].
      fold (DF.columns (DF.of_row r)) in X.
      rewrite of_row_columns, in_map_iff in X.
      destruct X as (j & Ej & _). discriminate. }
    + unfold DF.values in B, X. simpl map in B, X.
      fold (DF.values (DF.of_row r)) in B, X. rewrite of_row_values in B, X.
      left. split; [|split; assumption]. intros D. discriminate.
    + unfold DF.values in B. simpl map in B.
      fold (DF.values (DF.of_row r)) in B. rewrite of_row_values in B.
      right. split; [tauto | left; exact X].
Qed.

(** What [_process_series] returns, from what the check of the series
    comes to. *)
Lemma process_series_result (series_file : SeriesFile)
  (current_type : SeriesTypeConfiguration) (df_temp : Frame) (w : World) :
  stat_ok series_file = true ->
  st_size series_file <> 0 ->
  exists w',
    _process_series read_csv strptime self series_file current_type df_temp w
    = match snd (check_series read_csv self current_type series_file
                   (timestamp_of strptime current_type series_file)) with
      | PyOk (Valid row) => (w', df_temp ++ [row], PyOk true)
      | PyOk (Malformed _) => (w', df_temp, PyOk false)
      | PyRaise (ValueError _) => (w', df_temp, PyOk false)
      | PyRaise e => (w', df_temp, PyRaise e)
      end.
Proof.
  intros S Z. unfold _process_series, timestamp_of. rewrite S. simpl negb.
  cbv iota. apply Z.eqb_neq in Z. rewrite Z.
  destruct (strptime _ _) as [t|].
  all: unfold try_check_series;
    destruct (check_series _ _ _ _ _) as [logs [[row|c]|e]];
    try (destruct e); simpl; eexists; reflexivity.
Qed.

(** C6. Every row [_process_series] appends for a valid series has
    [sample_size + 2] fields, whatever the number of values of the file:
    the timestamp, then the NULL filling of [sample_size + 1] values.
    Those values are what the width reconciliation of lines 136-157 leaves
    of the series: it gives a frame of [sample_size + 1] columns for every
    frame handed to it, the first [sample_size + 1] values of a longer
    series, and the values of a shorter one followed by NULL values; the
    configured filling runs on that frame.  A series whose flag and whose
    NULL values, padding included, are within the bounds is valid at any
    width, and its row is that filling under the timestamp.  The
    [ANOMALOUS] field, the second of the row, equals 0 or 1 for a labeled
    series and is -1 for an unlabeled one. *)
Theorem valid_row_has_canonical_shape (series_file : SeriesFile)
  (current_type : SeriesTypeConfiguration) (df_temp : Frame) (w : World) :
  0 <= sample_size (_conf self) ->
  (forall series_name df,
     wf_labels df ->
     exists df',
       snd (reconcile_width self series_name df) = PyOk df'
       /\ DF.shape1 df' = sample_size (_conf self) + 1
       /\ DF.values df' = reconciled self (DF.values df))
  /\ (forall xs,
        (sample_size (_conf self) + 1 <= Z.of_nat (List.length xs) ->
         reconciled self xs
         = firstn (Z.to_nat (sample_size (_conf self) + 1)) xs)
        /\ (Z.of_nat (List.length xs) <= sample_size (_conf self) + 1 ->
            reconciled self xs
            = xs ++ repeat F64.nan
                      (Z.to_nat (sample_size (_conf self) + 1
                                 - Z.of_nat (List.length xs)))))
  /\ (forall r,
        stat_ok series_file = true ->
        st_size series_file <> 0 ->
        read_csv (content series_file) (input_series_separator current_type)
        = PyOk [r] ->
        flag_in_bounds current_type r ->
        nulls_in_bounds self current_type
          (reconciled self (with_anomalous current_type r)) ->
        exists w',
          _process_series read_csv strptime self series_file current_type
            df_temp w
          = (w',
             df_temp
               ++ [CTime (timestamp_of strptime current_type series_file)
                     :: map CFloat
                          (DF.fill (null_filling_strategy current_type)
                             (reconciled self
                                (with_anomalous current_type r)))],
             PyOk true))
  /\ (forall df_temp' w',
        _process_series read_csv strptime self series_file current_type
          df_temp w
        = (w', df_temp', PyOk true) ->
        exists r row,
          read_csv (content series_file)
            (input_series_separator current_type)
          = PyOk [r]
          /\ df_temp' = df_temp ++ [row]
          /\ row = CTime (timestamp_of strptime current_type series_file)
                    :: map CFloat
                         (DF.fill (null_filling_strategy current_type)
                            (reconciled self
                               (with_anomalous current_type r)))
          /\ Z.of_nat
               (List.length (reconciled self (with_anomalous current_type r)))
             = sample_size (_conf self) + 1
          /\ Z.of_nat (List.length row) = sample_size (_conf self) + 2
          /\ exists a,
               nth_error row 1 = Some (CFloat a)
               /\ match series_type current_type with
                  | labeled =>
                      PrimFloat.eqb a (F64.of_Z 0) = true
                      \/ PrimFloat.eqb a (F64.of_Z 1) = true
                  | unlabeled => a = F64.of_Z (-1)
                  end).
Proof.
  intros Hs. split; [|split; [|split]].
  - intros series_name df Hwf.
    destruct (reconcile_width_values self series_name df Hs Hwf)
      as (df' & E & V).
    exists df'. split; [exact E|]. split; [|exact V].
    assert (L : List.length (DF.values df') = List.length df')
      by (unfold DF.values; apply length_map).
    rewrite V, reconciled_length in L by assumption.
    unfold DF.shape1. lia.
  - intros xs. unfold reconciled. split; intros H.
    + replace (Z.to_nat (sample_size (_conf self) + 1
                         - Z.of_nat (List.length xs))) with O by lia.
      simpl. now rewrite app_nil_r.
    + apply firstn_all2. rewrite length_app, repeat_length. lia.
  - intros r S Zs R Fl Nb.
    destruct (process_series_result series_file current_type df_temp w S Zs)
      as (w' & E).
    exists w'. rewrite E.
    pose proof (check_series_total current_type series_file
                  (timestamp_of strptime current_type series_file) r Hs R)
      as T.
    cbv zeta in T. destruct T as [(_ & _ & logs & X)|(N & _)]; [|tauto].
    rewrite X. reflexivity.
  - intros df_temp' w' H.
    apply process_series_valid in H. destruct H as (logs & row & H & ->).
    apply check_series_valid in H; [|assumption].
    destruct H as (r & R & -> & A).
    exists r. eexists. split; [exact R|]. split; [reflexivity|].
    split; [reflexivity|].
    pose proof (reconciled_length self (with_anomalous current_type r) Hs)
      as L.
    split; [lia|].
    split.
    { simpl List.length. rewrite length_map, fill_length. lia. }
    unfold with_anomalous in *.
    destruct (series_type current_type).
    + destruct (A eq_refl) as (a & rest & -> & Ha).
      destruct (reconciled_head self a rest Hs) as (xs' & ->).
      assert (N : PrimFloat.is_nan a = false)
        by (destruct Ha as [Ha|Ha]; exact (eqb_not_nan _ _ Ha)).
      destruct (fill_head (null_filling_strategy current_type) a xs' N)
        as (ys & ->).
      exists a. split; [reflexivity | assumption].
    + destruct (reconciled_head self (F64.of_Z (-1)) r Hs) as (xs' & ->).
      destruct (fill_head (null_filling_strategy current_type)
                  (F64.of_Z (-1)) xs' eq_refl) as (ys & ->).
      exists (F64.of_Z (-1)). split; reflexivity.
Qed.

(** X2. The verdict of [_process_series] on a file that can be checked,
    is not empty and holds one row: the series is valid, and [True] is
    returned, exactly when the flag of a labeled series is 0 or 1 and the
    NULL values of the series, once cut or filled up to [sample_size + 1]
    values, are within the two thresholds of its type.  Otherwise [False]
    is returned; the only exception that leaves the function is the
    [KeyError] of line 122, for a labeled row without a column. *)
Theorem series_is_valid_iff_flag_and_nulls_in_bounds
  (series_file : SeriesFile) (current_type : SeriesTypeConfiguration)
  (df_temp : Frame) (w : World) (r : list float) :
  0 <= sample_size (_conf self) ->
  stat_ok series_file = true ->
  st_size series_file <> 0 ->
  read_csv (content series_file) (input_series_separator current_type)
  = PyOk [r] ->
  let xs := reconciled self (with_anomalous current_type r) in
  let result :=
    snd (_process_series read_csv strptime self series_file current_type
           df_temp w) in
  (result = PyOk true
   <-> flag_in_bounds current_type r /\ nulls_in_bounds self current_type xs)
  /\ (result = PyOk true \/ result = PyOk false
      \/ (series_type current_type = labeled /\ r = []
          /\ result = PyRaise KeyError)).
Proof.
  intros Hs S Z R xs result.
  destruct (process_series_result series_file current_type df_temp w S Z)
    as (w' & E).
  destruct (check_series_total current_type series_file
              (timestamp_of strptime current_type series_file) r Hs R)
    as [(F & N & logs & X)|(B & [(logs & c & X)|(T & -> & X)])];
    rewrite X in E; simpl in E; unfold result; rewrite E; simpl.
  - split; [tauto | now left].
  - split; [|now right; left]. split; [discriminate | tauto].
  - split; [|right; right; auto]. split; [discriminate | tauto].
Qed.


(** ** NULL filling *)





Lemma fill_zero_no_null (xs : list float) :
  Forall (fun x => F64.isnull x = false) (DF.fill_zero xs).
Proof.
  unfold DF.fill_zero. induction xs as [|x xs IH]; simpl; constructor;
    [|assumption].
  destruct (F64.isnull x) eqn:N; [reflexivity | assumption].
Qed.

Lemma fill_forward_no_null (xs : list float) (p : float) :
  F64.isnull p = false ->
  Forall (fun x => F64.isnull x = false) (DF.fill_forward (Some p) xs).
Proof.
  revert p. induction xs as [|x xs IH]; intros p Hp; simpl; [constructor|].
  destruct (F64.isnull x) eqn:N; constructor; auto.
Qed.

(** The backward filling leaves a NULL value at the end where it is. *)
Lemma fill_backward_last (xs : list float) (x : float) :
  F64.isnull x = true ->
  exists ys, DF.fill_backward (xs ++ [x]) = ys ++ [x].
Proof.
  intros N. induction xs as [|a xs (ys & IH)]; simpl.
  - rewrite N. exists []. reflexivity.
  - rewrite IH. eexists (_ :: ys). reflexivity.
Qed.






Lemma reconciled_short (xs : list float) :
  Z.of_nat (List.length xs) < sample_size (_conf self) + 1 ->
  exists ys, reconciled self xs = ys ++ [F64.nan].
Proof.
  intros L. unfold reconciled.
  rewrite firstn_all2 by (rewrite length_app, repeat_length; lia).
  remember (Z.to_nat (sample_size (_conf self) + 1
                      - Z.of_nat (List.length xs))) as k eqn:Ek.
  destruct k as [|k]; [lia|].
  exists (xs ++ repeat F64.nan k).
  rewrite <- app_assoc. f_equal.
  change [F64.nan] with (repeat F64.nan 1). rewrite <- repeat_app.
  f_equal. lia.
Qed.



(** X4. Under the strategies [zeroFill] and [ffill] the row appended for
    a valid series holds no NULL value. *)
Theorem valid_row_has_no_null_after_zero_or_forward_fill
  (series_file : SeriesFile) (current_type : SeriesTypeConfiguration)
  (df_temp df_temp' : Frame) (w w' : World) :
  0 <= sample_size (_conf self) ->
  null_filling_strategy current_type = zeroFill
  \/ null_filling_strategy current_type = ffill ->
  _process_series read_csv strptime self series_file current_type df_temp w
  = (w', df_temp', PyOk true) ->
  exists row,
    df_temp' = df_temp ++ [row]
    /\ forall x, In (CFloat x) row -> F64.isnull x = false.
Proof.
  intros Hs St H.
  apply process_series_valid in H. destruct H as (logs & row & H & ->).
  apply check_series_valid in H; [|assumption].
  destruct H as (r & R & -> & A).
  eexists. split; [reflexivity|].
  assert (Hd : exists a xs,
             reconciled self (with_anomalous current_type r) = a :: xs
             /\ F64.isnull a = false).
  { unfold with_anomalous in *. destruct (series_type current_type).
    - destruct (A eq_refl) as (a & rest & -> & Ha).
      destruct (reconciled_head self a rest Hs) as (xs' & ->).
      exists a, xs'. split; [reflexivity|].
      destruct Ha as [Ha|Ha]; exact (eqb_not_nan _ _ Ha).
    - destruct (reconciled_head self (F64.of_Z (-1)) r Hs) as (xs' & ->).
      exists (F64.of_Z (-1)), xs'. split; reflexivity. }
  destruct Hd as (a & xs & -> & Na).
  assert (G : Forall (fun x => F64.isnull x = false)
                (DF.fill (null_filling_strategy current_type) (a :: xs))).
  { destruct St as [-> | ->]; unfold DF.fill.
    - apply fill_zero_no_null.
    - simpl. rewrite Na. constructor; [assumption|].
      now apply fill_forward_no_null. }
  intros x [X|X]; [discriminate|].
  apply in_map_iff in X. destruct X as (y & Ey & Iy). injection Ey as ->.
  rewrite Forall_forall in G. now apply G.
Qed.

(** X5. Under the strategy [bfill] a series shorter than
    [sample_size + 1] values that is found valid keeps NULL values: the
    padding of lines 151-157 stands at the end of the row, where
    [fillna(method="bfill")] finds no later value to copy, so the last
    field of the row appended is NULL. *)
Theorem backward_fill_leaves_padding_null
  (series_file : SeriesFile) (current_type : SeriesTypeConfiguration)
  (df_temp df_temp' : Frame) (w w' : World) (r : list float) :
  0 <= sample_size (_conf self) ->
  null_filling_strategy current_type = bfill ->
  read_csv (content series_file) (input_series_separator current_type)
  = PyOk [r] ->
  Z.of_nat (List.length (with_anomalous current_type r))
  < sample_size (_conf self) + 1 ->
  _process_series read_csv strptime self series_file current_type df_temp w
  = (w', df_temp', PyOk true) ->
  exists front x,
    df_temp' = df_temp ++ [front ++ [CFloat x]] /\ F64.isnull x = true.
Proof.
  intros Hs St R L H.
  apply process_series_valid in H. destruct H as (logs & row & H & ->).
  apply check_series_valid in H; [|assumption].
  destruct H as (r' & R' & -> & _).
  rewrite R in R'. injection R' as <-.
  destruct (reconciled_short (with_anomalous current_type r) L) as (ys & ->).
  rewrite St. unfold DF.fill.
  destruct (fill_backward_last ys F64.nan eq_refl) as (zs & ->).
  rewrite map_app. simpl map.
  exists (CTime (timestamp_of strptime current_type series_file)
            :: map CFloat zs), F64.nan.
  split; reflexivity.
Qed.


(** ** The clean-up *)

Lemma cleanup_input_dir (current_type : SeriesTypeConfiguration)
  (series_file : SeriesFile) (cause : option MalformedCause) (w : World) :
  input_dir (cleanup current_type series_file cause w)
  = if unlink_ok series_file
       && match cause, malformed_policy current_type with
          | Some _, mal_save => malformed_dir_ok w
          | _, _ => true
          end
    then filter (fun g => negb (String.eqb (name g) (name series_file)))
                (input_dir w)
    else input_dir w.
Proof.
  unfold cleanup.
  destruct cause as [c|], (malformed_policy current_type);
    try destruct (malformed_dir_ok w); destruct (unlink_ok series_file);
    reflexivity.
Qed.




(** [_process_series] ends in the clean-up of the series, valid or with its
    cause, in a world whose directories are those it started in; or it
    raises and leaves the directories alone. *)
Lemma process_series_cleanup (series_file : SeriesFile)
  (current_type : SeriesTypeConfiguration) (df_temp df_temp' : Frame)
  (w w' : World) (r : PyResult bool) :
  _process_series read_csv strptime self series_file current_type df_temp w
  = (w', df_temp', r) ->
  match r with
  | PyRaise _ =>
      input_dir w' = input_dir w /\ malformed_dir w' = malformed_dir w
  | PyOk valid =>
      exists w0 cause,
        w' = cleanup current_type series_file cause w0
        /\ input_dir w0 = input_dir w
        /\ malformed_dir w0 = malformed_dir w
        /\ malformed_dir_ok w0 = malformed_dir_ok w
        /\ (valid = true <-> cause = None)
  end
  /\ input_dir_ok w' = input_dir_ok w
  /\ malformed_dir_ok w' = malformed_dir_ok w.
Proof.
  assert (K : forall current_type series_file cause w0,
             input_dir_ok (cleanup current_type series_file cause w0)
             = input_dir_ok w0
             /\ malformed_dir_ok (cleanup current_type series_file cause w0)
                = malformed_dir_ok w0).
  { intros ct sf cause w0. unfold cleanup.
    destruct cause as [c|], (malformed_policy ct);
      try destruct (malformed_dir_ok w0) eqn:D; destruct (unlink_ok sf);
      simpl; auto. }
  assert (K' : forall current_type series_file cause w0,
             input_dir_ok w0 = input_dir_ok w ->
             malformed_dir_ok w0 = malformed_dir_ok w ->
             input_dir_ok (cleanup current_type series_file cause w0)
             = input_dir_ok w
             /\ malformed_dir_ok (cleanup current_type series_file cause w0)
                = malformed_dir_ok w).
  { intros ct sf cause w0 <- <-. apply K. }
  unfold _process_series.
  destruct (stat_ok series_file); simpl negb; cbv iota.
  2:{ intros H. injection H as <- _ <-. simpl. auto. }
  destruct (st_size series_file =? 0).
  { intros H. injection H as <- _ <-.
    split; [|apply K'; reflexivity].
    eexists _, (Some cause_empty_series). split; [reflexivity|].
    simpl. repeat split; discriminate. }
  destruct (strptime _ _) as [t|].
  all: destruct (try_check_series _ _ _ _ _) as [logs [[row|c]|e]];
    intros H; injection H as <- _ <-.
  all: try (split; [|apply K'; reflexivity]).
  all: try (eexists _, None; split; [reflexivity|]; simpl;
            repeat split; reflexivity).
  all: try (eexists _, (Some c); split; [reflexivity|]; simpl;
            repeat split; discriminate).
  all: simpl; auto.
Qed.

(** X6. The clean-up at the end of [_process_series] (lines 217-243): the
    input directory loses the files of the name of the series, and nothing
    else, when the series was valid and its removal succeeds, or was
    malformed and its removal succeeds after, under the policy [mal_save],
    the copy into the malformed directory has succeeded; in every other
    case the input directory is as it was. *)
Theorem processed_series_leaves_the_input_dir
  (series_file : SeriesFile) (current_type : SeriesTypeConfiguration)
  (df_temp df_temp' : Frame) (w w' : World) (r : PyResult bool) :
  _process_series read_csv strptime self series_file current_type df_temp w
  = (w', df_temp', r) ->
  input_dir w'
  = if match r with
       | PyOk true => unlink_ok series_file
       | PyOk false =>
           unlink_ok series_file
           && match malformed_policy current_type with
              | mal_drop => true
              | mal_save => malformed_dir_ok w
              end
       | PyRaise _ => false
       end
    then filter (fun g => negb (String.eqb (name g) (name series_file)))
                (input_dir w)
    else input_dir w.
Proof.
  intros H. apply process_series_cleanup in H. destruct H as [H _].
  destruct r as [valid|e]; [|apply H].
  destruct H as (w0 & cause & -> & I & _ & D & V).
  rewrite cleanup_input_dir, I, D.
  destruct valid.
  - replace cause with (@None MalformedCause) by (symmetry; now apply V).
    now rewrite andb_true_r.
  - destruct cause as [c|].
    + destruct (malformed_policy current_type); reflexivity.
    + assert (false = true) by now apply V. discriminate.
Qed.



End Verdict.

(* ------------------------------------------------------------------ *)
(** ** What a run raises, counts and leaves *)

Lemma same_dirs_refl (w : World) : same_dirs w w.
Proof. repeat split. Qed.

Lemma same_dirs_emit (w w1 : World) (rs : list LogRecord) :
  same_dirs w w1 -> same_dirs w (emit rs w1).
Proof. intros H. exact H. Qed.

Lemma filter_filter {A : Type} (p q : A -> bool) (l : list A) :
  filter p (filter q l) = filter (fun a => q a && p a) l.
Proof.
  induction l as [|a l IH]; simpl; [reflexivity|].
  destruct (q a); simpl; [destruct (p a)|]; now rewrite IH.
Qed.

Lemma columns_at_raises (df : Series) (positions : list Z) (e : PyExc) :
  DF.columns_at df positions = PyRaise e -> e = IndexError.
Proof.
  induction positions as [|i positions IH]; simpl; [discriminate|].
  destruct (if (_ : bool) then nth_error _ _ else None);
    [|intros H; now injection H].
  destruct (DF.columns_at df positions); simpl; [discriminate|].
  intros H. injection H as <-. now apply IH.
Qed.

(** The input files with the extension of the series type have the names
    of the files with it. *)
Lemma has_extension_name (current_type : SeriesTypeConfiguration)
  (f g : SeriesFile) :
  name f = name g ->
  has_extension current_type f = has_extension current_type g.
Proof. unfold has_extension. now intros ->. Qed.

Section Runs.

Variable read_csv : string -> string -> PyResult (list (list float)).
Variable strptime : string -> string -> option Z.
Variable read_output : string -> string -> PyResult Frame.
Variable to_csv : Frame -> string -> string.
Variable self : DataIngestionService.

(** An exception out of the check of a series is the one [read_csv]
    raised, or no [OSError]. *)
Lemma check_series_raises (current_type : SeriesTypeConfiguration)
  (series_file : SeriesFile) (ts : Z) (logs : list LogRecord) (e : PyExc) :
  check_series read_csv self current_type series_file ts = (logs, PyRaise e) ->
  is_OSError e = false
  \/ read_csv (content series_file) (input_series_separator current_type)
     = PyRaise e.
Proof.
  assert (K : forall df logs,
             check_nulls self current_type (name series_file) ts df
             = (logs, PyRaise e) -> is_OSError e = false).
  { intros df l. unfold check_nulls, fill_and_stamp.
    destruct (PrimFloat.ltb _ _); [discriminate|].
    destruct (DF.max_consec_null _);
      [destruct (_ <? _); [discriminate|]|];
      destruct (DF.has_column _ _); try destruct (negb _);
      intros H; try discriminate; injection H as _ <-; reflexivity. }
  assert (N : forall df logs,
             reconcile_and_check self current_type (name series_file) ts df
             = (logs, PyRaise e) -> is_OSError e = false).
  { intros df l. unfold reconcile_and_check.
    destruct (reconcile_width self (name series_file) df) as [l0 [df'|e0]]
      eqn:X.
    - destruct (check_nulls _ _ _ _ _) as [l1 v] eqn:Y.
      intros H. injection H as _ ->. eapply K, Y.
    - intros H. injection H as _ ->.
      unfold reconcile_width in X.
      destruct (samples_delta self df <? 0).
      + destruct (DF.columns_at _ _) eqn:Z; simpl in X; [discriminate|].
        apply columns_at_raises in Z. subst e0.
        now injection X as _ <-.
      + destruct (0 <? samples_delta self df); discriminate. }
  unfold check_series.
  destruct (read_csv _ _) as [rows|e0].
  2:{ intros H. injection H as _ <-. now right. }
  destruct (negb _); [discriminate|].
  destruct (series_type current_type).
  - destruct (DF.at0 _ _) eqn:A.
    + destruct (_ && _); [discriminate|]. intros H. left. eapply N, H.
    + intros H. injection H as _ <-. left.
      revert A. generalize (DF.of_row (hd [] rows)).
      induction s as [|[l x] s IH]; cbn [DF.at0].
      * intros A. now injection A as <-.
      * destruct (label_eqb (LInt 0) l); [discriminate | exact IH].
  - unfold DF.insert0. destruct (DF.has_column _ _).
    + intros H. injection H as _ <-. now left.
    + intros H. left. eapply N, H.
Qed.

(** A series whose [stat()] and [read_csv] raise no [OSError] is processed
    without one. *)
Lemma process_series_raises (series_file : SeriesFile)
  (current_type : SeriesTypeConfiguration) (df_temp df_temp' : Frame)
  (w w' : World) (e : PyExc) :
  stat_ok series_file = true ->
  (forall e',
      read_csv (content series_file) (input_series_separator current_type)
      = PyRaise e' -> is_OSError e' = false) ->
  _process_series read_csv strptime self series_file current_type df_temp w
  = (w', df_temp', PyRaise e) ->
  is_OSError e = false.
Proof.
  intros S R. unfold _process_series. rewrite S. simpl negb. cbv iota.
  destruct (st_size series_file =? 0); [discriminate|].
  assert (X : forall ts logs,
             try_check_series read_csv self current_type series_file ts
             = (logs, PyRaise e) -> is_OSError e = false).
  { intros ts logs. unfold try_check_series.
    destruct (check_series _ _ _ _ _) as [l [v|e0]] eqn:Ck;
      [intros H; now injection H|].
    apply check_series_raises in Ck.
    destruct e0; intros H; try discriminate; injection H as _ <-;
      destruct Ck as [Ck|Ck]; auto. }
  destruct (strptime _ _) as [t|].
  all: destruct (try_check_series _ _ _ _ _) as [logs [[row|c]|e0]] eqn:T;
    intros H; try discriminate; injection H as _ _ <-; eapply X, T.
Qed.

(** *** No [OSError] leaves a run *)





Lemma gather_cases (type : SeriesType) (max_series : option PyArg)
  (w w1 : World) (r : PyResult (option (Z * Frame))) :
  gather read_csv strptime self type max_series w = (w1, r) ->
  (same_dirs w w1 /\ r = PyOk None
   /\ (snd (resolve_max_series self max_series w) = None
       \/ input_dir_ok w = false
       \/ filter (has_extension (type_conf self type)) (input_dir w) = []))
  \/ exists limit w2 df_temp r',
       snd (resolve_max_series self max_series w) = Some limit
       /\ same_dirs w w2
       /\ input_dir_ok w = true
       /\ process_input_series read_csv strptime self (type_conf self type)
            limit
            (filter (has_extension (type_conf self type)) (input_dir w)) w2
          = (w1, df_temp, r')
       /\ r = match r' with
              | PyOk _ =>
                  PyOk (Some
                          (Z.of_nat
                             (List.length
                                (filter (has_extension (type_conf self type))
                                        (input_dir w))),
                           df_temp))
              | PyRaise e => PyRaise e
              end.
Proof.
  unfold gather.
  destruct (resolve_max_series self max_series w) as [w0 limit] eqn:R.
  assert (D : same_dirs w w0).
  { unfold resolve_max_series in R.
    destruct max_series as [[z|]|]; [destruct (0 <? z);
      [destruct (multi_core_enable (_conf self))|]| |];
      injection R as <- _; repeat split. }
  destruct limit as [limit|].
  2:{ intros H. injection H as <- <-. left. auto. }
  destruct D as (D1 & D2 & D3 & D4).
  destruct (input_dir_ok w0) eqn:Ok; simpl negb; cbv iota.
  2:{ intros H. injection H as <- <-. left.
      split; [repeat split; simpl; congruence|].
      split; [reflexivity|]. right. left. congruence. }
  cbv zeta. rewrite D1.
  set (w2 := if 0 <? _ then emit _ w0 else w0).
  assert (D' : same_dirs w w2).
  { subst w2. destruct (0 <? _); repeat split; simpl; congruence. }
  clearbody w2.
  destruct (0 <? _) eqn:Pos.
  - destruct (process_input_series _ _ _ _ _ _ w2) as [[w' df] r'] eqn:P.
    intros H. right. exists limit, w2, df, r'.
    split; [reflexivity|]. split; [exact D'|]. split; [congruence|].
    destruct r'; injection H as <- <-; auto.
  - intros H. injection H as <- <-. left. split; [exact D'|].
    split; [reflexivity|]. right. right.
    apply Z.ltb_ge in Pos.
    destruct (filter _ _); [reflexivity | simpl in Pos; lia].
Qed.


(** *** How many series a run ingests *)

Lemma process_series_rows (series_file : SeriesFile)
  (current_type : SeriesTypeConfiguration) (df_temp df_temp' : Frame)
  (w w' : World) (r : PyResult bool) :
  _process_series read_csv strptime self series_file current_type df_temp w
  = (w', df_temp', r) ->
  (List.length df_temp' <= S (List.length df_temp))%nat.
Proof.
  intros H. apply process_series_effects in H. destruct H as [_ H].
  destruct r as [[|]|e]; try (rewrite H; lia).
  destruct H as (row & ->). rewrite length_app. simpl. lia.
Qed.

Lemma single_core_loop_rows (current_type : SeriesTypeConfiguration)
  (max_series : Z) (input_series : list SeriesFile) :
  forall (valid_series_count : Z) (df_temp : Frame) (w w1 : World)
         (df1 : Frame) (r : PyResult unit),
    single_core_loop read_csv strptime self current_type max_series
      input_series valid_series_count df_temp w = (w1, df1, r) ->
    (List.length df1 <= List.length df_temp + List.length input_series)%nat.
Proof.
  induction input_series as [|s rest IH]; intros v df w w1 df1 r; simpl.
  { intros H. injection H as _ <- _. lia. }
  destruct (_process_series _ _ _ _ _ _ _) as [[w' df'] [b|e]] eqn:P;
    apply process_series_rows in P.
  - destruct (_ && _).
    + intros H. injection H as _ <- _. lia.
    + intros H. apply IH in H. lia.
  - destruct (is_OSError e).
    + intros H. apply IH in H. lia.
    + intros H. injection H as _ <- _. lia.
Qed.

Lemma task_run_rows (current_type : SeriesTypeConfiguration)
  (input_series : list SeriesFile) :
  forall (df_temp : Frame) (w w1 : World) (df1 : Frame) (r : PyResult unit),
    task_run read_csv strptime self current_type input_series df_temp w
    = (w1, df1, r) ->
    (List.length df1 <= List.length df_temp + List.length input_series)%nat.
Proof.
  induction input_series as [|s rest IH]; intros df w w1 df1 r; simpl.
  { intros H. injection H as _ <- _. lia. }
  destruct (_process_series _ _ _ _ _ _ _) as [[w' df'] [b|e]] eqn:P;
    apply process_series_rows in P.
  - intros H. apply IH in H. lia.
  - destruct (is_OSError e).
    + intros H. apply IH in H. lia.
    + intros H. injection H as _ <- _. lia.
Qed.

Lemma run_tasks_rows (current_type : SeriesTypeConfiguration)
  (input_series_division : list (list SeriesFile)) :
  forall (df_temp : Frame) (w w1 : World) (df1 : Frame) (r : PyResult unit),
    run_tasks read_csv strptime self current_type input_series_division
      df_temp w = (w1, df1, r) ->
    (List.length df1
     <= List.length df_temp
        + List.length (List.concat input_series_division))%nat.
Proof.
  induction input_series_division as [|s rest IH]; intros df w w1 df1 r;
    simpl.
  { intros H. injection H as _ <- _. lia. }
  destruct (task_run _ _ _ _ _ _ _) as [[w' df'] [b|e]] eqn:T;
    apply task_run_rows in T; simpl in T; rewrite length_app.
  - intros H. apply IH in H. rewrite length_app in H. lia.
  - intros H. injection H as _ <- _. lia.
Qed.

Lemma process_input_series_rows (current_type : SeriesTypeConfiguration)
  (max_series : Z) (input_series : list SeriesFile) (w w1 : World)
  (df1 : Frame) (r : PyResult unit) :
  process_input_series read_csv strptime self current_type max_series
    input_series w = (w1, df1, r) ->
  (List.length df1 <= List.length input_series)%nat.
Proof.
  unfold process_input_series.
  destruct (multi_core_enable (_conf self)).
  - destruct (array_split _ _) as [d|e] eqn:A.
    + intros H. apply run_tasks_rows in H.
      apply array_split_concat in A. rewrite A in H. exact H.
    + intros H. injection H as _ <- _. simpl. lia.
  - intros H. apply single_core_loop_rows in H. exact H.
Qed.

Lemma mask_sum_bounds (mask : list bool) :
  0 <= mask_sum mask <= Z.of_nat (List.length mask).
Proof.
  unfold mask_sum. pose proof (filter_length_le (fun b => b) mask). lia.
Qed.

Lemma new_mask_sum_bounds (old new : Frame) :
  0 <= mask_sum (new_duplicates_mask (old ++ new) new)
  <= Z.of_nat (List.length new).
Proof.
  rewrite mask_shape, mask_sum_old.
  pose proof (mask_sum_bounds
                (skipn (List.length old) (duplicated (old ++ new)))) as B.
  rewrite length_skipn in B. unfold duplicated in *.
  rewrite duplicated_from_length, length_app in B. lia.
Qed.

Lemma frame_astype_length (df df' : Frame) :
  frame_astype_int32 df = PyOk df' -> List.length df' = List.length df.
Proof.
  revert df'. induction df as [|r df IH]; intros df'; simpl.
  { intros H. now injection H as <-. }
  destruct (row_astype_int32 r); simpl; [|discriminate].
  destruct (frame_astype_int32 df); simpl; [|discriminate].
  intros H. injection H as <-. simpl. f_equal. now apply IH.
Qed.

(** The series ingested are the valid ones less the duplicates, and none
    is counted twice. *)
Lemma try_persist_count (current_type : SeriesTypeConfiguration)
  (df_temp : Frame) (w w' : World) (d k : Z) :
  try_persist read_output to_csv current_type df_temp w = (w', d, PyOk k) ->
  k = Z.of_nat (List.length df_temp) - d
  /\ 0 <= d <= Z.of_nat (List.length df_temp).
Proof.
  unfold try_persist.
  destruct (output_read_ok w); simpl negb; cbv iota; [|discriminate].
  destruct (read_output _ _) as [out|e]; [|discriminate].
  destruct (frame_astype_int32 df_temp) as [new|e] eqn:N; [|discriminate].
  destruct (frame_astype_int32 out) as [old|e]; [|discriminate].
  apply frame_astype_length in N.
  assert (X : forall kept dup,
             0 <= dup <= Z.of_nat (List.length df_temp) ->
             (if 0 <? Z.of_nat (List.length df_temp) - dup
              then if output_write_ok w
                   then (record (ev_to_csv true)
                           (set_output_file
                              (to_csv kept
                                 (output_series_separator current_type)) w),
                         dup, PyOk (Z.of_nat (List.length df_temp) - dup))
                   else (record (ev_to_csv false) w, dup, PyRaise OSError)
              else (w, dup, PyOk (Z.of_nat (List.length df_temp) - dup)))
             = (w', d, PyOk k) ->
             k = Z.of_nat (List.length df_temp) - d
             /\ 0 <= d <= Z.of_nat (List.length df_temp)).
  { intros kept dup B. destruct (0 <? _); [destruct (output_write_ok w)|];
      intros H; try discriminate; injection H as _ <- <-; auto. }
  destruct (duplicated_policy current_type).
  - apply X. lia.
  - destruct (drop_new_duplicates (old ++ new) new) as [kept dup] eqn:D.
    apply X.
    destruct (drop_new_duplicates_keeps_old old new) as [_ E].
    rewrite D in E. simpl in E. subst dup.
    rewrite <- N. apply new_mask_sum_bounds.
Qed.

(** X9. The number [_ingest_series] returns is not negative and not above
    the number of files of the configured extension in the input
    directory; in single-core mode, under a positive limit (the explicit
    [max_series], or else [max_series_per_run]), it is not above the limit
    either. *)
Theorem ingested_count_is_bounded (type : SeriesType)
  (max_series : option PyArg) (w w' : World) (n : Z) :
  _ingest_series read_csv strptime read_output to_csv self type max_series w
  = (w', PyOk n) ->
  0 <= n
    <= Z.of_nat
         (List.length
            (filter (has_extension (type_conf self type)) (input_dir w)))
  /\ (multi_core_enable (_conf self) = false ->
      let limit :=
        match max_series with
        | Some (PyInt z) => z
        | _ => max_series_per_run (_conf self)
        end in
      0 < limit -> n <= limit).
Proof.
  unfold _ingest_series.
  destruct (gather _ _ _ _ _ _) as [w1 [[[m df]|]|e]] eqn:G;
    [| |discriminate].
  2:{ intros H. injection H as _ <-. split; [lia|]. intros _ limit. lia. }
  apply gather_cases in G.
  destruct G as [(_ & G & _)|(limit & w2 & df' & r' & R & _ & _ & P & G)];
    [discriminate|].
  destruct r' as [[]|]; [|discriminate]. injection G as -> ->.
  pose proof (process_input_series_rows _ _ _ _ _ _ _ P) as Rows.
  assert (K : forall m k,
             snd (persist read_output to_csv (type_conf self type) m df' w1)
             = PyOk k ->
             0 <= ingested_series_count k <= Z.of_nat (List.length df')).
  { intros m k. unfold persist. destruct (_ =? 0); simpl.
    - intros H. injection H as <-. simpl. lia.
    - destruct (try_persist _ _ _ _ _) as [[w3 d] [i|e]] eqn:T.
      + apply try_persist_count in T. simpl. intros H. injection H as <-.
        simpl. lia.
      + destruct (is_OSError e); simpl; [|discriminate].
        intros H. injection H as <-. simpl. lia. }
  destruct (persist _ _ _ _ _ _) as [w3 [summary|e]] eqn:Ps; [|discriminate].
  pose proof (K _ summary (f_equal snd Ps)) as K'. clear K.
  intros H. injection H as _ <-.
  split; [lia|].
  intros Single. cbv zeta. intros Pos.
  apply process_input_series_spec in P.
  destruct P as (evs & _ & _ & P). specialize (P eq_refl).
  rewrite Single in P. destruct P as (rest & _ & _ & P).
  assert (E : limit = match max_series with
                      | Some (PyInt z) => z
                      | _ => max_series_per_run (_conf self)
                      end).
  { unfold resolve_max_series in R.
    destruct max_series as [[z|]|]; [destruct (0 <? z)| |];
      simpl in R; try discriminate; now injection R. }
  rewrite <- E in *. specialize (P Pos). lia.
Qed.

(** *** What a run leaves in the input directory *)

Lemma process_series_keeps (series_file : SeriesFile)
  (current_type : SeriesTypeConfiguration) (df_temp df_temp' : Frame)
  (w w' : World) (r : PyResult bool) (f : SeriesFile) :
  _process_series read_csv strptime self series_file current_type df_temp w
  = (w', df_temp', r) ->
  In f (input_dir w) -> name f <> name series_file -> In f (input_dir w').
Proof.
  intros H I N. apply process_series_cleanup in H. destruct H as [H _].
  destruct r as [b|e].
  - destruct H as (w0 & cause & -> & D & _).
    rewrite cleanup_input_dir, D.
    destruct (_ && _); [|assumption].
    apply filter_In. split; [assumption|].
    apply negb_true_iff. now apply String.eqb_neq.
  - destruct H as [-> _]. assumption.
Qed.

Lemma single_core_loop_keeps (current_type : SeriesTypeConfiguration)
  (max_series : Z) (input_series : list SeriesFile) (f : SeriesFile) :
  (forall s, In s input_series -> name f <> name s) ->
  forall (valid_series_count : Z) (df_temp : Frame) (w w1 : World)
         (df1 : Frame) (r : PyResult unit),
    single_core_loop read_csv strptime self current_type max_series
      input_series valid_series_count df_temp w = (w1, df1, r) ->
    In f (input_dir w) -> In f (input_dir w1).
Proof.
  induction input_series as [|s rest IH]; intros N v df w w1 df1 r; simpl.
  { intros H. now injection H as <- _ _. }
  assert (N' : forall s', In s' rest -> name f <> name s')
    by (intros s' I; apply N; now right).
  destruct (_process_series _ _ _ _ _ _ _) as [[w' df'] [b|e]] eqn:P;
    intros H I;
    apply (process_series_keeps _ _ _ _ _ _ _ f P) in I;
    try (apply N; now left).
  - destruct (_ && _); [now injection H as <- _ _ | eapply IH; eauto].
  - destruct (is_OSError e); [|now injection H as <- _ _].
    eapply IH; eauto.
Qed.

Lemma task_run_keeps (current_type : SeriesTypeConfiguration)
  (input_series : list SeriesFile) (f : SeriesFile) :
  (forall s, In s input_series -> name f <> name s) ->
  forall (df_temp : Frame) (w w1 : World) (df1 : Frame) (r : PyResult unit),
    task_run read_csv strptime self current_type input_series df_temp w
    = (w1, df1, r) ->
    In f (input_dir w) -> In f (input_dir w1).
Proof.
  induction input_series as [|s rest IH]; intros N df w w1 df1 r; simpl.
  { intros H. now injection H as <- _ _. }
  assert (N' : forall s', In s' rest -> name f <> name s')
    by (intros s' I; apply N; now right).
  destruct (_process_series _ _ _ _ _ _ _) as [[w' df'] [b|e]] eqn:P;
    intros H I;
    apply (process_series_keeps _ _ _ _ _ _ _ f P) in I;
    try (apply N; now left).
  - eapply IH; eauto.
  - destruct (is_OSError e); [|now injection H as <- _ _].
    eapply IH; eauto.
Qed.

Lemma run_tasks_keeps (current_type : SeriesTypeConfiguration)
  (input_series_division : list (list SeriesFile)) (f : SeriesFile) :
  (forall s, In s (List.concat input_series_division) ->
             name f <> name s) ->
  forall (df_temp : Frame) (w w1 : World) (df1 : Frame) (r : PyResult unit),
    run_tasks read_csv strptime self current_type input_series_division
      df_temp w = (w1, df1, r) ->
    In f (input_dir w) -> In f (input_dir w1).
Proof.
  induction input_series_division as [|s rest IH]; intros N df w w1 df1 r;
    simpl.
  { intros H. now injection H as <- _ _. }
  simpl in N.
  destruct (task_run _ _ _ _ _ _ _) as [[w' df'] [b|e]] eqn:T;
    intros H I;
    apply (task_run_keeps _ _ f) in T;
    try (intros s' Is'; apply N, in_or_app; now left); try assumption.
  - eapply IH; [|exact H|exact T].
    intros s' Is'. apply N, in_or_app. now right.
  - now injection H as <- _ _.
Qed.

Lemma process_input_series_keeps (current_type : SeriesTypeConfiguration)
  (max_series : Z) (input_series : list SeriesFile) (w w1 : World)
  (df1 : Frame) (r : PyResult unit) (f : SeriesFile) :
  (forall s, In s input_series -> name f <> name s) ->
  process_input_series read_csv strptime self current_type max_series
    input_series w = (w1, df1, r) ->
  In f (input_dir w) -> In f (input_dir w1).
Proof.
  intros N. unfold process_input_series.
  destruct (multi_core_enable (_conf self)).
  - destruct (array_split _ _) as [d|e] eqn:A.
    + apply array_split_concat in A. apply run_tasks_keeps. now rewrite A.
    + intros H. now injection H as <- _ _.
  - now apply single_core_loop_keeps.
Qed.

(** The second phase of a run leaves the directories alone. *)
Lemma persist_dirs (current_type : SeriesTypeConfiguration)
  (input_series_count : Z) (df_temp : Frame) (w w' : World)
  (r : PyResult RunSummary) :
  persist read_output to_csv current_type input_series_count df_temp w
  = (w', r) ->
  same_dirs w w'.
Proof.
  unfold persist. destruct (_ =? 0).
  { intros H. injection H as <- _. apply same_dirs_refl. }
  destruct (try_persist_cases read_output to_csv current_type df_temp w)
    as [(e & ->)|[(d & -> & _)|[(out & d & -> & _)|(d & -> & _)]]];
    simpl; intros H; try (injection H as <- _; repeat split).
  destruct (is_OSError e); injection H as <- _; repeat split.
Qed.

(** X10. A file of the input directory whose name does not end with the
    configured extension is still there after [_ingest_series], whatever
    the run does. *)
Theorem other_files_stay_in_the_input_dir (type : SeriesType)
  (max_series : option PyArg) (w : World) (f : SeriesFile) :
  In f (input_dir w) ->
  has_extension (type_conf self type) f = false ->
  In f (input_dir
          (fst (_ingest_series read_csv strptime read_output to_csv self
                  type max_series w))).
Proof.
  intros I X. unfold _ingest_series.
  destruct (gather _ _ _ _ _ _) as [w1 r] eqn:G.
  assert (I1 : In f (input_dir w1)).
  { apply gather_cases in G.
    destruct G
      as [[(D & _) _]|(limit & w2 & df & r' & _ & (D & _) & _ & P & _)].
    - now rewrite D.
    - eapply process_input_series_keeps; [|exact P|now rewrite D].
      intros s Is E. apply filter_In in Is. destruct Is as [_ Is].
      rewrite (has_extension_name _ _ _ E) in X. congruence. }
  destruct r as [[[n df]|]|e]; simpl; try assumption.
  destruct (persist _ _ _ _ _ _) as [w2 [summary|e]] eqn:Ps;
    apply persist_dirs in Ps; destruct Ps as (D & _); simpl; now rewrite D.
Qed.

(** *** A run without a limit empties the input directory of series *)

Lemma process_series_consumes (series_file : SeriesFile)
  (current_type : SeriesTypeConfiguration) (df_temp df_temp' : Frame)
  (w w' : World) (r : PyResult bool) :
  accessible read_csv current_type series_file ->
  malformed_policy current_type = mal_drop \/ malformed_dir_ok w = true ->
  _process_series read_csv strptime self series_file current_type df_temp w
  = (w', df_temp', r) ->
  malformed_dir_ok w' = malformed_dir_ok w
  /\ match r with
     | PyOk _ =>
         input_dir w'
         = filter (fun g => negb (String.eqb (name g) (name series_file)))
                  (input_dir w)
     | PyRaise e => is_OSError e = false
     end.
Proof.
  intros (S & U & R) M H.
  pose proof H as X. apply process_series_cleanup in X.
  destruct X as (X & _ & D).
  split; [exact D|].
  destruct r as [b|e].
  - destruct X as (w0 & cause & -> & I & _ & D0 & _).
    rewrite cleanup_input_dir, I, D0, U. simpl.
    destruct cause as [c|]; [|reflexivity].
    destruct (malformed_policy current_type); [reflexivity|].
    destruct M as [M|M]; [discriminate | now rewrite M].
  - eapply process_series_raises; eauto.
Qed.

Lemma named_in_cons (s : SeriesFile) (l : list SeriesFile)
  (d : list SeriesFile) :
  filter (fun g => negb (named_in l g))
         (filter (fun g => negb (String.eqb (name g) (name s))) d)
  = filter (fun g => negb (named_in (s :: l) g)) d.
Proof.
  rewrite filter_filter. apply filter_ext. intros g. unfold named_in. simpl.
  now rewrite negb_orb.
Qed.

Lemma task_run_consumes (current_type : SeriesTypeConfiguration)
  (input_series : list SeriesFile) :
  Forall (accessible read_csv current_type) input_series ->
  forall (df_temp : Frame) (w w1 : World) (df1 : Frame),
    malformed_policy current_type = mal_drop \/ malformed_dir_ok w = true ->
    task_run read_csv strptime self current_type input_series df_temp w
    = (w1, df1, PyOk tt) ->
    malformed_dir_ok w1 = malformed_dir_ok w
    /\ input_dir w1
       = filter (fun g => negb (named_in input_series g)) (input_dir w).
Proof.
  induction 1 as [|s rest A F IH]; intros df w w1 df1 M; simpl.
  { intros H. injection H as <- _. split; [reflexivity|].
    symmetry. apply forallb_filter_id. apply forallb_forall. reflexivity. }
  destruct (_process_series _ _ _ _ _ _ _) as [[w' df'] r] eqn:P.
  destruct (process_series_consumes _ _ _ _ _ _ _ A M P) as [D X].
  destruct r as [b|e].
  - intros H. apply IH in H; [|now rewrite D].
    destruct H as [D1 I1]. split; [congruence|].
    rewrite I1, X. apply named_in_cons.
  - rewrite X. discriminate.
Qed.

Lemma single_core_loop_unlimited (current_type : SeriesTypeConfiguration)
  (max_series : Z) (input_series : list SeriesFile) :
  max_series <= 0 ->
  forall (valid_series_count : Z) (df_temp : Frame) (w : World),
    single_core_loop read_csv strptime self current_type max_series
      input_series valid_series_count df_temp w
    = task_run read_csv strptime self current_type input_series df_temp w.
Proof.
  intros L. induction input_series as [|s rest IH]; intros v df w; simpl;
    [reflexivity|].
  replace (0 <? max_series) with false by (symmetry; apply Z.ltb_ge; lia).
  destruct (_process_series _ _ _ _ _ _ _) as [[w' df'] [b|e]]; simpl.
  - apply IH.
  - destruct (is_OSError e); [apply IH | reflexivity].
Qed.

Lemma named_in_app (a b : list SeriesFile) (d : list SeriesFile) :
  filter (fun g => negb (named_in b g))
         (filter (fun g => negb (named_in a g)) d)
  = filter (fun g => negb (named_in (a ++ b) g)) d.
Proof.
  rewrite filter_filter. apply filter_ext. intros g. unfold named_in.
  now rewrite existsb_app, negb_orb.
Qed.

Lemma run_tasks_consumes (current_type : SeriesTypeConfiguration)
  (input_series_division : list (list SeriesFile)) :
  Forall (accessible read_csv current_type) (List.concat input_series_division) ->
  forall (df_temp : Frame) (w w1 : World) (df1 : Frame),
    malformed_policy current_type = mal_drop \/ malformed_dir_ok w = true ->
    run_tasks read_csv strptime self current_type input_series_division
      df_temp w = (w1, df1, PyOk tt) ->
    malformed_dir_ok w1 = malformed_dir_ok w
    /\ input_dir w1
       = filter (fun g => negb (named_in
                                 (List.concat input_series_division) g))
                (input_dir w).
Proof.
  induction input_series_division as [|s rest IH]; intros A df w w1 df1 M;
    simpl.
  { intros H. injection H as <- _. split; [reflexivity|].
    symmetry. apply forallb_filter_id. apply forallb_forall. reflexivity. }
  simpl in A. apply Forall_app in A. destruct A as [As Ar].
  destruct (task_run _ _ _ _ _ _ _) as [[w' df'] [[]|e]] eqn:T;
    [|discriminate].
  apply task_run_consumes in T; [|assumption|assumption].
  destruct T as [D X].
  intros H. apply IH in H; [|assumption|now rewrite D].
  destruct H as [D1 I1]. split; [congruence|].
  rewrite I1, X. apply named_in_app.
Qed.

(** X11. A run without limit, in multi-core mode or with
    [max_series_per_run] not positive, that returns a count has processed
    every file of the configured extension: when those files can be read,
    checked and removed, and malformed series are dropped or can be copied,
    the input directory is left with the other files only. *)
Theorem unlimited_run_empties_the_input_dir_of_series (type : SeriesType)
  (w w' : World) (n : Z) :
  (forall f, In f (input_dir w) ->
             has_extension (type_conf self type) f = true ->
             accessible read_csv (type_conf self type) f) ->
  malformed_policy (type_conf self type) = mal_drop
  \/ malformed_dir_ok w = true ->
  input_dir_ok w = true ->
  multi_core_enable (_conf self) = true
  \/ max_series_per_run (_conf self) <= 0 ->
  _ingest_series read_csv strptime read_output to_csv self type None w
  = (w', PyOk n) ->
  input_dir w'
  = filter (fun f => negb (has_extension (type_conf self type) f))
           (input_dir w).
Proof.
  intros A M Ok Mode. unfold _ingest_series.
  destruct (gather _ _ _ _ _ _) as [w1 r] eqn:G.
  apply gather_cases in G.
  set (ct := type_conf self type) in *.
  set (candidates := filter (has_extension ct) (input_dir w)) in *.
  assert (Fa : Forall (accessible read_csv ct) candidates).
  { apply Forall_forall. intros f I. apply filter_In in I.
    destruct I as [I X]. now apply A. }
  assert (E : forall d,
             (forall g, In g d -> In g (input_dir w)) ->
             filter (fun g => negb (named_in candidates g)) d
             = filter (fun f => negb (has_extension ct f)) d).
  { intros d Sub. apply filter_ext_in. intros g I. f_equal.
    unfold named_in. destruct (has_extension ct g) eqn:X.
    - apply existsb_exists. exists g. split.
      + apply filter_In. auto.
      + apply String.eqb_refl.
    - destruct (existsb _ candidates) eqn:Y; [|reflexivity].
      apply existsb_exists in Y. destruct Y as (s & Is & Es).
      apply String.eqb_eq in Es. apply filter_In in Is.
      rewrite (has_extension_name ct _ _ Es) in X.
      destruct Is as [_ Is]. congruence. }
  destruct G
    as [((D & _) & -> & N)|(limit & w2 & df & r' & R & D & _ & P & ->)].
  - intros H. injection H as <- _. rewrite D.
    destruct N as [N|[N|N]]; [discriminate | congruence |].
    rewrite <- E by auto. fold candidates in N. rewrite N.
    symmetry. apply forallb_filter_id. apply forallb_forall. reflexivity.
  - destruct D as (D1 & _ & _ & D4).
    assert (M2 : malformed_policy ct = mal_drop \/ malformed_dir_ok w2 = true)
      by (destruct M; [now left | right; congruence]).
    destruct r' as [[]|e]; [|discriminate].
    assert (X : input_dir w1
                = filter (fun g => negb (named_in candidates g))
                         (input_dir w2)).
    { unfold process_input_series in P.
      destruct (multi_core_enable (_conf self)) eqn:Mc.
      - destruct (array_split _ _) as [d|e] eqn:S; [|discriminate].
        apply array_split_concat in S.
        apply run_tasks_consumes in P; [| now rewrite S | assumption].
        rewrite S in P. apply P.
      - assert (L : limit <= 0).
        { simpl in R. injection R as <-. destruct Mode; [discriminate|lia]. }
        rewrite single_core_loop_unlimited in P by assumption.
        apply task_run_consumes in P; [apply P | assumption | assumption]. }
    destruct (persist _ _ _ _ _ _) as [w3 [summary|e]] eqn:Ps;
      [|discriminate].
    apply persist_dirs in Ps. destruct Ps as (D3 & _).
    intros H. injection H as <- _.
    rewrite D3, X, D1. apply E. auto.
Qed.

End Runs.

(* ------------------------------------------------------------------ *)
(** ** Multi-core and single-core runs *)

Lemma same_but_trace_refl (w : World) : same_but_trace w w.
Proof. repeat split. Qed.

Lemma same_but_trace_emit (w w2 : World) (rs : list LogRecord) :
  same_but_trace w w2 -> same_but_trace (emit rs w) (emit rs w2).
Proof.
  intros (A & B & C & D & E & F & G & H). repeat split; simpl; congruence.
Qed.

Section Modes.

Variable read_csv : string -> string -> PyResult (list (list float)).
Variable strptime : string -> string -> option Z.
Variable read_output : string -> string -> PyResult Frame.
Variable to_csv : Frame -> string -> string.
Variable self : DataIngestionService.

Lemma process_series_single_core (series_file : SeriesFile)
  (current_type : SeriesTypeConfiguration) (df_temp : Frame) (w : World) :
  _process_series read_csv strptime (single_core self) series_file
    current_type df_temp w
  = _process_series read_csv strptime self series_file current_type
      df_temp w.
Proof. reflexivity. Qed.

Lemma task_run_single_core (current_type : SeriesTypeConfiguration)
  (input_series : list SeriesFile) (df_temp : Frame) (w : World) :
  task_run read_csv strptime (single_core self) current_type input_series
    df_temp w
  = task_run read_csv strptime self current_type input_series df_temp w.
Proof.
  revert df_temp w. induction input_series as [|s rest IH]; intros df w;
    simpl; [reflexivity|].
  rewrite process_series_single_core.
  destruct (_process_series _ _ _ _ _ _ _) as [[w' df'] [b|e]];
    [apply IH|].
  destruct (is_OSError e); [apply IH | reflexivity].
Qed.

(** [_process_series] neither reads the recorded calls nor the rows of the
    temporary data frame. *)
Lemma process_series_same (series_file : SeriesFile)
  (current_type : SeriesTypeConfiguration) (df_temp df_temp' : Frame)
  (w w' w2 : World) (r : PyResult bool) :
  same_but_trace w w2 ->
  _process_series read_csv strptime self series_file current_type df_temp w
  = (w', df_temp', r) ->
  exists rows,
    df_temp' = df_temp ++ rows
    /\ forall df2,
         exists w2',
           _process_series read_csv strptime self series_file current_type
             df2 w2
           = (w2', df2 ++ rows, r)
           /\ same_but_trace w' w2'.
Proof.
  intros S.
  destruct w as [i io o oro owo m mo l t],
           w2 as [i2 io2 o2 oro2 owo2 m2 mo2 l2 t2].
  unfold same_but_trace in S. simpl in S.
  destruct S as (-> & -> & -> & -> & -> & -> & -> & ->).
  unfold _process_series, cleanup.
  destruct (stat_ok series_file); simpl negb; cbv iota.
  2:{ intros H. injection H as <- <- <-. exists []. split.
      - now rewrite app_nil_r.
      - intros df2. rewrite app_nil_r. eexists. split; [reflexivity|].
        repeat split. }
  destruct (st_size series_file =? 0).
  { simpl. destruct (malformed_policy current_type);
      [|destruct mo]; destruct (unlink_ok series_file);
      intros H; injection H as <- <- <-; exists []; (split;
        [now rewrite app_nil_r|]); intros df2; rewrite app_nil_r;
      eexists; (split; [reflexivity|]); repeat split. }
  destruct (strptime _ _) as [ts|];
    destruct (try_check_series _ _ _ _ _) as [logs [[row|c]|e]]; simpl;
    try (destruct (malformed_policy current_type); [|destruct mo]);
    try destruct (unlink_ok series_file);
    intros H; injection H as <- <- <-.
  all: try (exists [row]; split; [reflexivity|]; intros df2;
            eexists; split; [reflexivity|]; repeat split).
  all: exists []; (split; [now rewrite app_nil_r|]); intros df2;
    rewrite app_nil_r; eexists; (split; [reflexivity|]); repeat split.
Qed.

Lemma task_run_same (current_type : SeriesTypeConfiguration)
  (input_series : list SeriesFile) :
  forall (df_temp df1 : Frame) (w w1 w2 : World),
    same_but_trace w w2 ->
    task_run read_csv strptime self current_type input_series df_temp w
    = (w1, df1, PyOk tt) ->
    exists rows,
      df1 = df_temp ++ rows
      /\ forall df2,
           exists w2',
             task_run read_csv strptime self current_type input_series
               df2 w2
             = (w2', df2 ++ rows, PyOk tt)
             /\ same_but_trace w1 w2'.
Proof.
  induction input_series as [|s rest IH]; intros df df1 w w1 w2 S; simpl.
  { intros H. injection H as <- <-. exists []. split.
    - now rewrite app_nil_r.
    - intros df2. rewrite app_nil_r. eauto. }
  destruct (_process_series _ _ _ _ _ _ w) as [[w' df'] r] eqn:P.
  destruct (process_series_same _ _ _ _ _ _ _ _ S P) as (rows & -> & Q).
  assert (K : forall wa wb,
             same_but_trace wa wb ->
             task_run read_csv strptime self current_type rest
               (df ++ rows) wa = (w1, df1, PyOk tt) ->
             exists rows',
               df1 = df ++ rows ++ rows'
               /\ forall df2,
                    exists w2',
                      task_run read_csv strptime self current_type rest
                        (df2 ++ rows) wb
                      = (w2', df2 ++ rows ++ rows', PyOk tt)
                      /\ same_but_trace w1 w2').
  { intros wa wb Sab H. destruct (IH _ _ _ _ _ Sab H) as (rows' & -> & Q').
    exists rows'. split; [now rewrite app_assoc|].
    intros df2. destruct (Q' (df2 ++ rows)) as (w2' & E & S').
    exists w2'. now rewrite app_assoc. }
  destruct r as [b|e].
  - intros H.
    assert (X : forall df2, exists w2',
                 _process_series read_csv strptime self s current_type df2 w2
                 = (w2', df2 ++ rows, PyOk b)
                 /\ exists rows',
                      df1 = df ++ rows ++ rows'
                      /\ forall df3,
                           exists w3,
                             task_run read_csv strptime self current_type
                               rest (df3 ++ rows) w2'
                             = (w3, df3 ++ rows ++ rows', PyOk tt)
                             /\ same_but_trace w1 w3).
    { intros df2. destruct (Q df2) as (w2' & E & S').
      exists w2'. split; [exact E|]. exact (K _ _ S' H). }
    destruct (X []) as (_ & _ & rows' & -> & _).
    exists (rows ++ rows'). split; [reflexivity|].
    intros df2. destruct (Q df2) as (w2' & E & S'). rewrite E.
    destruct (K _ _ S' H) as (rows'' & E'' & Q'').
    apply app_inv_head in E''. apply app_inv_head in E''. subst rows''.
    apply Q''.
  - destruct (is_OSError e) eqn:O; [|discriminate].
    intros H.
    assert (S0 : forall w2', same_but_trace w' w2' ->
                   same_but_trace (emit [C (msg_series_oserror (name s))] w')
                     (emit [C (msg_series_oserror (name s))] w2'))
      by (intros; now apply same_but_trace_emit).
    destruct (Q []) as (w0 & _ & S').
    destruct (K _ _ (S0 _ S') H) as (rows' & -> & _).
    exists (rows ++ rows'). split; [reflexivity|].
    intros df2. destruct (Q df2) as (w2' & E & S2). rewrite E, O.
    destruct (K _ _ (S0 _ S2) H) as (rows'' & E'' & Q'').
    apply app_inv_head in E''. apply app_inv_head in E''. subst rows''.
    apply Q''.
Qed.

Lemma task_run_app (current_type : SeriesTypeConfiguration)
  (a b : list SeriesFile) :
  forall (df_temp : Frame) (w : World),
    task_run read_csv strptime self current_type (a ++ b) df_temp w
    = match task_run read_csv strptime self current_type a df_temp w with
      | (w', df', PyOk _) =>
          task_run read_csv strptime self current_type b df' w'
      | other => other
      end.
Proof.
  induction a as [|s a IH]; intros df w; simpl; [reflexivity|].
  destruct (_process_series _ _ _ _ _ _ _) as [[w' df'] [v|e]];
    [apply IH|].
  destruct (is_OSError e); [apply IH | reflexivity].
Qed.

(** The tasks of a multi-core run, one after the other on their sections,
    do what one task does on all the input series. *)
Lemma run_tasks_same (current_type : SeriesTypeConfiguration)
  (input_series_division : list (list SeriesFile)) :
  forall (df_temp df1 : Frame) (w w1 w2 : World),
    same_but_trace w w2 ->
    run_tasks read_csv strptime self current_type input_series_division
      df_temp w = (w1, df1, PyOk tt) ->
    exists w2',
      task_run read_csv strptime self current_type
        (List.concat input_series_division) df_temp w2
      = (w2', df1, PyOk tt)
      /\ same_but_trace w1 w2'.
Proof.
  induction input_series_division as [|s rest IH];
    intros df df1 w w1 w2 S; simpl.
  { intros H. injection H as <- <-. eauto. }
  destruct (task_run _ _ _ _ s [] w) as [[w' df_task] [[]|e]] eqn:T;
    [|discriminate].
  destruct (task_run_same _ _ _ _ _ _ _ S T) as (rows & -> & Q).
  destruct (Q df) as (w2' & E & S').
  intros H. destruct (IH _ _ _ _ _ S' H) as (w3 & E3 & S3).
  exists w3. split; [|exact S3].
  rewrite task_run_app, E. exact E3.
Qed.

Lemma persist_same (current_type : SeriesTypeConfiguration)
  (input_series_count : Z) (df_temp : Frame) (w w' w2 : World)
  (r : PyResult RunSummary) :
  same_but_trace w w2 ->
  persist read_output to_csv current_type input_series_count df_temp w
  = (w', r) ->
  exists w2',
    persist read_output to_csv current_type input_series_count df_temp w2
    = (w2', r)
    /\ same_but_trace w' w2'.
Proof.
  intros S.
  destruct w as [i io o oro owo m mo l t],
           w2 as [i2 io2 o2 oro2 owo2 m2 mo2 l2 t2].
  unfold same_but_trace in S. simpl in S.
  destruct S as (-> & -> & -> & -> & -> & -> & -> & ->).
  unfold persist, try_persist. simpl.
  destruct (_ =? 0).
  { intros H. injection H as <- <-. eexists. split; [reflexivity|].
    repeat split. }
  destruct oro; simpl.
  2:{ intros H. injection H as <- <-. eexists. split; [reflexivity|].
      repeat split. }
  destruct (read_output _ _) as [out|e].
  2:{ destruct (is_OSError e); intros H; injection H as <- <-;
        eexists; (split; [reflexivity|]); repeat split. }
  destruct (frame_astype_int32 df_temp) as [new|e].
  2:{ destruct (is_OSError e); intros H; injection H as <- <-;
        eexists; (split; [reflexivity|]); repeat split. }
  destruct (frame_astype_int32 out) as [old|e].
  2:{ destruct (is_OSError e); intros H; injection H as <- <-;
        eexists; (split; [reflexivity|]); repeat split. }
  destruct (match duplicated_policy current_type with
            | dup_save => _
            | dup_discard => _
            end) as [kept dup].
  destruct (0 <? _); [destruct owo|]; simpl;
    intros H; injection H as <- <-;
    eexists; (split; [reflexivity|]); repeat split.
Qed.

(** X12. A run in multi-core mode and the run of the same service in
    single-core mode without limit, from the same world, return the same
    count and leave the same input directory, output file and malformed
    directory, with the same WARNING and CRITICAL records logged, those of
    the tasks taken in the order of the tasks: the sections handed to the
    tasks are processed as the single loop processes the whole list.  The
    two runs differ in the calls recorded at most. *)
Theorem multi_core_run_agrees_with_single_core_run (type : SeriesType)
  (w w1 : World) (n : Z) :
  multi_core_enable (_conf self) = true ->
  max_series_per_run (_conf self) <= 0 ->
  _ingest_series read_csv strptime read_output to_csv self type None w
  = (w1, PyOk n) ->
  exists w2,
    _ingest_series read_csv strptime read_output to_csv (single_core self)
      type None w
    = (w2, PyOk n)
    /\ same_but_trace w1 w2.
Proof.
  intros Mc L. unfold _ingest_series, gather, resolve_max_series.
  change (type_conf (single_core self) type) with (type_conf self type).
  change (max_series_per_run (_conf (single_core self)))
    with (max_series_per_run (_conf self)).
  destruct (input_dir_ok w); simpl negb; cbv iota.
  2:{ intros H. injection H as <- <-. eexists. split; [reflexivity|].
      apply same_but_trace_refl. }
  cbv zeta.
  set (candidates := filter (has_extension (type_conf self type))
                            (input_dir w)).
  set (w0 := if 0 <? _ then emit _ w else w). clearbody w0.
  destruct (0 <? Z.of_nat (List.length candidates)).
  2:{ intros H. injection H as <- <-. eexists. split; [reflexivity|].
      apply same_but_trace_refl. }
  unfold process_input_series. rewrite Mc.
  change (multi_core_enable (_conf (single_core self))) with false.
  cbv iota.
  change (max_series_per_run (_conf (single_core self)))
    with (max_series_per_run (_conf self)).
  rewrite single_core_loop_unlimited by assumption.
  rewrite task_run_single_core.
  destruct (array_split _ _) as [d|e] eqn:A; [|discriminate].
  apply array_split_concat in A.
  destruct (run_tasks _ _ _ _ _ _ _) as [[wa df] [[]|e]] eqn:R;
    [|discriminate].
  destruct (run_tasks_same _ _ _ _ _ _ _ (same_but_trace_refl w0) R)
    as (wb & E & S).
  rewrite A in E. rewrite E.
  destruct (persist _ _ _ _ _ wa) as [wc [summary|e]] eqn:Ps; [|discriminate].
  destruct (persist_same _ _ _ _ _ _ _ S Ps) as (wd & Pd & Sd).
  rewrite Pd. intros H. injection H as <- <-. eauto.
Qed.

End Modes.

(* ------------------------------------------------------------------ *)
(** ** The sections of the tasks; duplicates once more *)

(** ** The sections of a multi-core run *)

Lemma take_sections_lengths {A : Type} (sizes : list nat) :
  forall l : list A,
    (list_sum sizes <= List.length l)%nat ->
    map (@List.length A) (take_sections sizes l) = sizes.
Proof.
  induction sizes as [|k ks IH]; intros l H; simpl in *; [reflexivity|].
  rewrite firstn_length_le by lia. f_equal.
  apply IH. rewrite length_skipn. lia.
Qed.

Lemma array_split_lengths {A : Type} (l : list A) (n : nat)
  (d : list (list A)) :
  array_split l n = PyOk d ->
  map (@List.length A) d
  = (repeat (S (List.length l / n)) (List.length l mod n)
       ++ repeat (List.length l / n) (n - List.length l mod n))%nat.
Proof.
  unfold array_split. destruct n as [|n]; [discriminate|].
  intros H. injection H as <-.
  apply take_sections_lengths.
  rewrite section_sizes_sum by lia. lia.
Qed.

Section Dispatch.

Variable read_csv : string -> string -> PyResult (list (list float)).
Variable strptime : string -> string -> option Z.
Variable self : DataIngestionService.

(** X13. In multi-core mode the input series are handed to
    [min(len(input_series), tasks)] tasks (lines 346-364): the sections of
    [numpy.array_split], put end to end, are the input series in their
    order, no section is empty, and two sections differ by one series at
    most. *)
Theorem multi_core_sections_are_balanced
  (current_type : SeriesTypeConfiguration) (max_series : Z)
  (input_series : list SeriesFile) (w : World) :
  multi_core_enable (_conf self) = true ->
  (0 < _pipes self)%nat ->
  input_series <> [] ->
  exists input_series_division,
    process_input_series read_csv strptime self current_type max_series
      input_series w
    = run_tasks read_csv strptime self current_type input_series_division
        [] w
    /\ List.length input_series_division
       = Nat.min (List.length input_series) (_pipes self)
    /\ List.concat input_series_division = input_series
    /\ forall a b,
         In a input_series_division -> In b input_series_division ->
         a <> [] /\ (List.length a <= S (List.length b))%nat.
Proof.
  intros Mc P N. unfold process_input_series. rewrite Mc.
  set (n := Nat.min (List.length input_series) (_pipes self)).
  assert (Ln : (0 < List.length input_series)%nat)
    by (destruct input_series; [contradiction | simpl; lia]).
  assert (Hn : (0 < n <= List.length input_series)%nat) by (unfold n; lia).
  destruct (array_split input_series n) as [d|e] eqn:A.
  2:{ unfold array_split in A. destruct n; [lia | discriminate]. }
  exists d. split; [reflexivity|].
  pose proof (array_split_lengths _ _ _ A) as L.
  split.
  { rewrite <- (length_map (@List.length SeriesFile)), L.
    rewrite length_app, !repeat_length.
    pose proof (Nat.mod_upper_bound (List.length input_series) n). lia. }
  split; [exact (array_split_concat _ _ _ A)|].
  assert (E : (1 <= List.length input_series / n)%nat).
  { apply Nat.div_le_lower_bound; lia. }
  assert (B : forall a, In a d ->
                (List.length input_series / n <= List.length a)%nat
                /\ (List.length a <= S (List.length input_series / n))%nat).
  { intros a Ia. apply (in_map (@List.length SeriesFile)) in Ia.
    rewrite L in Ia. apply in_app_or in Ia.
    destruct Ia as [Ia|Ia]; apply repeat_spec in Ia; lia. }
  intros a b Ia Ib. apply B in Ia. apply B in Ib. split; [|lia].
  intros ->. simpl in Ia. lia.
Qed.

End Dispatch.

(** ** Floats: equality is transitive *)

Lemma SFeqb_finite (s1 s2 : bool) (m1 m2 : positive) (e1 e2 : Z) :
  SFeqb (S754_finite s1 m1 e1) (S754_finite s2 m2 e2) = true ->
  s1 = s2 /\ m1 = m2 /\ e1 = e2.
Proof.
  unfold SFeqb, SFcompare.
  destruct s1, s2; try discriminate;
    destruct (Z.compare_spec e1 e2) as [E|E|E]; try discriminate;
    destruct (Pos.compare_cont Eq m1 m2) eqn:P; try discriminate;
    intros _; apply Pcompare_Eq_eq in P; auto.
Qed.

Lemma SFeqb_finite_refl (s : bool) (m : positive) (e : Z) :
  SFeqb (S754_finite s m e) (S754_finite s m e) = true.
Proof.
  unfold SFeqb, SFcompare.
  destruct s; now rewrite Z.compare_refl, Pcompare_refl.
Qed.

Lemma SFeqb_trans (a b c : spec_float) :
  SFeqb a b = true -> SFeqb b c = true -> SFeqb a c = true.
Proof.
  destruct a as [sa|sa| |sa ma ea], b as [sb|sb| |sb mb eb],
           c as [sc|sc| |sc mc ec];
    try (intros H; discriminate H);
    try (intros _ H; discriminate H);
    try (destruct sa, sb; intros H; discriminate H);
    try (destruct sb, sc; intros _ H; discriminate H);
    try reflexivity.
  - destruct sa, sb, sc; intros H1 H2; try discriminate; reflexivity.
  - intros H1 H2. apply SFeqb_finite in H1, H2.
    destruct H1 as (-> & -> & ->), H2 as (-> & -> & ->).
    apply SFeqb_finite_refl.
Qed.

Lemma eqb_trans (x y z : float) :
  PrimFloat.eqb x y = true -> PrimFloat.eqb y z = true ->
  PrimFloat.eqb x z = true.
Proof. rewrite !FloatAxioms.eqb_spec. apply SFeqb_trans. Qed.

Lemma eqb_not_nan_r (a c : float) :
  PrimFloat.eqb a c = true -> PrimFloat.is_nan c = false.
Proof.
  unfold PrimFloat.is_nan. rewrite !FloatAxioms.eqb_spec.
  destruct (Prim2SF c) as [s| s| |s m e] eqn:E.
  - reflexivity.
  - destruct s; reflexivity.
  - destruct (Prim2SF a); discriminate.
  - intros _. now rewrite SFeqb_finite_refl.
Qed.

Lemma same_trans (x y z : float) :
  F64.same x y = true -> F64.same y z = true -> F64.same x z = true.
Proof.
  unfold F64.same. intros H1 H2.
  apply orb_true_iff in H1, H2. apply orb_true_iff.
  destruct H1 as [H1|H1], H2 as [H2|H2].
  - left. eapply eqb_trans; eauto.
  - apply eqb_not_nan_r in H1. apply andb_true_iff in H2.
    destruct H2. congruence.
  - apply eqb_not_nan in H2. apply andb_true_iff in H1.
    destruct H1. congruence.
  - right. apply andb_true_iff in H1, H2. apply andb_true_iff.
    tauto.
Qed.

Lemma cells_same_trans (r1 : list Cell) :
  forall r2 r3,
    cells_same r1 r2 = true -> cells_same r2 r3 = true ->
    cells_same r1 r3 = true.
Proof.
  induction r1 as [|a r1 IH]; intros [|b r2] [|c r3]; simpl;
    try discriminate; [reflexivity|].
  intros H1 H2. apply andb_true_iff in H1, H2. apply andb_true_iff.
  destruct H1 as [A1 B1], H2 as [A2 B2]. split; [|eapply IH; eauto].
  destruct a, b, c; simpl in *; try discriminate.
  - apply Z.eqb_eq in A1, A2. apply Z.eqb_eq. congruence.
  - eapply same_trans; eauto.
  - apply Z.eqb_eq in A1, A2. apply Z.eqb_eq. congruence.
Qed.

Lemma same_series_trans (r1 r2 r3 : Row) :
  same_series r1 r2 = true -> same_series r2 r3 = true ->
  same_series r1 r3 = true.
Proof. apply cells_same_trans. Qed.

(** ** What the deduplication keeps *)

Lemma duplicated_from_app (a b : Frame) :
  forall seen,
    duplicated_from seen (a ++ b)
    = duplicated_from seen a ++ duplicated_from (seen ++ a) b.
Proof.
  induction a as [|r a IH]; intros seen; simpl.
  - now rewrite app_nil_r.
  - rewrite IH, <- app_assoc. reflexivity.
Qed.

Lemma new_mask_is_duplicated_from (old new : Frame) :
  skipn (List.length old) (new_duplicates_mask (old ++ new) new)
  = duplicated_from old new.
Proof.
  rewrite mask_shape. unfold duplicated. rewrite duplicated_from_app.
  simpl app.
  rewrite !skipn_app, !repeat_length, duplicated_from_length.
  rewrite Nat.sub_diag. simpl skipn.
  rewrite !skipn_all2
    by (rewrite ?repeat_length, ?duplicated_from_length; lia).
  reflexivity.
Qed.

Lemma drop_masked_fresh (new : Frame) :
  forall seen, drop_masked (duplicated_from seen new) new = fresh seen new.
Proof.
  induction new as [|r new IH]; intros seen; simpl; [reflexivity|].
  destruct (existsb _ seen); now rewrite IH.
Qed.

Lemma kept_frame (old new : Frame) :
  fst (drop_new_duplicates (old ++ new) new) = old ++ fresh old new.
Proof.
  destruct (drop_new_duplicates_keeps_old old new) as [-> _].
  now rewrite new_mask_is_duplicated_from, drop_masked_fresh.
Qed.

Lemma existsb_incl {A : Type} (p : A -> bool) (l l' : list A) :
  incl l l' -> existsb p l' = false -> existsb p l = false.
Proof.
  intros I H. destruct (existsb p l) eqn:E; [|reflexivity].
  apply existsb_exists in E. destruct E as (x & Ix & Px).
  assert (existsb p l' = true) by (apply existsb_exists; eauto).
  congruence.
Qed.

Lemma fresh_unflagged (new : Frame) :
  forall seen seen0,
    incl seen0 seen ->
    Forall (fun b => b = false) (duplicated_from seen0 (fresh seen new)).
Proof.
  induction new as [|r new IH]; intros seen seen0 I; simpl; [constructor|].
  destruct (existsb _ seen) eqn:E.
  - apply IH. intros x Hx. apply in_or_app. left. now apply I.
  - simpl. constructor.
    + eapply existsb_incl; eauto.
    + apply IH. intros x Hx. apply in_app_or in Hx. apply in_or_app.
      destruct Hx as [Hx|Hx]; [left; now apply I | now right].
Qed.

Lemma fresh_incl (new : Frame) :
  forall seen r, In r (fresh seen new) -> In r new.
Proof.
  induction new as [|x new IH]; intros seen r; simpl; [auto|].
  destruct (existsb _ seen); simpl; intros H.
  - right. eapply IH, H.
  - destruct H as [H|H]; [now left | right; eapply IH, H].
Qed.

Lemma mask_sum_unflagged (mask : list bool) :
  Forall (fun b => b = false) mask -> mask_sum mask = 0.
Proof.
  unfold mask_sum. induction 1 as [|b mask -> F IH]; simpl; [reflexivity|].
  exact IH.
Qed.

(** X14. The rows [drop_new_duplicates] keeps (lines 459-476) are the old
    rows followed by new rows, and hold no duplicate among the new ones any
    more: dropping the duplicates of what was kept drops nothing. *)
Theorem deduplication_is_idempotent (old new : Frame) :
  exists new',
    fst (drop_new_duplicates (old ++ new) new) = old ++ new'
    /\ (forall r, In r new' -> In r new)
    /\ drop_new_duplicates (old ++ new') new' = (old ++ new', 0).
Proof.
  exists (fresh old new). split; [apply kept_frame|].
  split; [apply fresh_incl|].
  assert (Z : mask_sum (new_duplicates_mask (old ++ fresh old new)
                          (fresh old new)) = 0).
  { rewrite mask_shape, mask_sum_old.
    rewrite <- (mask_sum_old (List.length old)), <- mask_shape.
    rewrite <- (firstn_skipn (List.length old) (new_duplicates_mask _ _)).
    rewrite new_mask_is_duplicated_from.
    assert (F : firstn (List.length old)
                  (new_duplicates_mask (old ++ fresh old new)
                                       (fresh old new))
                = repeat false (List.length old)).
    { rewrite mask_shape, firstn_app, repeat_length, Nat.sub_diag.
      simpl. rewrite app_nil_r. apply firstn_all2.
      rewrite repeat_length. lia. }
    rewrite F, mask_sum_old. apply mask_sum_unflagged.
    apply fresh_unflagged. apply incl_refl. }
  unfold drop_new_duplicates. rewrite Z. reflexivity.
Qed.

Lemma fresh_represents (new : Frame) :
  forall seen kept,
    (forall s, In s seen -> exists k, In k kept /\ same_series k s = true) ->
    forall r, In r new ->
      exists k, In k (kept ++ fresh seen new) /\ same_series k r = true.
Proof.
  induction new as [|x new IH]; intros seen kept Inv r; simpl; [intros []|].
  destruct (existsb (fun s => same_series s x) seen) eqn:E.
  - assert (X : exists k, In k kept /\ same_series k x = true).
    { apply existsb_exists in E. destruct E as (s & Is & Es).
      destruct (Inv s Is) as (k & Ik & Ek). exists k. split; [assumption|].
      eapply same_series_trans; eauto. }
    assert (Inv' : forall s, In s (seen ++ [x]) ->
                     exists k, In k kept /\ same_series k s = true).
    { intros s Hs. apply in_app_or in Hs.
      destruct Hs as [Hs|[<-|[]]]; [now apply Inv | exact X]. }
    intros [<-|H].
    + destruct X as (k & Ik & Ek). exists k. split; [|assumption].
      apply in_or_app. now left.
    + now apply (IH _ _ Inv').
  - assert (Inv' : forall s, In s (seen ++ [x]) ->
                     exists k, In k (kept ++ [x])
                               /\ same_series k s = true).
    { intros s Hs. apply in_app_or in Hs. destruct Hs as [Hs|[<-|[]]].
      - destruct (Inv s Hs) as (k & Ik & Ek). exists k.
        split; [apply in_or_app; now left | assumption].
      - exists x. split; [apply in_or_app; right; now left|].
        apply cells_same_refl. }
    change (kept ++ x :: fresh (seen ++ [x]) new)
      with (kept ++ [x] ++ fresh (seen ++ [x]) new).
    rewrite app_assoc.
    intros [<-|H].
    + exists x. split; [|apply cells_same_refl].
      apply in_or_app. left. apply in_or_app. right. now left.
    + now apply (IH _ _ Inv').
Qed.

(** X15. No series is lost by the removal of the duplicates: every row of
    the merged frame equals, outside the timestamp, a row of the frame that
    is kept. *)
Theorem deduplication_loses_no_series (old new : Frame) (r : Row) :
  In r (old ++ new) ->
  exists k,
    In k (fst (drop_new_duplicates (old ++ new) new))
    /\ same_series k r = true.
Proof.
  rewrite kept_frame. intros H. apply in_app_or in H.
  destruct H as [H|H].
  - exists r. split; [apply in_or_app; now left | apply cells_same_refl].
  - apply fresh_represents; [|assumption].
    intros s Hs. exists s. split; [assumption | apply cells_same_refl].
Qed.

(* ------------------------------------------------------------------ *)
(** ** Start-up: resources and mode *)

(** ** Strings: one-character separators *)
















(** ** The header check *)



(** A first line the check passes is the expected headers joined by the
    separator of the labeled series, a newline after them or not; the check
    logs nothing then. *)
Lemma check_headers_sound (conf : DataIngestionConfiguration)
  (current_series : SeriesTypeConfiguration) (text : string)
  (logs : list LogRecord) :
  check_headers conf current_series text = (logs, PyOk tt) ->
  logs = []
  /\ (Py.readline text
      = Py.join (output_series_separator (conf_labeled conf))
                (series_columns conf)
      \/ Py.readline text
         = Py.join (output_series_separator (conf_labeled conf))
                   (series_columns conf)
           +++ String Py.newline EmptyString).
Proof.
  unfold check_headers, Py.split.
  set (lab := output_series_separator (conf_labeled conf)).
  set (cols := series_columns conf).
  set (line := Py.readline text).
  destruct lab as [|l0 lab'] eqn:Elab; [discriminate|].
  rewrite <- Elab. clear Elab l0 lab'.
  set (pieces := Py.split_fuel (String.length line) lab line).
  assert (J : Py.join lab pieces = line) by apply join_split.
  assert (NE : pieces <> []) by apply split_fuel_nonempty.
  unfold strip_last_newline.
  destruct (Py.last_char (last pieces EmptyString)) as [ch|] eqn:Last;
    [|discriminate].
  destruct (Ascii.eqb ch Py.newline) eqn:Nl.
  - apply Ascii.eqb_eq in Nl. subst ch.
    destruct (strings_eqb _ cols) eqn:Eq; simpl; [|discriminate].
    intros H. injection H as <-. split; [reflexivity|]. right.
    apply strings_eqb_eq in Eq. apply last_char_split in Last.
    rewrite <- J. rewrite (app_removelast_last EmptyString NE) at 1.
    rewrite Last at 1. rewrite join_snoc_app. now rewrite Eq.
  - destruct (strings_eqb pieces cols) eqn:Eq; simpl; [|discriminate].
    intros H. injection H as <-. split; [reflexivity|]. left.
    apply strings_eqb_eq in Eq. now rewrite <- J, Eq.
Qed.

(** X16. A non-empty output file passes [_check_resource_valid] (lines
    560-591) only if its first line is the expected column headers joined by
    the output separator of the labeled series, with or without a line
    ending; the file is then left as it is and nothing is logged. *)
Theorem accepted_output_file_starts_with_the_expected_header
  (conf : DataIngestionConfiguration)
  (current_series : SeriesTypeConfiguration) (text : string)
  (logs : list LogRecord) (res : Resource) :
  text <> EmptyString ->
  _check_resource_valid conf (res_file text) exp_file current_series
  = (logs, PyOk res) ->
  res = res_file text
  /\ logs = []
  /\ (Py.readline text
      = Py.join (output_series_separator (conf_labeled conf))
                (series_columns conf)
      \/ Py.readline text
         = Py.join (output_series_separator (conf_labeled conf))
                   (series_columns conf)
           +++ String Py.newline EmptyString).
Proof.
  intros NE. unfold _check_resource_valid.
  destruct text as [|c text]; [contradiction|].
  change (Z.of_nat (String.length (String c text)) =? 0) with false.
  cbv iota.
  destruct (check_headers conf current_series (String c text))
    as [l [[]|e]] eqn:Ck; [|discriminate].
  intros H. injection H as <- <-.
  apply check_headers_sound in Ck. tauto.
Qed.



(** ** Start-up *)


Lemma and_then_ok {A B : Type} (r : list LogRecord * PyResult A)
  (k : A -> list LogRecord * PyResult B) (logs : list LogRecord) (b : B) :
  and_then r k = (logs, PyOk b) ->
  exists l1 a l2, r = (l1, PyOk a) /\ k a = (l2, PyOk b).
Proof.
  unfold and_then. destruct r as [l1 [a|e]]; [|discriminate].
  destruct (k a) as [l2 rb] eqn:K. intros H. injection H as _ ->.
  exists l1, a, l2. auto.
Qed.

(** The six checks of a start-up that succeeds. *)
Lemma init_resources_ok (conf : DataIngestionConfiguration)
  (r r' : Resources) (logs : list LogRecord) :
  init_resources conf r = (logs, PyOk r') ->
  let lab := conf_labeled conf in
  let unl := conf_unlabeled conf in
  (exists l, _check_resource_valid conf (labeled_input_dir r) exp_dir lab
             = (l, PyOk (labeled_input_dir r')))
  /\ (exists l, _check_resource_valid conf (unlabeled_input_dir r) exp_dir unl
                = (l, PyOk (unlabeled_input_dir r')))
  /\ (exists l, _check_resource_valid conf (labeled_output_file r) exp_file
                  lab
                = (l, PyOk (labeled_output_file r')))
  /\ (exists l, _check_resource_valid conf (unlabeled_output_file r) exp_file
                  unl
                = (l, PyOk (unlabeled_output_file r')))
  /\ match malformed_policy lab with
     | mal_drop => labeled_malformed_dir r' = labeled_malformed_dir r
     | mal_save =>
         exists l, _check_resource_valid conf (labeled_malformed_dir r)
                     exp_dir lab
                   = (l, PyOk (labeled_malformed_dir r'))
     end
  /\ match malformed_policy unl with
     | mal_drop => unlabeled_malformed_dir r' = unlabeled_malformed_dir r
     | mal_save =>
         exists l, _check_resource_valid conf (unlabeled_malformed_dir r)
                     exp_dir unl
                   = (l, PyOk (unlabeled_malformed_dir r'))
     end.
Proof.
  unfold init_resources. intros H.
  apply and_then_ok in H. destruct H as (l1 & li & l1' & E1 & H).
  apply and_then_ok in H. destruct H as (l2 & ui & l2' & E2 & H).
  apply and_then_ok in H. destruct H as (l3 & lo & l3' & E3 & H).
  apply and_then_ok in H. destruct H as (l4 & uo & l4' & E4 & H).
  apply and_then_ok in H. destruct H as (l5 & lm & l5' & E5 & H).
  apply and_then_ok in H. destruct H as (l6 & um & l6' & E6 & H).
  injection H as _ <-. cbv zeta. simpl.
  repeat split; eauto.
  - destruct (malformed_policy (conf_labeled conf)); [|eauto].
    now injection E5 as _ <-.
  - destruct (malformed_policy (conf_unlabeled conf)); [|eauto].
    now injection E6 as _ <-.
Qed.


Lemma check_resource_checked (conf : DataIngestionConfiguration)
  (res res' : Resource) (exp_res_type : ResourceType)
  (current_series : SeriesTypeConfiguration) (logs : list LogRecord) :
  _check_resource_valid conf res exp_res_type current_series
  = (logs, PyOk res') ->
  checked conf current_series exp_res_type res res'.
Proof.
  destruct res as [| |text], exp_res_type; try discriminate; simpl.
  - intros H. now injection H as _ <-.
  - intros H. injection H as _ <-. auto.
  - intros H. injection H as _ <-. auto.
  - destruct text as [|c text].
    + simpl. intros H. now injection H as _ <-.
    + change (Z.of_nat (String.length (String c text)) =? 0) with false.
      cbv iota. destruct (check_headers _ _ _) as [l [[]|e]];
        [|discriminate].
      intros H. now injection H as _ <-.
Qed.

(** X19. After a successful [__init__] each of the six paths has passed
    its check: a directory is there, created when it was missing; an output
    file that was missing or empty holds the expected headers joined by the
    output separator of its own series type; a non-empty output file is
    untouched.  The malformed directory of a type whose policy is
    [mal_drop] is not looked at. *)
Theorem start_up_creates_what_is_missing_and_keeps_the_rest
  (conf : DataIngestionConfiguration) (cpu_count : Z) (r r' : Resources)
  (logs : list LogRecord) (service : DataIngestionService) :
  __init__ conf cpu_count r = (logs, PyOk (r', service)) ->
  let lab := conf_labeled conf in
  let unl := conf_unlabeled conf in
  checked conf lab exp_dir (labeled_input_dir r) (labeled_input_dir r')
  /\ checked conf unl exp_dir (unlabeled_input_dir r) (unlabeled_input_dir r')
  /\ checked conf lab exp_file (labeled_output_file r)
       (labeled_output_file r')
  /\ checked conf unl exp_file (unlabeled_output_file r)
       (unlabeled_output_file r')
  /\ match malformed_policy lab with
     | mal_drop => labeled_malformed_dir r' = labeled_malformed_dir r
     | mal_save =>
         checked conf lab exp_dir (labeled_malformed_dir r)
           (labeled_malformed_dir r')
     end
  /\ match malformed_policy unl with
     | mal_drop => unlabeled_malformed_dir r' = unlabeled_malformed_dir r
     | mal_save =>
         checked conf unl exp_dir (unlabeled_malformed_dir r)
           (unlabeled_malformed_dir r')
     end.
Proof.
  intros H. unfold __init__ in H.
  apply and_then_ok in H. destruct H as (l1 & r0 & l2 & I & H).
  destruct (init_mode conf cpu_count) as [lm s].
  injection H as _ <- _.
  apply init_resources_ok in I. cbv zeta in *.
  destruct I as ((a1 & I1) & (a2 & I2) & (a3 & I3) & (a4 & I4) & I5 & I6).
  apply check_resource_checked in I1, I2, I3, I4.
  do 4 (split; [assumption|]). split.
  - destruct (malformed_policy (conf_labeled conf)); [assumption|].
    destruct I5 as (a5 & I5). now apply check_resource_checked in I5.
  - destruct (malformed_policy (conf_unlabeled conf)); [assumption|].
    destruct I6 as (a6 & I6). now apply check_resource_checked in I6.
Qed.

(** X20. The mode [__init__] selects (lines 706-757): multi-core mode is
    on exactly when it is enabled and neither the machine nor a positive
    limit gives one CPU; there are then at least two tasks, not more than
    the CPUs nor than a positive limit.  In single-core mode there is no
    task, and falling back to it from an enabled multi-core mode logs a
    warning.  Nothing else of the configuration changes. *)
Theorem multi_core_mode_needs_two_cpus (conf : DataIngestionConfiguration)
  (cpu_count : Z) :
  1 <= cpu_count ->
  let service := snd (init_mode conf cpu_count) in
  let fallback := cpu_count = 1 \/ multi_core_limit conf = 1 in
  (multi_core_enable (_conf service) = true
   <-> multi_core_enable conf = true /\ ~ fallback)
  /\ (multi_core_enable (_conf service) = true ->
      (2 <= _pipes service)%nat
      /\ Z.of_nat (_pipes service) <= cpu_count
      /\ (0 < multi_core_limit conf ->
          Z.of_nat (_pipes service) <= multi_core_limit conf))
  /\ (multi_core_enable (_conf service) = false -> _pipes service = O)
  /\ (multi_core_enable conf = true -> fallback ->
      fst (init_mode conf cpu_count) = [W msg_single_core_fallback])
  /\ _conf service
     = set_multi_core_enable (multi_core_enable (_conf service)) conf.
Proof.
  intros Cpu. cbv zeta. unfold init_mode.
  destruct conf as [ss dl si ms mc lim cl cu]. simpl.
  destruct mc; simpl.
  2:{ repeat split; intros; try discriminate; try tauto. }
  destruct ((0 <? lim) && (lim <? cpu_count)) eqn:L.
  - apply andb_true_iff in L. destruct L as [L1 L2].
    apply Z.ltb_lt in L1, L2.
    destruct (lim =? 1) eqn:E; simpl.
    + apply Z.eqb_eq in E.
      repeat split; intros; try discriminate; try tauto.
    + apply Z.eqb_neq in E.
      repeat split; intros; try discriminate; try lia; try tauto.
  - apply andb_false_iff in L.
    assert (lim <= 0 \/ cpu_count <= lim)
      by (destruct L as [L|L]; apply Z.ltb_ge in L; lia).
    destruct (cpu_count =? 1) eqn:E; simpl.
    + apply Z.eqb_eq in E.
      repeat split; intros; try discriminate; try tauto.
    + apply Z.eqb_neq in E.
      repeat split; intros; try discriminate; try lia; try tauto.
Qed.

(* ------------------------------------------------------------------ *)
(** ** The theorems at concrete inputs *)

(** The empty file "empty.dat", whose name is no timestamp. *)
Lemma empty_file_is_classified_first_witness :
  _process_series Lab.read_csv Lab.strptime (Scenario.service 2 false 0)
    Scenario.empty_dat
    (Scenario.type_configuration labeled zeroFill dup_discard) []
    (Scenario.world 2 [Scenario.empty_dat] [] true)
  = (cleanup (Scenario.type_configuration labeled zeroFill dup_discard)
       Scenario.empty_dat (Some cause_empty_series)
       (emit [W (msg_empty_series "empty.dat")]
          (record (ev_process_series "empty.dat" 0)
             (Scenario.world 2 [Scenario.empty_dat] [] true))),
     [], PyOk false).
Proof.
  exact (proj1 (empty_file_is_classified_first Lab.read_csv Lab.read_csv
                  Lab.strptime Lab.strptime (Scenario.service 2 false 0)
                  Scenario.empty_dat
                  (Scenario.type_configuration labeled zeroFill dup_discard)
                  [] (Scenario.world 2 [Scenario.empty_dat] [] true)
                  eq_refl eq_refl)).
Defined.

(** Single-core mode, [max_series] 1, three input series: the empty one
    and "A.dat" are processed, "B.dat" is left in place. *)
Lemma explicit_max_series_limits_single_core_only_witness :
  (exists evs,
     [ev_process_series "empty.dat" 0; ev_process_series "A.dat" 0]
     = [] ++ evs
     /\ exists rest,
          ["empty.dat"; "A.dat"; "B.dat"] = processed_names evs ++ rest
          /\ (forall nm k, In (ev_process_series nm k) evs -> Z.of_nat k < 1)
          /\ Z.of_nat (List.length [Scenario.row_of 1000]) <= 1
          /\ (rest <> [] -> Z.of_nat (List.length [Scenario.row_of 1000]) = 1))
  /\ forall arg,
       (forall z', arg = PyInt z' -> z' <= 0) ->
       Scenario.ingest 2 false 0 (Some arg)
         (Scenario.world 2
            [Scenario.empty_dat; Scenario.A_dat; Scenario.B_dat] [] true)
       = (emit [C msg_max_series_invalid]
            (Scenario.world 2
               [Scenario.empty_dat; Scenario.A_dat; Scenario.B_dat] []
               true),
          PyOk 0).
Proof.
  exact (explicit_max_series_limits_single_core_only Lab.read_csv
           Lab.strptime Lab.read_output (Scenario.to_csv 2)
           (Scenario.service 2 false 0) labeled 1
           (Scenario.world 2
              [Scenario.empty_dat; Scenario.A_dat; Scenario.B_dat] [] true)
           (fst (gather Lab.read_csv Lab.strptime
                   (Scenario.service 2 false 0) labeled (Some (PyInt 1))
                   (Scenario.world 2
                      [Scenario.empty_dat; Scenario.A_dat; Scenario.B_dat]
                      [] true)))
           3 [Scenario.row_of 1000]
           ltac:(lia) ltac:(vm_compute; reflexivity)).
Defined.

(** C4 as the specification words it fails: in multi-core mode with two
    tasks and two input series, the explicit [max_series] 0 makes the call
    return 0 with a critical record and no warning, and no series is
    processed. *)
Lemma explicit_zero_max_series_processes_nothing :
  Scenario.ingest 2 true 2 (Some (PyInt 0))
    (Scenario.world 2 [Scenario.A_dat; Scenario.B_dat] [] true)
  = ({| input_dir := [Scenario.A_dat; Scenario.B_dat];
        input_dir_ok := true;
        output_file := Scenario.to_csv 2 [] ",";
        output_read_ok := true; output_write_ok := true;
        malformed_dir := []; malformed_dir_ok := true;
        log := [C msg_max_series_invalid];
        trace := [] |},
     PyOk 0).
Proof. vm_compute. reflexivity. Qed.

(** An input directory that holds a "README" only. *)
Lemma no_candidate_returns_zero_witness :
  snd (Scenario.ingest 2 false 0 None
         (Scenario.world 2 [Scenario.readme] [Scenario.row_of 5] true))
  = PyOk 0
  /\ output_file
       (fst (Scenario.ingest 2 false 0 None
               (Scenario.world 2 [Scenario.readme] [Scenario.row_of 5] true)))
     = Scenario.to_csv 2 [Scenario.row_of 5] ","
  /\ trace
       (fst (Scenario.ingest 2 false 0 None
               (Scenario.world 2 [Scenario.readme] [Scenario.row_of 5] true)))
     = []
  /\ input_dir
       (fst (Scenario.ingest 2 false 0 None
               (Scenario.world 2 [Scenario.readme] [Scenario.row_of 5] true)))
     = [Scenario.readme].
Proof.
  exact (no_candidate_returns_zero Lab.read_csv Lab.strptime Lab.read_output
           (Scenario.to_csv 2) (Scenario.service 2 false 0) labeled None
           (Scenario.world 2 [Scenario.readme] [Scenario.row_of 5] true)
           eq_refl).
Defined.

(** "A.dat" and "B.dat" against an output file that holds their series. *)
Lemma all_duplicates_leave_output_file_unwritten_witness :
  snd (Scenario.ingest 2 false 0 None
         (Scenario.world 2 [Scenario.A_dat; Scenario.B_dat]
            [Scenario.row_of 5] true))
  = PyOk 0
  /\ output_file
       (fst (Scenario.ingest 2 false 0 None
               (Scenario.world 2 [Scenario.A_dat; Scenario.B_dat]
                  [Scenario.row_of 5] true)))
     = Scenario.to_csv 2 [Scenario.row_of 5] ",".
Proof.
  destruct (all_duplicates_leave_output_file_unwritten Lab.read_csv
              Lab.strptime Lab.read_output (Scenario.to_csv 2)
              (Scenario.service 2 false 0) labeled None
              (Scenario.world 2 [Scenario.A_dat; Scenario.B_dat]
                 [Scenario.row_of 5] true)
              (fst (gather Lab.read_csv Lab.strptime
                      (Scenario.service 2 false 0) labeled None
                      (Scenario.world 2 [Scenario.A_dat; Scenario.B_dat]
                         [Scenario.row_of 5] true)))
              (fst (gather Lab.read_csv Lab.strptime
                      (Scenario.service 2 false 0) labeled None
                      (Scenario.world 2 [Scenario.A_dat; Scenario.B_dat]
                         [Scenario.row_of 5] true)))
              2 [Scenario.row_of 1000; Scenario.row_of 2000]
              {| ingested_series_count := 0; valid_series_count := 2;
                 duplicated_series_count := 2;
                 malformed_series_count := 0 |}
              ltac:(vm_compute; reflexivity) ltac:(vm_compute; reflexivity)
              ltac:(simpl; lia) ltac:(reflexivity))
    as (I & _ & _ & O & _).
  unfold Scenario.ingest. rewrite I. split; [reflexivity | exact O].
Defined.

(** "A.dat" against an output file that cannot be written: the file is
    gone from the input directory all the same. *)
Lemma failed_write_returns_zero_witness :
  snd (Scenario.ingest 2 false 0 None
         (Scenario.world 2 [Scenario.A_dat] [] false))
  = PyOk 0
  /\ In (C msg_persist_error)
        (log (fst (Scenario.ingest 2 false 0 None
                     (Scenario.world 2 [Scenario.A_dat] [] false))))
  /\ output_file
       (fst (Scenario.ingest 2 false 0 None
               (Scenario.world 2 [Scenario.A_dat] [] false)))
     = Scenario.to_csv 2 [] ","
  /\ input_dir
       (fst (Scenario.ingest 2 false 0 None
               (Scenario.world 2 [Scenario.A_dat] [] false)))
     = [].
Proof.
  destruct (failed_write_returns_zero Lab.read_csv Lab.strptime
              Lab.read_output (Scenario.to_csv 2)
              (Scenario.service 2 false 0) labeled None
              (Scenario.world 2 [Scenario.A_dat] [] false)
              (fst (Scenario.ingest 2 false 0 None
                      (Scenario.world 2 [Scenario.A_dat] [] false)))
              (snd (Scenario.ingest 2 false 0 None
                      (Scenario.world 2 [Scenario.A_dat] [] false)))
              [ev_process_series "A.dat" 0; ev_to_csv false]
              ltac:(vm_compute; reflexivity) ltac:(vm_compute; reflexivity)
              ltac:(simpl; auto))
    as (R & L & O & _).
  split; [exact R|]. split; [exact L|]. split; [exact O|].
  vm_compute. reflexivity.
Defined.

(** The rows of "A.dat" and "B.dat" behind one stored row: the second new
    row, third of the merged frame, is flagged. *)
Lemma identical_new_rows_keep_at_most_the_first_witness :
  nth_error
    (new_duplicates_mask
       ([Scenario.int_row_of 5]
          ++ [Scenario.int_row_of 1000; Scenario.int_row_of 2000])
       [Scenario.int_row_of 1000; Scenario.int_row_of 2000])
    (1 + 1)
  = Some true.
Proof.
  exact (proj1 (identical_new_rows_keep_at_most_the_first Lab.read_output
                  (Scenario.to_csv 2)
                  (Scenario.type_configuration labeled zeroFill dup_discard)
                  [Scenario.row_of 1000; Scenario.row_of 2000]
                  (Scenario.world 2 [] [Scenario.row_of 5] true)
                  [Scenario.row_of 5] [Scenario.int_row_of 5]
                  [Scenario.int_row_of 1000; Scenario.int_row_of 2000]
                  0%nat 1%nat (Scenario.row_of 1000) (Scenario.row_of 2000)
                  eq_refl eq_refl ltac:(vm_compute; reflexivity)
                  ltac:(vm_compute; reflexivity)
                  ltac:(vm_compute; reflexivity)
                  ltac:(lia) eq_refl eq_refl eq_refl)).
Defined.

(** "A.dat" holds three values.  Under [sample_size] 1 it is cut to two,
    and is valid; under [sample_size] 5 it is filled up to six, and the row
    has seven fields, [ANOMALOUS] equal to 1. *)
Lemma valid_row_has_canonical_shape_witness :
  (exists w',
     _process_series Lab.read_csv Lab.strptime (Scenario.service 1 false 0)
       Scenario.A_dat
       (Scenario.type_configuration labeled zeroFill dup_discard) []
       (Scenario.world 1 [Scenario.A_dat] [] true)
     = (w', [[CTime 1000; CFloat (F64.of_Z 1); CFloat (F64.of_Z 2)]],
        PyOk true))
  /\ exists r row,
       Lab.read_csv "1,2,3" "," = PyOk [r]
       /\ [Scenario.row_of 1000 ++ [CFloat (F64.of_Z 0); CFloat (F64.of_Z 0);
                                    CFloat (F64.of_Z 0)]]
          = [] ++ [row]
       /\ Z.of_nat (List.length row) = 5 + 2
       /\ exists a,
            nth_error row 1 = Some (CFloat a)
            /\ (PrimFloat.eqb a (F64.of_Z 0) = true
                \/ PrimFloat.eqb a (F64.of_Z 1) = true).
Proof.
  split.
  - apply (proj1 (proj2 (proj2
             (valid_row_has_canonical_shape Lab.read_csv Lab.strptime
                (Scenario.service 1 false 0) Scenario.A_dat
                (Scenario.type_configuration labeled zeroFill dup_discard) []
                (Scenario.world 1 [Scenario.A_dat] [] true)
                ltac:(simpl; lia))))
           (map F64.of_Z [1; 2; 3])).
    + reflexivity.
    + discriminate.
    + reflexivity.
    + intros _. exists (F64.of_Z 1), (map F64.of_Z [2; 3]).
      split; [reflexivity | now right].
    + split; [reflexivity|].
      intros k (before & run & after & E & L & _).
      apply (f_equal (@List.length float)) in E.
      rewrite !length_app in E. simpl in E. simpl. lia.
  - destruct (proj2 (proj2 (proj2
                (valid_row_has_canonical_shape Lab.read_csv Lab.strptime
                   (Scenario.service 5 false 0) Scenario.A_dat
                   (Scenario.type_configuration labeled zeroFill dup_discard)
                   [] (Scenario.world 5 [Scenario.A_dat] [] true)
                   ltac:(simpl; lia))))
                [Scenario.row_of 1000
                   ++ [CFloat (F64.of_Z 0); CFloat (F64.of_Z 0);
                       CFloat (F64.of_Z 0)]]
                (fst (fst (_process_series Lab.read_csv Lab.strptime
                             (Scenario.service 5 false 0) Scenario.A_dat
                             (Scenario.type_configuration labeled zeroFill
                                dup_discard) []
                             (Scenario.world 5 [Scenario.A_dat] [] true))))
                ltac:(vm_compute; reflexivity))
      as (r & row & R & D & _ & _ & L & A).
    exists r, row. repeat split; assumption.
Defined.


(** "A.dat" under [sample_size] 5 is valid: its flag is 1, and its three
    NULL values of padding are within the thresholds 3/5 and 3. *)
Lemma series_is_valid_iff_flag_and_nulls_in_bounds_witness :
  flag_in_bounds (Scenario.labeled_filling zeroFill)
    (map F64.of_Z [1; 2; 3])
  /\ nulls_in_bounds (Scenario.service 5 false 0)
       (Scenario.labeled_filling zeroFill)
       (reconciled (Scenario.service 5 false 0) (map F64.of_Z [1; 2; 3])).
Proof.
  apply (series_is_valid_iff_flag_and_nulls_in_bounds
           Lab.read_csv Lab.strptime (Scenario.service 5 false 0)
           Scenario.A_dat (Scenario.labeled_filling zeroFill) []
           (Scenario.world 5 [Scenario.A_dat] [] true)
           (map F64.of_Z [1; 2; 3])).
  - simpl. lia.
  - reflexivity.
  - discriminate.
  - reflexivity.
  - reflexivity.
Defined.


(** "A.dat" under [sample_size] 5 and zero filling: no NULL value in the
    row. *)
Lemma valid_row_has_no_null_after_zero_or_forward_fill_witness :
  exists row,
    [Scenario.row_of 1000
       ++ [CFloat (F64.of_Z 0); CFloat (F64.of_Z 0); CFloat (F64.of_Z 0)]]
    = [] ++ [row]
    /\ forall x, In (CFloat x) row -> F64.isnull x = false.
Proof.
  apply (valid_row_has_no_null_after_zero_or_forward_fill
           Lab.read_csv Lab.strptime (Scenario.service 5 false 0)
           Scenario.A_dat (Scenario.labeled_filling zeroFill) []
           [Scenario.row_of 1000
              ++ [CFloat (F64.of_Z 0); CFloat (F64.of_Z 0);
                  CFloat (F64.of_Z 0)]]
           (Scenario.world 5 [Scenario.A_dat] [] true)
           (fst (fst (_process_series Lab.read_csv Lab.strptime
                           (Scenario.service 5 false 0) Scenario.A_dat
                           (Scenario.labeled_filling zeroFill) []
                           (Scenario.world 5 [Scenario.A_dat] [] true))))).
  - simpl. lia.
  - now left.
  - vm_compute. reflexivity.
Defined.

(** "A.dat" under [sample_size] 5 and backward filling: the row ends with
    a NULL value. *)
Lemma backward_fill_leaves_padding_null_witness :
  exists front x,
    [Scenario.row_of 1000
       ++ [CFloat F64.nan; CFloat F64.nan; CFloat F64.nan]]
    = [] ++ [front ++ [CFloat x]]
    /\ F64.isnull x = true.
Proof.
  apply (backward_fill_leaves_padding_null
           Lab.read_csv Lab.strptime (Scenario.service 5 false 0)
           Scenario.A_dat (Scenario.labeled_filling bfill) []
           [Scenario.row_of 1000
              ++ [CFloat F64.nan; CFloat F64.nan; CFloat F64.nan]]
           (Scenario.world 5 [Scenario.A_dat] [] true)
           (fst (fst (_process_series Lab.read_csv Lab.strptime
                           (Scenario.service 5 false 0) Scenario.A_dat
                           (Scenario.labeled_filling bfill) []
                           (Scenario.world 5 [Scenario.A_dat] [] true))))
           (map F64.of_Z [1; 2; 3])).
  - simpl. lia.
  - reflexivity.
  - reflexivity.
  - simpl. lia.
  - vm_compute. reflexivity.
Defined.

(** "A.dat", valid, is removed; "B.dat" stays. *)
Lemma processed_series_leaves_the_input_dir_witness :
  input_dir
    (fst (fst (_process_series Lab.read_csv Lab.strptime
                 (Scenario.service 2 false 0) Scenario.A_dat
                 (Scenario.labeled_filling zeroFill) []
                 (Scenario.world 2 [Scenario.A_dat; Scenario.B_dat] []
                    true))))
  = filter (fun g => negb (String.eqb (name g) "A.dat"))
           [Scenario.A_dat; Scenario.B_dat].
Proof.
  apply (processed_series_leaves_the_input_dir
           Lab.read_csv Lab.strptime (Scenario.service 2 false 0)
           Scenario.A_dat (Scenario.labeled_filling zeroFill) []
           [Scenario.row_of 1000]
           (Scenario.world 2 [Scenario.A_dat; Scenario.B_dat] [] true)
           (fst (fst (_process_series Lab.read_csv Lab.strptime
                           (Scenario.service 2 false 0) Scenario.A_dat
                           (Scenario.labeled_filling zeroFill) []
                           (Scenario.world 2 [Scenario.A_dat; Scenario.B_dat] [] true))))
           (PyOk true)).
  vm_compute. reflexivity.
Defined.



(** Single-core mode, [max_series] 1, three input series: the count is 1,
    between 0 and 3 and not above the limit. *)
Lemma ingested_count_is_bounded_witness :
  0 <= 1
    <= Z.of_nat
         (List.length
            (filter (has_extension
                       (type_conf (Scenario.service 2 false 0) labeled))
                    [Scenario.empty_dat; Scenario.A_dat; Scenario.B_dat]))
  /\ (multi_core_enable (_conf (Scenario.service 2 false 0)) = false ->
      0 < 1 -> 1 <= 1).
Proof.
  apply (ingested_count_is_bounded
           Lab.read_csv Lab.strptime Lab.read_output (Scenario.to_csv 2)
           (Scenario.service 2 false 0) labeled (Some (PyInt 1))
           (Scenario.world 2
              [Scenario.empty_dat; Scenario.A_dat; Scenario.B_dat] [] true)
           (fst (Scenario.ingest 2 false 0 (Some (PyInt 1))
                   (Scenario.world 2
                      [Scenario.empty_dat; Scenario.A_dat; Scenario.B_dat]
                      [] true)))
           1).
  vm_compute. reflexivity.
Defined.

(** "README" is there after the run. *)
Lemma other_files_stay_in_the_input_dir_witness :
  In Scenario.readme
     (input_dir
        (fst (Scenario.ingest 2 false 0 None
                (Scenario.world 2 [Scenario.readme; Scenario.A_dat] []
                   true)))).
Proof.
  apply (other_files_stay_in_the_input_dir
           Lab.read_csv Lab.strptime Lab.read_output (Scenario.to_csv 2)
           (Scenario.service 2 false 0) labeled None
           (Scenario.world 2 [Scenario.readme; Scenario.A_dat] [] true)
           Scenario.readme).
  - now left.
  - reflexivity.
Defined.

(** "README", "empty.dat" and "A.dat" can be read, checked and removed. *)
Lemma scenario_files_accessible (f : SeriesFile) :
  In f [Scenario.readme; Scenario.empty_dat; Scenario.A_dat] ->
  has_extension (Scenario.labeled_filling zeroFill) f = true ->
  accessible Lab.read_csv (Scenario.labeled_filling zeroFill) f.
Proof.
  intros [<-|[<-|[<-|[]]]] X; try discriminate;
    (split; [reflexivity|]; split; [reflexivity|]);
    intros e H; vm_compute in H; try discriminate;
    injection H as <-; reflexivity.
Qed.

(** A run without limit on "README", "empty.dat" and "A.dat" leaves
    "README" alone. *)
Lemma unlimited_run_empties_the_input_dir_of_series_witness :
  input_dir
    (fst (Scenario.ingest 2 false 0 None
            (Scenario.world 2
               [Scenario.readme; Scenario.empty_dat; Scenario.A_dat] []
               true)))
  = filter (fun f => negb (has_extension
                             (Scenario.labeled_filling zeroFill) f))
           [Scenario.readme; Scenario.empty_dat; Scenario.A_dat].
Proof.
  apply (unlimited_run_empties_the_input_dir_of_series
           Lab.read_csv Lab.strptime Lab.read_output (Scenario.to_csv 2)
           (Scenario.service 2 false 0) labeled
           (Scenario.world 2
              [Scenario.readme; Scenario.empty_dat; Scenario.A_dat] []
              true)
           (fst (Scenario.ingest 2 false 0 None
                   (Scenario.world 2
                      [Scenario.readme; Scenario.empty_dat; Scenario.A_dat]
                      [] true)))
           1).
  - exact scenario_files_accessible.
  - now right.
  - reflexivity.
  - right. simpl. lia.
  - vm_compute. reflexivity.
Defined.

(** Two tasks, three input series: the count is 1 in both modes. *)
Lemma multi_core_run_agrees_with_single_core_run_witness :
  exists w2,
    _ingest_series Lab.read_csv Lab.strptime Lab.read_output
      (Scenario.to_csv 2) (single_core (Scenario.service 2 true 2)) labeled
      None
      (Scenario.world 2 [Scenario.empty_dat; Scenario.A_dat; Scenario.B_dat]
         [] true)
    = (w2, PyOk 1)
    /\ same_but_trace
         (fst (Scenario.ingest 2 true 2 None
                 (Scenario.world 2
                    [Scenario.empty_dat; Scenario.A_dat; Scenario.B_dat] []
                    true)))
         w2.
Proof.
  apply (multi_core_run_agrees_with_single_core_run
           Lab.read_csv Lab.strptime Lab.read_output (Scenario.to_csv 2)
           (Scenario.service 2 true 2) labeled
           (Scenario.world 2
              [Scenario.empty_dat; Scenario.A_dat; Scenario.B_dat] [] true)
           (fst (Scenario.ingest 2 true 2 None
                   (Scenario.world 2
                      [Scenario.empty_dat; Scenario.A_dat; Scenario.B_dat]
                      [] true)))
           1).
  - reflexivity.
  - simpl. lia.
  - vm_compute. reflexivity.
Defined.

(** Three input series for two tasks. *)
Lemma multi_core_sections_are_balanced_witness :
  exists input_series_division,
    process_input_series Lab.read_csv Lab.strptime
      (Scenario.service 2 true 2) (Scenario.labeled_filling zeroFill) 0
      [Scenario.empty_dat; Scenario.A_dat; Scenario.B_dat]
      (Scenario.world 2
         [Scenario.empty_dat; Scenario.A_dat; Scenario.B_dat] [] true)
    = run_tasks Lab.read_csv Lab.strptime (Scenario.service 2 true 2)
        (Scenario.labeled_filling zeroFill) input_series_division []
        (Scenario.world 2
           [Scenario.empty_dat; Scenario.A_dat; Scenario.B_dat] [] true)
    /\ List.length input_series_division
       = Nat.min
           (List.length [Scenario.empty_dat; Scenario.A_dat; Scenario.B_dat])
           (_pipes (Scenario.service 2 true 2))
    /\ List.concat input_series_division
       = [Scenario.empty_dat; Scenario.A_dat; Scenario.B_dat]
    /\ forall a b,
         In a input_series_division -> In b input_series_division ->
         a <> [] /\ (List.length a <= S (List.length b))%nat.
Proof.
  apply (multi_core_sections_are_balanced
           Lab.read_csv Lab.strptime (Scenario.service 2 true 2)
           (Scenario.labeled_filling zeroFill) 0
           [Scenario.empty_dat; Scenario.A_dat; Scenario.B_dat]
           (Scenario.world 2
              [Scenario.empty_dat; Scenario.A_dat; Scenario.B_dat] []
              true)).
  - reflexivity.
  - simpl. lia.
  - discriminate.
Defined.

(** The second of two equal new rows is dropped; the first stands for
    it. *)
Lemma deduplication_loses_no_series_witness :
  exists k,
    In k (fst (drop_new_duplicates
                 ([Scenario.int_row_of 5]
                    ++ [Scenario.int_row_of 1000; Scenario.int_row_of 2000])
                 [Scenario.int_row_of 1000; Scenario.int_row_of 2000]))
    /\ same_series k (Scenario.int_row_of 2000) = true.
Proof.
  apply (deduplication_loses_no_series
           [Scenario.int_row_of 5]
           [Scenario.int_row_of 1000; Scenario.int_row_of 2000]
           (Scenario.int_row_of 2000)).
  simpl. auto.
Defined.

(** An output file of the headers and one row. *)
Lemma accepted_output_file_starts_with_the_expected_header_witness :
  res_file ("timestamp,ANOMALOUS,x0,x1" +++ String Py.newline "5,1,2,3")
  = res_file ("timestamp,ANOMALOUS,x0,x1" +++ String Py.newline "5,1,2,3")
  /\ @nil LogRecord = []
  /\ (Py.readline
        ("timestamp,ANOMALOUS,x0,x1" +++ String Py.newline "5,1,2,3")
      = Py.join
          (output_series_separator
             (conf_labeled (Scenario.configuration 2 false)))
          (series_columns (Scenario.configuration 2 false))
      \/ Py.readline
           ("timestamp,ANOMALOUS,x0,x1" +++ String Py.newline "5,1,2,3")
         = Py.join
             (output_series_separator
                (conf_labeled (Scenario.configuration 2 false)))
             (series_columns (Scenario.configuration 2 false))
           +++ String Py.newline EmptyString).
Proof.
  apply (accepted_output_file_starts_with_the_expected_header
           (Scenario.configuration 2 false)
           (conf_labeled (Scenario.configuration 2 false))
           ("timestamp,ANOMALOUS,x0,x1" +++ String Py.newline "5,1,2,3")
           []).
  - discriminate.
  - vm_compute. reflexivity.
Defined.



(** A start-up on a blank disk creates the six paths. *)
Lemma start_up_creates_what_is_missing_and_keeps_the_rest_witness :
  checked (Scenario.configuration 2 false)
    (conf_labeled (Scenario.configuration 2 false)) exp_dir
    res_missing res_dir
  /\ checked (Scenario.configuration 2 false)
       (conf_unlabeled (Scenario.configuration 2 false)) exp_dir
       res_missing res_dir
  /\ checked (Scenario.configuration 2 false)
       (conf_labeled (Scenario.configuration 2 false)) exp_file
       res_missing (res_file "timestamp,ANOMALOUS,x0,x1")
  /\ checked (Scenario.configuration 2 false)
       (conf_unlabeled (Scenario.configuration 2 false)) exp_file
       res_missing (res_file "timestamp,ANOMALOUS,x0,x1")
  /\ checked (Scenario.configuration 2 false)
       (conf_labeled (Scenario.configuration 2 false)) exp_dir
       res_missing res_dir
  /\ checked (Scenario.configuration 2 false)
       (conf_unlabeled (Scenario.configuration 2 false)) exp_dir
       res_missing res_dir.
Proof.
  exact (start_up_creates_what_is_missing_and_keeps_the_rest
           (Scenario.configuration 2 false) 8 Scenario.blank_disk
           Scenario.created_disk
           (fst (__init__ (Scenario.configuration 2 false) 8
                   Scenario.blank_disk))
           (Scenario.service 2 false 0) eq_refl).
Defined.

(** Eight CPUs under a limit of one: single-core mode, no task, and the
    warning. *)
Lemma multi_core_mode_needs_two_cpus_witness :
  multi_core_enable (_conf (snd (init_mode (Scenario.limited 1) 8))) = false
  /\ _pipes (snd (init_mode (Scenario.limited 1) 8)) = O
  /\ fst (init_mode (Scenario.limited 1) 8) = [W msg_single_core_fallback].
Proof.
  pose proof (multi_core_mode_needs_two_cpus (Scenario.limited 1) 8) as H.
  cbv zeta in H.
  destruct H as (A & _ & B & C & _); [lia|].
  assert (E : multi_core_enable
                (_conf (snd (init_mode (Scenario.limited 1) 8))) = false).
  { destruct (multi_core_enable _) eqn:X; [|reflexivity].
    destruct (proj1 A eq_refl) as [_ Y]. exfalso. apply Y. now right. }
  split; [exact E|]. split; [exact (B E)|].
  apply C; [reflexivity | now right].
Defined.
